(** * run.py: the multi-operations script

    A shallow embedding of [MultiOperationsScript] (src/run.py): the
    constructor with its command-line parser, the secret lookup, the MS SQL
    provisioning sequence, the SSH inspection, the WinRM bridge and the
    [run] sequencer, as state-passing functions over an explicit trace of
    the calls the script makes on its collaborators (Secrets Manager, the
    SQL driver, the SSH client, the WinRM session and the logger).  The
    collaborators themselves are not part of run.py: their outcomes are
    read from a [world] record.  The SQL server is modelled from the spec,
    as a small state machine that reads the five statement texts the
    script sends. *)

From Stdlib Require Import ZArith QArith DecimalString DecimalZ DecimalPos Ascii.
From stdpp Require Import gmap strings list.

#[local] Set Warnings "-register-all".
#[local] Open Scope Z_scope.

(** ** Python string operations used by the script *)

(** A Python [str] is held as the bytes of its UTF-8 encoding: a character
    below U+0080 is one [ascii], any other character two to four. *)
Module Py.

(** [sep.join(parts)] *)
Fixpoint join (sep : string) (parts : list string) : string :=
  match parts with
  | [] => ""
  | [p] => p
  | p :: ps => p +:+ sep +:+ join sep ps
  end.

(** [hay.startswith(needle)] *)
Fixpoint startswith (needle hay : string) : bool :=
  match needle, hay with
  | "", _ => true
  | String a n, String b h => if decide (a = b) then startswith n h else false
  | String _ _, "" => false
  end.

(** [needle in hay] on two strings: substring test. *)
Fixpoint contains (needle hay : string) : bool :=
  startswith needle hay ||
  match hay with
  | "" => false
  | String _ h => contains needle h
  end.

(** Positions (from [i]) at which [needle] occurs in [hay]. *)
Fixpoint occurrences_from (i : nat) (needle hay : string) : list nat :=
  (if startswith needle hay then [i] else []) ++
  match hay with
  | "" => []
  | String _ h => occurrences_from (S i) needle h
  end.

Definition occurrences : string → string → list nat := occurrences_from 0.

(** [String.drop n s] : the suffix of [s] after its first [n] characters. *)
Fixpoint drop (n : nat) (s : string) : string :=
  match n, s with
  | O, _ => s
  | S n, String _ s => drop n s
  | S _, "" => ""
  end.

(** [hay.replace(old, new)] for a non-empty [old]: leftmost occurrences,
    not overlapping.  [fuel] bounds the scan by the length of [hay]. *)
Fixpoint replace_go (fuel : nat) (old new hay : string) : string :=
  match fuel with
  | O => hay
  | S fuel =>
      match hay with
      | "" => ""
      | String c h =>
          if startswith old hay
          then new +:+ replace_go fuel old new (drop (String.length old) hay)
          else String c (replace_go fuel old new h)
      end
  end.

Definition replace (old new hay : string) : string :=
  replace_go (String.length hay) old new hay.

(** [s.split(sep)] for a one-character separator. *)
Fixpoint split_go (sep : Ascii.ascii) (cur : string) (s : string) : list string :=
  match s with
  | "" => [String.rev cur]
  | String c s =>
      if decide (c = sep) then String.rev cur :: split_go sep "" s
      else split_go sep (String c cur) s
  end.

Definition split (sep : Ascii.ascii) (s : string) : list string := split_go sep "" s.

(** The byte of a character of the encoding. *)
Definition byte (c : Ascii.ascii) : nat := Ascii.nat_of_ascii c.

(** The characters [str.strip()] removes, those of [str.isspace]:
    U+0009-U+000D and U+001C-U+0020 (one byte); U+0085 and U+00A0 (two
    bytes); U+1680, U+2000-U+200A, U+2028, U+2029, U+202F, U+205F and
    U+3000 (three bytes). *)
Definition is_space (c : Ascii.ascii) : bool :=
  let n := byte c in
  ((9 <=? n) && (n <=? 13) || (28 <=? n) && (n <=? 32))%nat.

Definition is_space2 (c d : Ascii.ascii) : bool :=
  ((byte c =? 194) && ((byte d =? 133) || (byte d =? 160)))%nat.

Definition is_space3 (c d e : Ascii.ascii) : bool :=
  let n := byte e in
  ((byte c =? 225) && (byte d =? 154) && (n =? 128)
   || (byte c =? 226) && (byte d =? 128)
      && ((128 <=? n) && (n <=? 138) || (n =? 168) || (n =? 169) || (n =? 175))
   || (byte c =? 226) && (byte d =? 129) && (n =? 159)
   || (byte c =? 227) && (byte d =? 128) && (n =? 128))%nat.

(** [s.lstrip()] *)
Fixpoint lstrip (s : string) : string :=
  match s with
  | "" => ""
  | String c s1 =>
      if is_space c then lstrip s1
      else
        match s1 with
        | "" => s
        | String d s2 =>
            if is_space2 c d then lstrip s2
            else
              match s2 with
              | "" => s
              | String e s3 => if is_space3 c d e then lstrip s3 else s
              end
        end
  end.

(** [s.rstrip()] on the reversed text: the bytes of a character come last
    byte first. *)
Fixpoint rstrip_rev (s : string) : string :=
  match s with
  | "" => ""
  | String c s1 =>
      if is_space c then rstrip_rev s1
      else
        match s1 with
        | "" => s
        | String d s2 =>
            if is_space2 d c then rstrip_rev s2
            else
              match s2 with
              | "" => s
              | String e s3 => if is_space3 e d c then rstrip_rev s3 else s
              end
        end
  end.

(** [s.strip()] *)
Definition strip (s : string) : string :=
  String.rev (rstrip_rev (String.rev (lstrip s))).

(** [str(n)] and the [{n}] of an f-string, for an integer. *)
Definition str_of_int (n : Z) : string := NilZero.string_of_int (Z.to_int n).

(** [int(x)] on a float: truncation toward zero. *)
Definition int_of_float (x : Q) : Z := Z.quot (Qnum x) (Z.pos (Qden x)).

(** [int(s)] is modelled on plain texts: ASCII only, and no longer than the
    4300 digits the interpreter converts without a limit error.  Unicode
    digits and spaces, and longer texts, are left to the world. *)
Fixpoint all_ascii (s : string) : bool :=
  match s with
  | "" => true
  | String c s => (byte c <? 128)%nat && all_ascii s
  end.

Definition plain (s : string) : bool :=
  all_ascii s && (String.length s <=? 4300)%nat.

(** The white space [int] skips around an ASCII literal: C's [isspace]. *)
Definition is_c_space (c : Ascii.ascii) : bool :=
  let n := byte c in ((9 <=? n) && (n <=? 13) || (n =? 32))%nat.

Fixpoint lstrip_c (s : string) : string :=
  match s with
  | "" => ""
  | String c s' => if is_c_space c then lstrip_c s' else s
  end.

Definition strip_c (s : string) : string :=
  String.rev (lstrip_c (String.rev (lstrip_c s))).

Definition digit_of (c : Ascii.ascii) : option Z :=
  let n := byte c in
  if ((48 <=? n) && (n <=? 57))%nat then Some (Z.of_nat n - 48) else None.

(** Decimal digits, single underscores allowed between two digits;
    [after_digit] says that the character before was a digit. *)
Fixpoint digits_go (acc : Z) (after_digit : bool) (s : string) : option Z :=
  match s with
  | "" => if after_digit then Some acc else None
  | String c s =>
      if decide (c = "_"%char)
      then (if after_digit then digits_go acc false s else None)
      else d ← digit_of c; digits_go (10 * acc + d) true s
  end.

Definition digits (s : string) : option Z := digits_go 0 false s.

(** [int(s)] on a plain text: surrounding white space, an optional sign
    and the digits; [None] stands for the ValueError. *)
Definition int_of_str (s : string) : option Z :=
  match strip_c s with
  | String "-"%char s' => Z.opp <$> digits s'
  | String "+"%char s' => digits s'
  | s' => digits s'
  end.

(** [repr(s)] of an ASCII text. *)
Definition hex_digit (n : nat) : Ascii.ascii :=
  default "0"%char (String.get n "0123456789abcdef").

Fixpoint has (c : Ascii.ascii) (s : string) : bool :=
  match s with
  | "" => false
  | String x s => bool_decide (x = c) || has c s
  end.

Definition repr_char (quote c : Ascii.ascii) : string :=
  let n := byte c in
  if bool_decide (c = quote) || bool_decide (c = "\"%char)
  then String "\"%char (String c "")
  else if (n =? 9)%nat then "\t"
  else if (n =? 10)%nat then "\n"
  else if (n =? 13)%nat then "\r"
  else if ((n <? 32) || (n =? 127))%nat
  then "\x" +:+ String (hex_digit (n / 16)) (String (hex_digit (n mod 16)) "")
  else String c "".

Fixpoint repr_chars (quote : Ascii.ascii) (s : string) : string :=
  match s with
  | "" => ""
  | String c s => repr_char quote c +:+ repr_chars quote s
  end.

Definition repr (s : string) : string :=
  let quote :=
    if has "'"%char s && negb (has "034"%char s) then "034"%char else "'"%char in
  String quote (repr_chars quote s) +:+ String quote "".

(** The text of the ValueError of [int(s)]: the literal is shown through
    [repr], cut to 200 characters. *)
Definition invalid_literal (s : string) : string :=
  "invalid literal for int() with base 10: " +:+ String.substring 0 200 (repr s).

End Py.

(** ** Exceptions and results *)

(** [Exception cls msg] is an instance of a subclass [cls] of Python's
    [Exception] with [str(e) = msg]; [SystemExit] is what [sys.exit] raises
    and is not caught by [except Exception]. *)
Inductive exn :=
| Exception (cls msg : string)
| SystemExit (code : Z).

Definition str_exn (e : exn) : string :=
  match e with
  | Exception _ msg => msg
  | SystemExit code => Py.str_of_int code
  end.

Inductive result (A : Type) :=
| Ok (a : A)
| Raise (e : exn).
Arguments Ok {A} a.
Arguments Raise {A} e.

(** ** The values [json.loads] produces *)

Inductive json :=
| JNull
| JBool (b : bool)
| JInt (z : Z)
| JFloat (q : Q)
| JStr (s : string)
| JArr (l : list json)
| JObj (m : gmap string json).

Definition type_name (v : json) : string :=
  match v with
  | JNull => "NoneType" | JBool _ => "bool" | JInt _ => "int"
  | JFloat _ => "float" | JStr _ => "str" | JArr _ => "list" | JObj _ => "dict"
  end.

Definition is_str (key : string) (v : json) : bool :=
  match v with
  | JStr s => bool_decide (s = key)
  | _ => false
  end.

(** [key in v] for a string [key]: key membership on a dict, element
    equality on a list, substring on a string, TypeError otherwise. *)
Definition py_in (key : string) (v : json) : result bool :=
  match v with
  | JObj m => Ok (bool_decide (is_Some (m !! key)))
  | JArr l => Ok (existsb (is_str key) l)
  | JStr s => Ok (Py.contains key s)
  | _ => Raise (Exception "TypeError"
                  ("argument of type '" +:+ type_name v +:+ "' is not iterable"))
  end.

(** [all(key in v for key in keys)]: stops at the first [False]. *)
Fixpoint py_all_in (keys : list string) (v : json) : result bool :=
  match keys with
  | [] => Ok true
  | key :: keys =>
      match py_in key v with
      | Ok true => py_all_in keys v
      | r => r
      end
  end.

(** [v[key]] for a string [key]. *)
Definition py_getitem (v : json) (key : string) : result json :=
  match v with
  | JObj m =>
      match m !! key with
      | Some x => Ok x
      | None => Raise (Exception "KeyError" ("'" +:+ key +:+ "'"))
      end
  | JArr _ => Raise (Exception "TypeError" "list indices must be integers or slices, not str")
  | JStr _ => Raise (Exception "TypeError" "string indices must be integers, not 'str'")
  | _ => Raise (Exception "TypeError"
                  ("'" +:+ type_name v +:+ "' object is not subscriptable"))
  end.

Definition dq : string := String "034"%char "".
Definition nl : string := String "010"%char "".

(** ** The SQL server *)

(** Modelled from the spec: the SQL server behind [pymssql] is not part of
    the repository; what a statement does is taken from section 4.2.  The
    database, the schema and the table are created idempotently ("skip if
    an object of that name already exists"); the table has an
    "auto-incrementing integer identity primary key", which IDENTITY(1,1)
    starts at 1 and steps by 1; the rows of the table are selected back "in
    insertion order".  The server reads the text it is sent: it knows the
    five statements below by their text and refuses any other text. *)
Module Sql.

Record row := Row {
  ID : Z;
  Name : string;
  Description : string;
  CreatedDate : string }.

Record table := Table {
  rows : list row;          (* in clustered-key (identity) order *)
  next_identity : Z }.

Record database := Database {
  schemas : gset string;
  tables : gmap string table }.

Record server := Server {
  databases : gmap string database;
  getdate : string }.

(** The statements the server knows. *)
Inductive stmt :=
| CreateDatabaseIfNotExists (db_name : string)
| CreateSchemaIfNotExists (schema_name : string)
| CreateTableIfNotExists (table_name : string)
| InsertInto (table_name : string)
| SelectAllFrom (table_name : string).

Definition error {A} (msg : string) : result A :=
  Raise (Exception "pymssql.OperationalError" msg).

(** The text after the prefix [p] of [s]. *)
Fixpoint strip_prefix (p s : string) : option string :=
  match p, s with
  | "", _ => Some s
  | String a p, String b s => if decide (a = b) then strip_prefix p s else None
  | String _ _, "" => None
  end.

(** [s] cut before its first [c]. *)
Fixpoint cut (c : Ascii.ascii) (s : string) : string * string :=
  match s with
  | "" => ("", "")
  | String x s' =>
      if decide (x = c) then ("", s)
      else let '(a, b) := cut c s' in (String x a, b)
  end.

(** A name that ends at [c] and is followed by exactly [rest name]. *)
Definition name_then (c : Ascii.ascii) (rest : string → string)
    (mk : string → stmt) (s : string) : option stmt :=
  let '(name, after) := cut c s in
  if decide (after = rest name) then Some (mk name) else None.

(** The columns of the one table definition the server knows. *)
Definition table_columns : string :=
  nl +:+ "                ID INT PRIMARY KEY IDENTITY(1,1),"
  +:+ nl +:+ "                Name NVARCHAR(100) NOT NULL,"
  +:+ nl +:+ "                Description NVARCHAR(MAX),"
  +:+ nl +:+ "                CreatedDate DATETIME DEFAULT GETDATE()"
  +:+ nl +:+ "            )"
  +:+ nl +:+ "            ".

(** The statement a text stands for, if it is one of the five. *)
Definition parse (text : string) : option stmt :=
  match strip_prefix
          "IF NOT EXISTS (SELECT name FROM master.dbo.sysdatabases WHERE name = N'"
          text with
  | Some s =>
      name_then "'" (λ n, "') CREATE DATABASE " +:+ n) CreateDatabaseIfNotExists s
  | None =>
  match strip_prefix
          "IF NOT EXISTS (SELECT schema_name FROM information_schema.schemata WHERE schema_name = '"
          text with
  | Some s =>
      name_then "'" (λ n, "') EXEC sp_executesql N'CREATE SCHEMA " +:+ n +:+ "'")
        CreateSchemaIfNotExists s
  | None =>
  match strip_prefix (nl +:+ "            IF OBJECT_ID('") text with
  | Some s =>
      name_then "'"
        (λ n, "', 'U') IS NULL" +:+ nl +:+ "            CREATE TABLE " +:+ n
              +:+ " (" +:+ table_columns)
        CreateTableIfNotExists s
  | None =>
  match strip_prefix "INSERT INTO " text with
  | Some s =>
      name_then " " (λ _, " (Name, Description) VALUES (%s, %s)") InsertInto s
  | None =>
  match strip_prefix "SELECT * FROM " text with
  | Some s => Some (SelectAllFrom s)
  | None => None
  end end end end end.

Definition new_database : database :=
  {| schemas := {["dbo"]}; tables := ∅ |}.

Definition new_table : table :=
  {| rows := []; next_identity := 1 |}.

(** The schema part of a qualified table name. *)
Definition schema_of (table_name : string) : string :=
  match Py.split "."%char table_name with
  | [schema; _] => schema
  | _ => "dbo"
  end.

(** The length of a text in NVARCHAR units (UTF-16): one for each
    character, two for a character of four bytes. *)
Fixpoint width (s : string) : nat :=
  match s with
  | "" => 0
  | String c s =>
      let n := Py.byte c in
      ((if (n <? 128) || (192 <=? n) then 1 else 0)
       + (if 240 <=? n then 1 else 0) + width s)%nat
  end.

Definition set_database (name : string) (db : database) (srv : server) : server :=
  {| databases := <[name := db]> (databases srv); getdate := getdate srv |}.

Definition set_table (name : string) (t : table) (db : database) : database :=
  {| schemas := schemas db; tables := <[name := t]> (tables db) |}.

(** [exec_in db q params now]: the effect of a statement on the database
    in use, and the rows it returns. *)
Definition exec_in (db : database) (q : stmt) (params : list string)
    (now : string) : result (list row * database) :=
  match q with
  | CreateDatabaseIfNotExists _ => Ok ([], db)
  | CreateSchemaIfNotExists s =>
      if decide (s ∈ schemas db) then Ok ([], db)
      else Ok ([], {| schemas := {[s]} ∪ schemas db; tables := tables db |})
  | CreateTableIfNotExists t =>
      match tables db !! t with
      | Some _ => Ok ([], db)
      | None =>
          if decide (schema_of t ∈ schemas db)
          then Ok ([], set_table t new_table db)
          else error ("The specified schema name does not exist: " +:+ schema_of t)
      end
  | InsertInto t =>
      match tables db !! t, params with
      | None, _ => error ("Invalid object name " +:+ t)
      | Some tb, [name; description] =>
          if (100 <? width name)%nat
          then error "String or binary data would be truncated"
          else
            let r := {| ID := next_identity tb; Name := name;
                        Description := description; CreatedDate := now |} in
            Ok ([], set_table t {| rows := rows tb ++ [r];
                                   next_identity := next_identity tb + 1 |} db)
      | Some _, _ => error "wrong number of parameters"
      end
  | SelectAllFrom t =>
      match tables db !! t with
      | None => error ("Invalid object name " +:+ t)
      | Some tb => Ok (rows tb, db)
      end
  end.

(** [exec use q params srv]: statement [q] with [params] on a connection
    whose selected database is [use] ([None]: the login's default,
    master).  CREATE DATABASE acts on the server, the other statements on
    the database in use.  Each statement takes effect at once. *)
Definition exec (use : option string) (q : stmt) (params : list string)
    (srv : server) : result (list row * server) :=
  match q with
  | CreateDatabaseIfNotExists name =>
      match databases srv !! name with
      | Some _ => Ok ([], srv)
      | None => Ok ([], set_database name new_database srv)
      end
  | _ =>
      let current := default "master" use in
      match databases srv !! current with
      | None => error ("Cannot open database " +:+ current)
      | Some db =>
          match exec_in db q params (getdate srv) with
          | Ok (rows, db') => Ok (rows, set_database current db' srv)
          | Raise e => Raise e
          end
      end
  end.

(** [run use text params srv]: the text the driver sends, read and
    executed. *)
Definition run (use : option string) (text : string) (params : list string)
    (srv : server) : result (list row * server) :=
  match parse text with
  | Some q => exec use q params srv
  | None => error "Incorrect syntax"
  end.

(** A server with only its system database. *)
Definition fresh (now : string) : server :=
  {| databases := {["master" := new_database]}; getdate := now |}.

End Sql.

(** ** Events, the process state and the world *)

Inductive level := INFO | WARNING | ERROR.

#[global] Instance level_eq_dec : EqDecision level.
Proof. solve_decision. Defined.

(** What [session.run_ps] returns, with both streams already decoded
    ([decode('utf-8', 'ignore')] cannot fail). *)
Record response := Response {
  status_code : Z;
  std_out : string;
  std_err : string }.

(** The calls the script makes on its collaborators, in the order made. *)
Inductive event :=
| Log (lvl : level) (msg : string)
| GetSecretValue (region_name secret_id : string)
| DbConnect (server : string) (port : Z) (user password : json)
    (database : option string)
| DbCursor (c : nat)
| DbAutocommit (c : nat)
| DbExecute (c : nat) (sql : string) (params : list string)
| DbCommit (c : nat)
| DbFetchall (c : nat) (rows : list Sql.row)
| DbClose (c : nat)
| SshConnect (hostname username key_filename : string) (timeout : Z)
| SshExecCommand (cmd : string)
| SshClose
| WinrmSession (target user password transport : string)
    (server_cert_validation : option string)
| WinrmRunPs (script : string).

(** A session that has been opened and not yet closed. *)
Inductive session :=
| DbSession (c : nat)
| SshSession (hostname : string).

#[global] Instance session_eq_dec : EqDecision session.
Proof. solve_decision. Defined.

Record state := State {
  trace : list event;
  server : Sql.server;
  sessions : list session;
  next_conn : nat }.

(** The parsed command line ([self.args]). *)
Record namespace := Namespace {
  mssql_url : string;
  aws_secret_name : string;
  aws_region : string;
  ssh_host : string;
  ssh_user : string;
  ssh_key_path : string;
  winrm_host : string;
  winrm_user : string;
  winrm_password : string;
  winrm_port : Z;
  winrm_use_ssl : bool }.

(** Everything the script reads from outside itself.  A call that fails
    raises the exception the world gives for it; [db_fault] is asked before
    every driver call, with the calls made so far.  [parse_exit] and [args]
    are argparse's reading of [sys.argv[1:]]: the status with which the
    parser exits (0 after --help, 2 after a usage error) if it does, and the
    namespace it returns otherwise.  [int_of_text] is [int] on the texts
    [Py.plain] leaves out. *)
Record world := World {
  sys_argv : list string;
  parse_exit : option Z;
  args : namespace;
  platform_platform : string;
  platform_python_version : string;
  time_time : Q;
  os_path_abspath : string → result string;
  os_path_isfile : string → bool;
  int_of_text : string → result Z;
  get_secret_value : string → string → result (gmap string string);
  json_loads : string → result json;
  db_fault : list event → option exn;
  ssh_connect : option exn;
  ssh_exec_command : string → result (string * string);
  winrm_session_fault : option exn;
  winrm_run_ps : string → result response }.

(** ** The monad of the script: state and exceptions *)

Definition M (A : Type) : Type := state → result A * state.

#[global] Instance M_ret : MRet M := λ A a s, (Ok a, s).

#[global] Instance M_bind : MBind M := λ A B f m s,
  match m s with
  | (Ok a, s') => f a s'
  | (Raise e, s') => (Raise e, s')
  end.

Definition raise {A} (e : exn) : M A := λ s, (Raise e, s).

Definition lift {A} (r : result A) : M A := λ s, (r, s).

Definition emit (ev : event) : M unit := λ s,
  (Ok (), {| trace := trace s ++ [ev]; server := server s;
             sessions := sessions s; next_conn := next_conn s |}).

(** [try: body except Exception as e: handler e] *)
Definition try_except {A} (body : M A) (handler : exn → M A) : M A := λ s,
  match body s with
  | (Raise (Exception cls msg), s') => handler (Exception cls msg) s'
  | r => r
  end.

(** [for x in xs: body x] *)
Fixpoint for_each {A} (xs : list A) (body : A → M unit) : M unit :=
  match xs with
  | [] => mret ()
  | x :: xs => body x;; for_each xs body
  end.

Definition when (b : bool) (m : M unit) : M unit := if b then m else mret ().

Definition logger (lvl : level) (msg : string) : M unit := emit (Log lvl msg).

(** Python's truth value of a string. *)
Definition nonempty (s : string) : bool :=
  match s with "" => false | _ => true end.

(** Flag to prevent recursive WinRM execution *)
Definition RECURSION_FLAG : string := "--no-winrm-recursion".

(** ** The statement texts and the sample rows *)

(** The text [_perform_mssql_operations] formats for each statement. *)
Definition sql_text (q : Sql.stmt) : string :=
  match q with
  | Sql.CreateDatabaseIfNotExists db_name =>
      "IF NOT EXISTS (SELECT name FROM master.dbo.sysdatabases WHERE name = N'"
      +:+ db_name +:+ "') CREATE DATABASE " +:+ db_name
  | Sql.CreateSchemaIfNotExists schema_name =>
      "IF NOT EXISTS (SELECT schema_name FROM information_schema.schemata WHERE schema_name = '"
      +:+ schema_name +:+ "') EXEC sp_executesql N'CREATE SCHEMA " +:+ schema_name +:+ "'"
  | Sql.CreateTableIfNotExists table_name =>
      nl +:+ "            IF OBJECT_ID('" +:+ table_name +:+ "', 'U') IS NULL"
      +:+ nl +:+ "            CREATE TABLE " +:+ table_name +:+ " ("
      +:+ nl +:+ "                ID INT PRIMARY KEY IDENTITY(1,1),"
      +:+ nl +:+ "                Name NVARCHAR(100) NOT NULL,"
      +:+ nl +:+ "                Description NVARCHAR(MAX),"
      +:+ nl +:+ "                CreatedDate DATETIME DEFAULT GETDATE()"
      +:+ nl +:+ "            )"
      +:+ nl +:+ "            "
  | Sql.InsertInto table_name =>
      "INSERT INTO " +:+ table_name +:+ " (Name, Description) VALUES (%s, %s)"
  | Sql.SelectAllFrom table_name =>
      "SELECT * FROM " +:+ table_name
  end.

(** The text of the INSERT statement of Step 6. *)
Definition insert_text : string :=
  "INSERT INTO ExampleSchema.ExampleTable (Name, Description) VALUES (%s, %s)".

Definition sample_data : list (string * string) :=
  [ ("Sample Item 1", "This is a description for sample item 1");
    ("Sample Item 2", "This is a description for sample item 2");
    ("Sample Item 3", "This is a description for sample item 3") ].

(** [f"ExampleDB_{int(time.time())}"] *)
Definition db_name_at (now : Q) : string :=
  "ExampleDB_" +:+ Py.str_of_int (Py.int_of_float now).

Definition schema_name : string := "ExampleSchema".

Definition table_name : string := schema_name +:+ ".ExampleTable".

(** An open [pymssql] connection: its number and the database selected
    when it was opened. *)
Record connection := Connection {
  conn_id : nat;
  conn_database : option string }.

(** The WinRM commands of the Probe steps. *)
Definition ipconfig_cmd : string :=
  "ipconfig | findstr /i " +:+ dq +:+ "IPv4 Address" +:+ dq.

Definition userdomain_cmd : string := "echo %USERDOMAIN%".

(** [script_args]: the original arguments and the recursion flag. *)
Definition script_args (argv : list string) : string :=
  Py.join " " (tail argv) +:+ " " +:+ RECURSION_FLAG.

(** [ps_script]: the PowerShell text sent at Step 5. *)
Definition ps_script (script_args : string) : string :=
  nl +:+ "            Write-Host " +:+ dq
     +:+ "=== RUNNING PYTHON SCRIPT ON REMOTE SYSTEM (SIMULATION) ===" +:+ dq
  +:+ nl +:+ "            Write-Host " +:+ dq
     +:+ "Script would be executed with these arguments: " +:+ script_args +:+ dq
  +:+ nl +:+ "            Write-Host " +:+ dq +:+ "Current system: $env:COMPUTERNAME" +:+ dq
  +:+ nl +:+ "            Write-Host " +:+ dq +:+ "Current user: $env:USERNAME" +:+ dq
  +:+ nl +:+ "            Write-Host " +:+ dq
     +:+ "Recursion prevention active: True (via " +:+ RECURSION_FLAG +:+ ")" +:+ dq
  +:+ nl +:+ "            Write-Host " +:+ dq
     +:+ "Script execution completed on remote system" +:+ dq
  +:+ nl +:+ "            ".

(** The text of [ps_script] before the space that precedes the arguments,
    and after the quote that follows them. *)
Definition ps_script_head : string :=
  nl +:+ "            Write-Host " +:+ dq
     +:+ "=== RUNNING PYTHON SCRIPT ON REMOTE SYSTEM (SIMULATION) ===" +:+ dq
  +:+ nl +:+ "            Write-Host " +:+ dq
     +:+ "Script would be executed with these arguments:".

Definition ps_script_tail : string :=
  nl +:+ "            Write-Host " +:+ dq +:+ "Current system: $env:COMPUTERNAME" +:+ dq
  +:+ nl +:+ "            Write-Host " +:+ dq +:+ "Current user: $env:USERNAME" +:+ dq
  +:+ nl +:+ "            Write-Host " +:+ dq
     +:+ "Recursion prevention active: True (via " +:+ RECURSION_FLAG +:+ ")" +:+ dq
  +:+ nl +:+ "            Write-Host " +:+ dq
     +:+ "Script execution completed on remote system" +:+ dq
  +:+ nl +:+ "            ".

(** The arguments of [winrm.Session(...)] in [_perform_winrm_operations]. *)
Definition winrm_protocol (a : namespace) : string :=
  if winrm_use_ssl a then "ntlm" else "http".

Definition winrm_endpoint (a : namespace) : string :=
  winrm_protocol a +:+ "://" +:+ winrm_host a +:+ ":"
  +:+ Py.str_of_int (winrm_port a) +:+ "/wsman".

Definition winrm_session_event (a : namespace) : event :=
  WinrmSession (winrm_host a) (winrm_user a) (winrm_password a)
    (winrm_protocol a)
    (if winrm_use_ssl a then Some "ignore" else None).

(** ** The command line *)

(** The option strings of the parser [_setup_argument_parser] builds, with
    the two of the help option argparse adds. *)
Definition option_strings : list string :=
  [ "-h"; "--help";
    "--mssql-url"; "--aws-secret-name"; "--aws-region";
    "--ssh-host"; "--ssh-user"; "--ssh-key-path";
    "--winrm-host"; "--winrm-user"; "--winrm-password"; "--winrm-port";
    "--winrm-use-ssl" ].

(** An argument argparse reads as an option it does not know: it starts
    with two dashes, has no '=' and no space, and abbreviates none of the
    option strings.  With such an argument on the command line
    [parse_args] does not return. *)
Definition unrecognized (a : string) : bool :=
  Py.startswith "--" a
  && negb (Py.has "="%char a) && negb (Py.has " "%char a)
  && forallb (λ o, negb (Py.startswith a o)) option_strings.

(** ** The collaborators' calls *)

Section Script.
Context (w : world).

Definition set_sessions (f : list session → list session) : M unit := λ s,
  (Ok (), {| trace := trace s; server := server s;
             sessions := f (sessions s); next_conn := next_conn s |}).

(** Asked before each driver call returns: does it fail? *)
Definition driver_fault : M unit := λ s,
  match db_fault w (trace s) with
  | Some e => (Raise e, s)
  | None => (Ok (), s)
  end.

(** The state with one more open connection, numbered [next_conn]. *)
Definition add_connection (s : state) : state :=
  {| trace := trace s; server := server s;
     sessions := sessions s ++ [DbSession (next_conn s)];
     next_conn := S (next_conn s) |}.

Definition set_server (srv : Sql.server) (s : state) : state :=
  {| trace := trace s; server := srv;
     sessions := sessions s; next_conn := next_conn s |}.

(** Does the server lack the database a login asks for? *)
Definition database_missing (database : option string) (srv : Sql.server) : bool :=
  match database with
  | Some d => bool_decide (Sql.databases srv !! d = None)
  | None => false
  end.

(** The server's side of a login: the database asked for must exist; the
    connection is then open. *)
Definition server_login (database : option string) : M connection := λ s,
  if database_missing database (server s)
  then (Sql.error ("Cannot open database " +:+ default "" database), s)
  else (Ok {| conn_id := next_conn s; conn_database := database |},
        add_connection s).

(** [pymssql.connect(server, port, user, password, database)] *)
Definition pymssql_connect (server_addr : string) (port : Z)
    (user password : json) (database : option string) : M connection :=
  emit (DbConnect server_addr port user password database);;
  driver_fault;;
  server_login database.

(** [conn.autocommit(True)] *)
Definition conn_autocommit (conn : connection) : M unit :=
  emit (DbAutocommit (conn_id conn));; driver_fault.

(** [conn.cursor()] *)
Definition conn_cursor (conn : connection) : M unit :=
  emit (DbCursor (conn_id conn));; driver_fault.

(** The server's side of a statement: it reads the text sent. *)
Definition server_exec (conn : connection) (sql : string)
    (params : list string) : M (list Sql.row) := λ s,
  match Sql.run (conn_database conn) sql params (server s) with
  | Ok (rows, srv) => (Ok rows, set_server srv s)
  | Raise e => (Raise e, s)
  end.

(** [cursor.execute(sql, params)]; the rows of a SELECT stay in the cursor. *)
Definition cursor_execute (conn : connection) (sql : string)
    (params : list string) : M (list Sql.row) :=
  emit (DbExecute (conn_id conn) sql params);;
  driver_fault;;
  server_exec conn sql params.

(** [conn.commit()] *)
Definition conn_commit (conn : connection) : M unit :=
  emit (DbCommit (conn_id conn));; driver_fault.

(** [cursor.fetchall()] on the rows left by the last [execute]. *)
Definition cursor_fetchall (conn : connection) (rows : list Sql.row) :
    M (list Sql.row) :=
  emit (DbFetchall (conn_id conn) rows);; driver_fault;; mret rows.

(** [conn.close()] *)
Definition conn_close (conn : connection) : M unit :=
  emit (DbClose (conn_id conn));;
  driver_fault;;
  set_sessions (filter (λ x, x ≠ DbSession (conn_id conn))).

(** [ssh_client.connect(hostname, username, key_filename, timeout)] *)
Definition ssh_client_connect (hostname username key_filename : string)
    (timeout : Z) : M unit :=
  emit (SshConnect hostname username key_filename timeout);;
  match ssh_connect w with
  | Some e => raise e
  | None => set_sessions (λ l, l ++ [SshSession hostname])
  end.

(** [ssh_client.exec_command(cmd)], giving the decoded texts of
    [stdout.read()] and [stderr.read()]. *)
Definition ssh_client_exec_command (cmd : string) : M (string * string) :=
  emit (SshExecCommand cmd);; lift (ssh_exec_command w cmd).

(** [ssh_client.close()] *)
Definition ssh_client_close (hostname : string) : M unit :=
  emit SshClose;;
  set_sessions (filter (λ x, x ≠ SshSession hostname)).

(** [winrm.Session(host, auth=(user, password), transport=..., server_cert_validation=...)] *)
Definition winrm_Session (a : namespace) : M unit :=
  emit (winrm_session_event a);;
  match winrm_session_fault w with
  | Some e => raise e
  | None => mret ()
  end.

(** [session.run_ps(script)] *)
Definition session_run_ps (script : string) : M response :=
  emit (WinrmRunPs script);; lift (winrm_run_ps w script).

(** [int(s)] *)
Definition py_int (s : string) : M Z :=
  if Py.plain s then
    match Py.int_of_str s with
    | Some z => mret z
    | None => raise (Exception "ValueError" (Py.invalid_literal s))
    end
  else lift (int_of_text w s).

(** [sys.argv[0]] *)
Definition sys_argv_0 : M string :=
  match sys_argv w with
  | [] => raise (Exception "IndexError" "list index out of range")
  | script :: _ => mret script
  end.

(** ** [MultiOperationsScript] *)

(** [self.parser.parse_args()]: the parser exits when the world says so,
    and with status 2 when an argument is an option it does not know;
    otherwise it returns [args w]. *)
Definition parse_args : M unit :=
  match parse_exit w with
  | Some code => raise (SystemExit code)
  | None => when (existsb unrecognized (tail (sys_argv w))) (raise (SystemExit 2))
  end.

(** [self.prevent_winrm_recursion = RECURSION_FLAG in sys.argv] *)
Definition prevent_winrm_recursion : bool :=
  bool_decide (RECURSION_FLAG ∈ sys_argv w).

(** [__init__]: the parser is built ([argparse.ArgumentParser] takes the
    program name from [sys.argv[0]]), the command line is parsed, the guard
    is read, and three lines are logged. *)
Definition __init__ : M unit :=
  sys_argv_0;;
  parse_args;;
  logger INFO "Initializing Multi-Operations Script";;
  logger INFO ("Running on: " +:+ platform_platform w);;
  logger INFO ("Python version: " +:+ platform_python_version w).

(** [_get_aws_secret]: the parsed secret, or [None] ([JNull]) when the
    response has no 'SecretString'. *)
Definition _get_aws_secret (secret_name region_name : string) : M json :=
  logger INFO ("Retrieving credentials from AWS Secrets Manager: " +:+ secret_name);;
  try_except
    (emit (GetSecretValue region_name secret_name);;
     get_secret_value_response ← lift (get_secret_value w region_name secret_name);
     match get_secret_value_response !! "SecretString" with
     | Some text =>
         secret ← lift (json_loads w text);
         logger INFO "Successfully retrieved secret";;
         mret secret
     | None => mret JNull
     end)
    (λ e,
       logger ERROR ("Error retrieving AWS secret: " +:+ str_exn e);;
       raise e).

(** Step 1 of [_perform_mssql_operations]: the credentials. *)
Definition mssql_credentials : M (json * json) :=
  logger INFO "Step 1: Retrieving MS SQL credentials from AWS Secrets Manager";;
  credentials ← _get_aws_secret (aws_secret_name (args w)) (aws_region (args w));
  has_keys ← lift (py_all_in ["username"; "password"] credentials);
  when (negb has_keys)
    (raise (Exception "ValueError"
              "AWS Secret is missing required keys: username, password"));;
  username ← lift (py_getitem credentials "username");
  password ← lift (py_getitem credentials "password");
  mret (username, password).

(** Server and port out of [--mssql-url]. *)
Definition mssql_address : M (string * Z) :=
  let server_parts :=
    Py.split ":"%char (Py.replace "sqlserver://" "" (mssql_url (args w))) in
  let server_addr := hd "" server_parts in
  port ← (if (1 <? length server_parts)%nat
          then py_int (nth 1 server_parts "") else mret 1433);
  mret (server_addr, port).

(** Steps 2 and 3: connect without a database, create the database, close. *)
Definition mssql_create_database (server_addr : string) (port : Z)
    (username password : json) : M string :=
  logger INFO ("Step 2: Connecting to MS SQL Server at " +:+ server_addr
               +:+ ":" +:+ Py.str_of_int port);;
  conn ← pymssql_connect server_addr port username password None;
  conn_cursor conn;;
  logger INFO "Successfully connected to MS SQL Server";;
  let db_name := db_name_at (time_time w) in
  logger INFO ("Step 3: Creating new database: " +:+ db_name);;
  conn_autocommit conn;;
  cursor_execute conn (sql_text (Sql.CreateDatabaseIfNotExists db_name)) [];;
  logger INFO ("Database '" +:+ db_name +:+ "' created successfully");;
  conn_close conn;;
  mret db_name.

(** Step 6: [for name, description in sample_data: cursor.execute(...)] *)
Definition mssql_insert (conn : connection) (data : list (string * string)) :
    M unit :=
  for_each data (λ '(name, description),
    cursor_execute conn (sql_text (Sql.InsertInto table_name))
      [name; description];;
    mret ()).

(** Steps 4 to 7 on a connection to the new database, then the close. *)
Definition mssql_provision (server_addr : string) (port : Z)
    (username password : json) (db_name : string) : M (list Sql.row) :=
  conn ← pymssql_connect server_addr port username password (Some db_name);
  conn_cursor conn;;
  logger INFO ("Step 4: Creating schema: " +:+ schema_name);;
  cursor_execute conn (sql_text (Sql.CreateSchemaIfNotExists schema_name)) [];;
  conn_commit conn;;
  logger INFO ("Schema '" +:+ schema_name +:+ "' created successfully");;
  logger INFO ("Step 5: Creating table: " +:+ table_name);;
  cursor_execute conn (sql_text (Sql.CreateTableIfNotExists table_name)) [];;
  conn_commit conn;;
  logger INFO ("Table '" +:+ table_name +:+ "' created successfully");;
  logger INFO "Step 6: Inserting sample data";;
  mssql_insert conn sample_data;;
  conn_commit conn;;
  logger INFO ("Successfully inserted "
               +:+ Py.str_of_int (Z.of_nat (length sample_data))
               +:+ " sample records");;
  logger INFO "Step 7: Retrieving inserted data";;
  result_set ← cursor_execute conn (sql_text (Sql.SelectAllFrom table_name)) [];
  rows ← cursor_fetchall conn result_set;
  logger INFO ("Retrieved " +:+ Py.str_of_int (Z.of_nat (length rows))
               +:+ " rows from " +:+ table_name +:+ ":");;
  for_each rows (λ row,
    logger INFO ("  ID: " +:+ Py.str_of_int (Sql.ID row)
                 +:+ ", Name: " +:+ Sql.Name row
                 +:+ ", Description: " +:+ Sql.Description row
                 +:+ ", Created: " +:+ Sql.CreatedDate row));;
  conn_close conn;;
  mret rows.

Definition mssql_body : M (list Sql.row) :=
  '(username, password) ← mssql_credentials;
  '(server_addr, port) ← mssql_address;
  db_name ← mssql_create_database server_addr port username password;
  rows ← mssql_provision server_addr port username password db_name;
  logger INFO "MS SQL operations completed successfully";;
  mret rows.

Definition _perform_mssql_operations : M unit :=
  logger INFO "=== STARTING MS SQL OPERATIONS ===";;
  try_except
    (mssql_body;; mret ())
    (λ e,
       logger ERROR ("Error during MS SQL operations: " +:+ str_exn e);;
       raise e).

(** The lookup of Steps 3 and 4 of [_perform_ssh_operations]: a warning
    when the stripped output is empty. *)
Definition ssh_lookup (cmd found missing : string) : M unit :=
  '(stdout, stderr) ← ssh_client_exec_command cmd;
  let output := Py.strip stdout in
  if nonempty output
  then logger INFO (found +:+ output)
  else
    let error := Py.strip stderr in
    logger WARNING (missing +:+ error).

Definition ssh_commands : list string :=
  [ "uname -a"; "cat /etc/os-release | grep PRETTY_NAME"; "uptime" ].

(** The loop of Step 5: the output is logged when there is one. *)
Definition ssh_system_information (commands : list string) : M unit :=
  for_each commands (λ cmd,
    '(stdout, stderr) ← ssh_client_exec_command cmd;
    let output := Py.strip stdout in
    when (nonempty output)
      (logger INFO ("Command '" +:+ cmd +:+ "' output: " +:+ output))).

Definition ssh_body : M unit :=
  let a := args w in
  logger INFO ("Step 1: Validating SSH key file at " +:+ ssh_key_path a);;
  when (negb (os_path_isfile w (ssh_key_path a)))
    (raise (Exception "FileNotFoundError"
              ("SSH key file not found: " +:+ ssh_key_path a)));;
  logger INFO ("Step 2: Connecting to SSH server at " +:+ ssh_host a);;
  ssh_client_connect (ssh_host a) (ssh_user a) (ssh_key_path a) 10;;
  logger INFO ("Successfully established SSH connection to " +:+ ssh_host a);;
  logger INFO "Step 3: Retrieving IP address information";;
  ssh_lookup "hostname -I" "Remote system IP addresses: "
    "Could not retrieve IP addresses. Error: ";;
  logger INFO "Step 4: Retrieving domain name information";;
  ssh_lookup "hostname -f" "Remote system domain name: "
    "Could not retrieve domain name. Error: ";;
  logger INFO "Step 5: Retrieving system information";;
  ssh_system_information ssh_commands;;
  ssh_client_close (ssh_host a);;
  logger INFO "SSH operations completed successfully".

Definition _perform_ssh_operations : M unit :=
  logger INFO "=== STARTING SSH OPERATIONS ===";;
  try_except ssh_body
    (λ e,
       logger ERROR ("Error during SSH operations: " +:+ str_exn e);;
       raise e).

(** Step 1 of [_perform_winrm_operations]: the session. *)
Definition winrm_init : M unit :=
  let a := args w in
  logger INFO ("Step 1: Establishing WinRM connection to " +:+ winrm_host a);;
  logger INFO ("Connecting to WinRM endpoint: " +:+ winrm_endpoint a);;
  winrm_Session a.

(** Step 3: the two lookups; a non-zero status is only a warning. *)
Definition winrm_probe : M unit :=
  logger INFO "Step 3: Retrieving IP and domain information";;
  result ← session_run_ps ipconfig_cmd;
  (if decide (status_code result = 0)
   then logger INFO ("Remote system IP information:" +:+ nl
                     +:+ Py.strip (std_out result))
   else logger WARNING "Could not retrieve IP information");;
  result ← session_run_ps userdomain_cmd;
  (if decide (status_code result = 0)
   then logger INFO ("Remote system domain: " +:+ Py.strip (std_out result))
   else logger WARNING "Could not retrieve domain information").

(** Steps 4 and 5: the script text with the recursion flag, and its run. *)
Definition winrm_dispatch : M unit :=
  logger INFO "Step 4: Preparing for script execution on remote system";;
  script ← sys_argv_0;
  current_script ← lift (os_path_abspath w script);
  logger INFO ("Current script path: " +:+ current_script);;
  logger INFO "Step 5: Executing script simulation on remote system";;
  result ← session_run_ps (ps_script (script_args (sys_argv w)));
  (if decide (status_code result = 0)
   then logger INFO ("Remote execution output:" +:+ nl
                     +:+ Py.strip (std_out result))
   else
     logger ERROR ("Failed to execute script on remote system. Error: "
                   +:+ Py.strip (std_err result));;
     raise (Exception "RuntimeError" "Remote script execution failed")).

Definition _perform_winrm_operations : M unit :=
  logger INFO "=== STARTING WINRM OPERATIONS (REMOTE DESKTOP CONNECTION) ===";;
  try_except
    (winrm_init;;
     winrm_probe;;
     winrm_dispatch;;
     logger INFO "WinRM operations completed successfully")
    (λ e,
       logger ERROR ("Error during WinRM operations: " +:+ str_exn e);;
       raise e).

(** [run]: the three operations in sequence; any [Exception] is logged and
    turned into [sys.exit(1)]. *)
Definition run : M unit :=
  try_except
    (logger INFO "Starting operations sequence";;
     _perform_mssql_operations;;
     _perform_ssh_operations;;
     (if negb prevent_winrm_recursion
      then _perform_winrm_operations
      else logger INFO "Skipping WinRM operations (recursion prevention active)");;
     logger INFO "All operations completed successfully")
    (λ e,
       logger ERROR ("Error during operations: " +:+ str_exn e);;
       raise (SystemExit 1)).

(** The script as a process: the object is made, then [run] is called on
    it. *)
Definition main : M unit := __init__;; run.

End Script.

(** The process at start: nothing logged or called, no session open. *)
Definition initial (srv : Sql.server) : state :=
  {| trace := []; server := srv; sessions := []; next_conn := 0 |}.

(** The exit status of the process for the outcome of [run]. *)
Definition exit_status (r : result unit) : Z :=
  match r with
  | Ok _ => 0
  | Raise (SystemExit code) => code
  | Raise (Exception _ _) => 1
  end.

(** ** Observations on a trace *)

Definition is_winrm (ev : event) : bool :=
  match ev with
  | WinrmSession _ _ _ _ _ | WinrmRunPs _ => true
  | _ => false
  end.

(** The texts of the [run_ps] calls. *)
Definition run_ps_calls (tr : list event) : list string :=
  omap (λ ev, match ev with WinrmRunPs script => Some script | _ => None end) tr.

(** The commands of the [exec_command] calls. *)
Definition exec_command_calls (tr : list event) : list string :=
  omap (λ ev, match ev with SshExecCommand cmd => Some cmd | _ => None end) tr.

(** The texts and parameters of the [cursor.execute] calls. *)
Definition execute_calls (tr : list event) : list (string * list string) :=
  omap (λ ev, match ev with DbExecute _ sql params => Some (sql, params) | _ => None end) tr.

(** The row sets [cursor.fetchall] returned. *)
Definition fetched (tr : list event) : list (list Sql.row) :=
  omap (λ ev, match ev with DbFetchall _ rows => Some rows | _ => None end) tr.

(** The messages logged at a level. *)
Definition logged (lvl : level) (tr : list event) : list string :=
  omap (λ ev, match ev with
              | Log l msg => if decide (l = lvl) then Some msg else None
              | _ => None
              end) tr.

(** The calls on the SQL server, the SSH host and the WinRM host. *)
Definition is_remote (ev : event) : bool :=
  match ev with
  | Log _ _ | GetSecretValue _ _ => false
  | _ => true
  end.

Definition remote_calls (tr : list event) : list event :=
  omap (λ ev, if is_remote ev then Some ev else None) tr.

(** The WinRM calls: the session and every [run_ps]. *)
Definition winrm_calls (tr : list event) : list event :=
  omap (λ ev, if is_winrm ev then Some ev else None) tr.

(** The events recorded between two states of one run. *)
Definition since (s s' : state) : list event :=
  drop (length (trace s)) (trace s').

(** The secret store holds [payload] under the configured name: the
    response has a 'SecretString' and [json.loads] gives [payload]. *)
Definition secret_payload (w : world) (payload : json) : Prop :=
  ∃ resp text,
    get_secret_value w (aws_region (args w)) (aws_secret_name (args w)) = Ok resp ∧
    resp !! "SecretString" = Some text ∧
    json_loads w text = Ok payload.

(** A character of a string. *)
Fixpoint has_char (c : Ascii.ascii) (s : string) : bool :=
  match s with
  | "" => false
  | String x s => bool_decide (x = c) || has_char c s
  end.

(** The new database once it has the schema. *)
Definition schema_only : Sql.database :=
  {| Sql.schemas := {[schema_name]} ∪ Sql.schemas Sql.new_database;
     Sql.tables := ∅ |}.

(** The database with the schema and the table, the table holding [rows]
    and giving [next] as its next identity value. *)
Definition example_database (rows : list Sql.row) (next : Z) : Sql.database :=
  {| Sql.schemas := Sql.schemas schema_only;
     Sql.tables := {[ table_name := {| Sql.rows := rows; Sql.next_identity := next |} ]} |}.

(** The rows an empty table holds after [data] is inserted at time [now]:
    identity values from 1, in insertion order. *)
Definition inserted_rows (now : string) (data : list (string * string)) :
    list Sql.row :=
  imap (λ i row, {| Sql.ID := 1 + Z.of_nat i; Sql.Name := row.1;
                    Sql.Description := row.2; Sql.CreatedDate := now |}) data.

(** An event that is not a WinRM call. *)
Definition not_winrm (ev : event) : Prop := is_winrm ev = false.

(** An argument in which the text of the flag does not occur. *)
Definition no_flag_text (a : string) : Prop :=
  Py.contains RECURSION_FLAG a = false.


(** The five commands of the inspection, in the order run. *)
Definition ssh_battery : list string :=
  ["hostname -I"; "hostname -f"] ++ ssh_commands.

(** The warning of a lookup whose stripped output is empty. *)
Definition lookup_warning (missing : string) (streams : string * string) :
    list string :=
  if nonempty (Py.strip streams.1) then [] else [missing +:+ Py.strip streams.2].

(** The events of a lookup whose command gave [streams]. *)
Definition lookup_events (cmd found missing : string)
    (streams : string * string) : list event :=
  [ SshExecCommand cmd;
    if nonempty (Py.strip streams.1)
    then Log INFO (found +:+ Py.strip streams.1)
    else Log WARNING (missing +:+ Py.strip streams.2) ].

(** The events of the Step 5 loop when each command gives [streams cmd]. *)
Definition system_information_events (streams : string → string * string)
    (commands : list string) : list event :=
  flat_map (λ cmd,
    SshExecCommand cmd ::
    if nonempty (Py.strip (streams cmd).1)
    then [Log INFO ("Command '" +:+ cmd +:+ "' output: " +:+ Py.strip (streams cmd).1)]
    else []) commands.

(** The events of a shell operation that completes, its commands giving
    [streams]. *)
Definition ssh_events (a : namespace) (streams : string → string * string) :
    list event :=
  [ Log INFO "=== STARTING SSH OPERATIONS ===";
    Log INFO ("Step 1: Validating SSH key file at " +:+ ssh_key_path a);
    Log INFO ("Step 2: Connecting to SSH server at " +:+ ssh_host a);
    SshConnect (ssh_host a) (ssh_user a) (ssh_key_path a) 10;
    Log INFO ("Successfully established SSH connection to " +:+ ssh_host a);
    Log INFO "Step 3: Retrieving IP address information" ]
  ++ lookup_events "hostname -I" "Remote system IP addresses: "
       "Could not retrieve IP addresses. Error: " (streams "hostname -I")
  ++ [ Log INFO "Step 4: Retrieving domain name information" ]
  ++ lookup_events "hostname -f" "Remote system domain name: "
       "Could not retrieve domain name. Error: " (streams "hostname -f")
  ++ [ Log INFO "Step 5: Retrieving system information" ]
  ++ system_information_events streams ssh_commands
  ++ [ SshClose; Log INFO "SSH operations completed successfully" ].

(** ** Stages and further observations *)

(** The events of the database operation: log lines, the secret lookup and
    the driver calls. *)
Definition database_event (ev : event) : Prop :=
  match ev with
  | Log _ _ | GetSecretValue _ _ | DbConnect _ _ _ _ _ | DbCursor _
  | DbAutocommit _ | DbExecute _ _ _ | DbCommit _ | DbFetchall _ _
  | DbClose _ => True
  | _ => False
  end.

(** The events of the shell operation: log lines and the SSH calls. *)
Definition ssh_event (ev : event) : Prop :=
  match ev with
  | Log _ _ | SshConnect _ _ _ _ | SshExecCommand _ | SshClose => True
  | _ => False
  end.

(** The events of the WinRM operation: log lines and the WinRM calls. *)
Definition winrm_event (ev : event) : Prop :=
  match ev with
  | Log _ _ | WinrmSession _ _ _ _ _ | WinrmRunPs _ => True
  | _ => False
  end.

Definition is_ssh (ev : event) : bool :=
  match ev with
  | SshConnect _ _ _ _ | SshExecCommand _ | SshClose => true
  | _ => false
  end.

(** The SSH calls: connect, every [exec_command], close. *)
Definition ssh_calls (tr : list event) : list event :=
  omap (λ ev, if is_ssh ev then Some ev else None) tr.

Definition is_driver_call (ev : event) : bool :=
  match ev with
  | DbConnect _ _ _ _ _ | DbCursor _ | DbAutocommit _ | DbExecute _ _ _
  | DbCommit _ | DbFetchall _ _ | DbClose _ => true
  | _ => false
  end.

(** The calls on the SQL driver. *)
Definition driver_calls (tr : list event) : list event :=
  omap (λ ev, if is_driver_call ev then Some ev else None) tr.

(** The connection a driver call is made on; [connect] has none yet. *)
Definition conn_of (ev : event) : option nat :=
  match ev with
  | DbCursor c | DbAutocommit c | DbExecute c _ _ | DbCommit c
  | DbFetchall c _ | DbClose c => Some c
  | _ => None
  end.

(** The connection left open when the database operation raises after the
    events [evs]: the one its last driver call was made on; none when that
    call was [connect], or when no driver call was made. *)
Definition left_open (evs : list event) : list session :=
  match last (driver_calls evs) ≫= conn_of with
  | Some c => [DbSession c]
  | None => []
  end.

(** The driver calls of Steps 2 and 3 on connection [c]. *)
Definition create_database_calls (server_addr : string) (port : Z)
    (username password : json) (c : nat) (db_name : string) : list event :=
  [ DbConnect server_addr port username password None;
    DbCursor c;
    DbAutocommit c;
    DbExecute c (sql_text (Sql.CreateDatabaseIfNotExists db_name)) [];
    DbClose c ].

(** The driver calls of Steps 4 to 7 on connection [c], the read-back
    giving [rows]. *)
Definition provision_calls (server_addr : string) (port : Z)
    (username password : json) (c : nat) (db_name : string)
    (rows : list Sql.row) : list event :=
  [ DbConnect server_addr port username password (Some db_name);
    DbCursor c;
    DbExecute c (sql_text (Sql.CreateSchemaIfNotExists schema_name)) [];
    DbCommit c;
    DbExecute c (sql_text (Sql.CreateTableIfNotExists table_name)) [];
    DbCommit c ]
  ++ map (λ row, DbExecute c insert_text [row.1; row.2]) sample_data
  ++ [ DbCommit c;
       DbExecute c (sql_text (Sql.SelectAllFrom table_name)) [];
       DbFetchall c rows;
       DbClose c ].

(** [never_returns m]: [m] always ends in an exception. *)
Definition never_returns {A} (m : M A) : Prop :=
  ∀ s a, (m s).1 ≠ Ok a.

(** [no_error_on_return m]: when [m] returns, it has logged no error. *)
Definition no_error_on_return {A} (m : M A) : Prop :=
  ∀ s a, (m s).1 = Ok a →
    logged ERROR (trace (m s).2) = logged ERROR (trace s).

(** The secret lookup fails with [e]: the store call raises it, or
    [json.loads] does on the 'SecretString' of the response. *)
Definition secret_fails (w : world) (e : exn) : Prop :=
  get_secret_value w (aws_region (args w)) (aws_secret_name (args w)) = Raise e ∨
  ∃ resp text,
    get_secret_value w (aws_region (args w)) (aws_secret_name (args w)) = Ok resp ∧
    resp !! "SecretString" = Some text ∧
    json_loads w text = Raise e.

(** The warning of a Probe call that came back with [result]. *)
Definition probe_warning (message : string) (result : response) : list string :=
  if decide (status_code result = 0) then [] else [message].

(** The rows a table whose next identity value is [first] receives when
    [data] is inserted at time [now]. *)
Definition inserted_rows_from (first : Z) (now : string)
    (data : list (string * string)) : list Sql.row :=
  imap (λ i row, {| Sql.ID := first + Z.of_nat i; Sql.Name := row.1;
                    Sql.Description := row.2; Sql.CreatedDate := now |}) data.

(** ** Reasoning about runs *)

(** [wp m Q s]: running [m] from [s] ends in an outcome and a state that
    satisfy [Q]. *)
Definition wp {A} (m : M A) (Q : result A → state → Prop) (s : state) : Prop :=
  Q (m s).1 (m s).2.

(** The state after one more event. *)
Definition record_event (ev : event) (s : state) : state := (emit ev s).2.

Definition record_events (evs : list event) (s : state) : state :=
  foldl (λ s ev, record_event ev s) s evs.

(** [emits_only P m]: whatever the outcome, [m] only adds events that
    satisfy [P] to the trace. *)
Definition emits_only {A} (P : event → Prop) (m : M A) : Prop :=
  ∀ s, ∃ evs, trace (m s).2 = trace s ++ evs ∧ Forall P evs.

(** [keeps_sessions m]: [m] leaves the set of open sessions as it is. *)
Definition keeps_sessions {A} (m : M A) : Prop :=
  ∀ s, sessions (m s).2 = sessions s.

(** ** Sample worlds *)

Module Sample.

Definition arguments : namespace :=
  {| mssql_url := "sqlserver://db.local:1433";
     aws_secret_name := "mssql/login";
     aws_region := "us-east-1";
     ssh_host := "10.0.0.7";
     ssh_user := "ops";
     ssh_key_path := "/keys/id_rsa";
     winrm_host := "10.0.0.9";
     winrm_user := "admin";
     winrm_password := "pw";
     winrm_port := 5985;
     winrm_use_ssl := false |}.

(** The command line [arguments] is parsed from. *)
Definition argv : list string :=
  [ "run.py";
    "--mssql-url"; "sqlserver://db.local:1433";
    "--aws-secret-name"; "mssql/login";
    "--ssh-host"; "10.0.0.7"; "--ssh-user"; "ops";
    "--ssh-key-path"; "/keys/id_rsa";
    "--winrm-host"; "10.0.0.9"; "--winrm-user"; "admin";
    "--winrm-password"; "pw" ].

Definition credentials : gmap string json :=
  {[ "username" := JStr "sa"; "password" := JStr "s3cret" ]}.

(** Every collaborator answers; each command prints one line. *)
Definition world_at (now : Q) (argv : list string) (secret : json)
    (stdout_of : string → string) (fault : list event → option exn) : world :=
  {| sys_argv := argv;
     parse_exit := None;
     args := arguments;
     platform_platform := "Linux-6.1.0-x86_64-with-glibc2.36";
     platform_python_version := "3.11.2";
     time_time := now;
     os_path_abspath := λ p, Ok ("/opt/tool/" +:+ p);
     os_path_isfile := λ _, true;
     int_of_text := λ _, Raise (Exception "ValueError" "invalid literal for int() with base 10");
     get_secret_value := λ _ _, Ok {[ "SecretString" := "<secret text>" ]};
     json_loads := λ _, Ok secret;
     db_fault := fault;
     ssh_connect := None;
     ssh_exec_command := λ cmd, Ok (stdout_of cmd, "");
     winrm_session_fault := None;
     winrm_run_ps := λ _, Ok {| status_code := 0; std_out := "done"; std_err := "" |} |}.

Definition no_fault : list event → option exn := λ _, None.

Definition line_of (cmd : string) : string := "output of " +:+ cmd +:+ nl.

Definition plain : world :=
  world_at (17000000002 # 10) argv (JObj credentials) line_of no_fault.

(** The same invocation, later in the same second. *)
Definition world_later : world :=
  world_at (17000000007 # 10) argv (JObj credentials) line_of no_fault.

(** The same command line with the script file named as the flag: the
    guard is set, and the parser has nothing to refuse. *)
Definition world_guarded : world :=
  world_at (17000000002 # 10) (RECURSION_FLAG :: tail argv) (JObj credentials)
    line_of no_fault.

(** A secret without a password. *)
Definition world_no_password : world :=
  world_at (17000000002 # 10) argv (JObj {[ "username" := JStr "sa" ]})
    line_of no_fault.

(** A response without 'SecretString' (a binary secret). *)
Definition world_binary_secret : world :=
  {| sys_argv := argv;
     parse_exit := None;
     args := arguments;
     platform_platform := "Linux-6.1.0-x86_64-with-glibc2.36";
     platform_python_version := "3.11.2";
     time_time := 17000000002 # 10;
     os_path_abspath := λ p, Ok p;
     os_path_isfile := λ _, true;
     int_of_text := λ _, Raise (Exception "ValueError" "invalid literal for int() with base 10");
     get_secret_value := λ _ _, Ok {[ "SecretBinary" := "<bytes>" ]};
     json_loads := λ _, Ok JNull;
     db_fault := no_fault;
     ssh_connect := None;
     ssh_exec_command := λ cmd, Ok (line_of cmd, "");
     winrm_session_fault := None;
     winrm_run_ps := λ _, Ok {| status_code := 0; std_out := ""; std_err := "" |} |}.

(** Every SSH command prints nothing. *)
Definition world_silent_host : world :=
  world_at (17000000002 # 10) argv (JObj credentials) (λ _, "") no_fault.

(** The server refuses every statement. *)
Definition statement_fault (tr : list event) : option exn :=
  match last tr with
  | Some (DbExecute _ _ _) =>
      Some (Exception "pymssql.OperationalError" "CREATE DATABASE permission denied")
  | _ => None
  end.

Definition world_denied : world :=
  world_at (17000000002 # 10) argv (JObj credentials) line_of statement_fault.

Definition start : state := initial (Sql.fresh "2024-01-01 00:00:00").

(** The secret store does not have the secret. *)
Definition world_store_down : world :=
  {| sys_argv := argv;
     parse_exit := None;
     args := arguments;
     platform_platform := "Linux-6.1.0-x86_64-with-glibc2.36";
     platform_python_version := "3.11.2";
     time_time := time_time plain;
     os_path_abspath := os_path_abspath plain;
     os_path_isfile := os_path_isfile plain;
     int_of_text := λ _, Raise (Exception "ValueError" "invalid literal for int() with base 10");
     get_secret_value := λ _ _,
       Raise (Exception "ClientError" "ResourceNotFoundException");
     json_loads := json_loads plain;
     db_fault := db_fault plain;
     ssh_connect := ssh_connect plain;
     ssh_exec_command := ssh_exec_command plain;
     winrm_session_fault := winrm_session_fault plain;
     winrm_run_ps := winrm_run_ps plain |}.

(** Every [run_ps] comes back with status 1. *)
Definition world_probe_refused : world :=
  {| sys_argv := argv;
     parse_exit := None;
     args := arguments;
     platform_platform := "Linux-6.1.0-x86_64-with-glibc2.36";
     platform_python_version := "3.11.2";
     time_time := time_time plain;
     os_path_abspath := os_path_abspath plain;
     os_path_isfile := os_path_isfile plain;
     int_of_text := λ _, Raise (Exception "ValueError" "invalid literal for int() with base 10");
     get_secret_value := get_secret_value plain;
     json_loads := json_loads plain;
     db_fault := db_fault plain;
     ssh_connect := ssh_connect plain;
     ssh_exec_command := ssh_exec_command plain;
     winrm_session_fault := None;
     winrm_run_ps := λ _,
       Ok {| status_code := 1; std_out := ""; std_err := "Access is denied" |} |}.

(** Every [run_ps] raises. *)
Definition world_winrm_down : world :=
  {| sys_argv := argv;
     parse_exit := None;
     args := arguments;
     platform_platform := "Linux-6.1.0-x86_64-with-glibc2.36";
     platform_python_version := "3.11.2";
     time_time := time_time plain;
     os_path_abspath := os_path_abspath plain;
     os_path_isfile := os_path_isfile plain;
     int_of_text := λ _, Raise (Exception "ValueError" "invalid literal for int() with base 10");
     get_secret_value := get_secret_value plain;
     json_loads := json_loads plain;
     db_fault := db_fault plain;
     ssh_connect := ssh_connect plain;
     ssh_exec_command := ssh_exec_command plain;
     winrm_session_fault := None;
     winrm_run_ps := λ _,
       Raise (Exception "WinRMTransportError" "Bad HTTP response") |}.

(** The SSH connection is made, then every command raises. *)
Definition world_ssh_drops : world :=
  {| sys_argv := argv;
     parse_exit := None;
     args := arguments;
     platform_platform := "Linux-6.1.0-x86_64-with-glibc2.36";
     platform_python_version := "3.11.2";
     time_time := time_time plain;
     os_path_abspath := os_path_abspath plain;
     os_path_isfile := os_path_isfile plain;
     int_of_text := λ _, Raise (Exception "ValueError" "invalid literal for int() with base 10");
     get_secret_value := get_secret_value plain;
     json_loads := json_loads plain;
     db_fault := db_fault plain;
     ssh_connect := None;
     ssh_exec_command := λ _, Raise (Exception "SSHException" "Channel closed");
     winrm_session_fault := winrm_session_fault plain;
     winrm_run_ps := winrm_run_ps plain |}.

(** The copy on the far end, started with the arguments the plain run
    builds for it. *)
Definition world_far_end : world :=
  world_at (17000000052 # 10)
    ("run.py" :: Py.split " " (script_args argv))
    (JObj credentials) line_of no_fault.

(** The key file is not there. *)
Definition world_no_key : world :=
  {| sys_argv := argv;
     parse_exit := None;
     args := arguments;
     platform_platform := "Linux-6.1.0-x86_64-with-glibc2.36";
     platform_python_version := "3.11.2";
     time_time := time_time plain;
     os_path_abspath := os_path_abspath plain;
     os_path_isfile := λ _, false;
     int_of_text := λ _, Raise (Exception "ValueError" "invalid literal for int() with base 10");
     get_secret_value := get_secret_value plain;
     json_loads := json_loads plain;
     db_fault := db_fault plain;
     ssh_connect := ssh_connect plain;
     ssh_exec_command := ssh_exec_command plain;
     winrm_session_fault := winrm_session_fault plain;
     winrm_run_ps := winrm_run_ps plain |}.

(** The SSH host refuses the connection. *)
Definition world_ssh_refused : world :=
  {| sys_argv := argv;
     parse_exit := None;
     args := arguments;
     platform_platform := "Linux-6.1.0-x86_64-with-glibc2.36";
     platform_python_version := "3.11.2";
     time_time := time_time plain;
     os_path_abspath := os_path_abspath plain;
     os_path_isfile := os_path_isfile plain;
     int_of_text := λ _, Raise (Exception "ValueError" "invalid literal for int() with base 10");
     get_secret_value := get_secret_value plain;
     json_loads := json_loads plain;
     db_fault := db_fault plain;
     ssh_connect := Some (Exception "AuthenticationException" "Authentication failed.");
     ssh_exec_command := ssh_exec_command plain;
     winrm_session_fault := winrm_session_fault plain;
     winrm_run_ps := winrm_run_ps plain |}.

(** The secret is a JSON list of the two key names. *)
Definition world_list_secret : world :=
  world_at (17000000002 # 10) argv (JArr [JStr "username"; JStr "password"])
    line_of no_fault.

(** The process started again on the server the plain run has left. *)
Definition provisioned : state :=
  initial (server (_perform_mssql_operations plain start).2).


(** The same command line with another [--winrm-port]. *)
Definition arguments_on_port (port : Z) : namespace :=
  {| mssql_url := mssql_url arguments;
     aws_secret_name := aws_secret_name arguments;
     aws_region := aws_region arguments;
     ssh_host := ssh_host arguments;
     ssh_user := ssh_user arguments;
     ssh_key_path := ssh_key_path arguments;
     winrm_host := winrm_host arguments;
     winrm_user := winrm_user arguments;
     winrm_password := winrm_password arguments;
     winrm_port := port;
     winrm_use_ssl := winrm_use_ssl arguments |}.

Definition world_on_port (port : Z) : world :=
  {| sys_argv := argv ++ ["--winrm-port"; Py.str_of_int port];
     parse_exit := None;
     args := arguments_on_port port;
     platform_platform := "Linux-6.1.0-x86_64-with-glibc2.36";
     platform_python_version := "3.11.2";
     time_time := time_time plain;
     os_path_abspath := os_path_abspath plain;
     os_path_isfile := os_path_isfile plain;
     int_of_text := λ _, Raise (Exception "ValueError" "invalid literal for int() with base 10");
     get_secret_value := get_secret_value plain;
     json_loads := json_loads plain;
     db_fault := db_fault plain;
     ssh_connect := ssh_connect plain;
     ssh_exec_command := ssh_exec_command plain;
     winrm_session_fault := winrm_session_fault plain;
     winrm_run_ps := winrm_run_ps plain |}.


End Sample.
Example join_ex : Py.join " " ["a"; "b"; "c"] = "a b c".
Proof. reflexivity. Qed.

Example replace_ex :
  Py.split ":"%char (Py.replace "sqlserver://" "" "sqlserver://db.local:1433")
  = ["db.local"; "1433"].
Proof. reflexivity. Qed.

Example strip_ex : Py.strip ("  10.0.0.7 " +:+ String "010"%char "") = "10.0.0.7".
Proof. reflexivity. Qed.

Example int_of_str_ex :
  Py.int_of_str " 1433" = Some 1433 ∧ Py.int_of_str "1_433" = Some 1433 ∧
  Py.int_of_str ("1433" +:+ String "028"%char "") = None ∧
  Py.invalid_literal ("14" +:+ String "028"%char "")
  = "invalid literal for int() with base 10: '14\x1c'".
Proof. split_and!; reflexivity. Qed.

Example strip_unicode_ex :
  Py.strip (String "194"%char (String "160"%char " ok")
            +:+ String "226"%char (String "128"%char (String "131"%char "")))
  = "ok".
Proof. reflexivity. Qed.

Example parse_ex :
  Sql.parse (sql_text (Sql.CreateTableIfNotExists table_name))
  = Some (Sql.CreateTableIfNotExists table_name) ∧
  Sql.parse "SELECT TOP 1 * FROM ExampleSchema.ExampleTable" = None.
Proof. split; reflexivity. Qed.

Example unrecognized_ex :
  unrecognized RECURSION_FLAG = true ∧ unrecognized "--winrm" = false ∧
  unrecognized "--winrm-password=--no-winrm-recursion" = false.
Proof. done. Qed.

Example str_of_int_ex : Py.str_of_int 1700000000 = "1700000000".
Proof. reflexivity. Qed.

Example int_of_float_ex : Py.int_of_float (17 # 10) = 1.
Proof. reflexivity. Qed.

(** ** Rules for [wp] *)

Lemma wp_ret {A} (a : A) Q s : Q (Ok a) s → wp (mret a) Q s.
Proof. done. Qed.

Lemma wp_raise {A} e (Q : result A → state → Prop) s :
  Q (Raise e) s → wp (raise e) Q s.
Proof. done. Qed.

Lemma wp_lift {A} (r : result A) Q s : Q r s → wp (lift r) Q s.
Proof. done. Qed.

Lemma wp_emit ev Q s : Q (Ok ()) (record_event ev s) → wp (emit ev) Q s.
Proof. done. Qed.

Lemma wp_bind {A B} (m : M A) (f : A → M B) Q s :
  wp m (λ r s', match r with
                | Ok a => wp (f a) Q s'
                | Raise e => Q (Raise e) s'
                end) s →
  wp (m ≫= f) Q s.
Proof.
  unfold wp, mbind, M_bind. by destruct (m s) as [[a|e] s'].
Qed.

Lemma wp_try_except {A} (body : M A) handler Q s :
  wp body (λ r s', match r with
                   | Raise (Exception cls msg) =>
                       wp (handler (Exception cls msg)) Q s'
                   | _ => Q r s'
                   end) s →
  wp (try_except body handler) Q s.
Proof.
  unfold wp, try_except. by destruct (body s) as [[a|[cls msg|code]] s'].
Qed.

Lemma wp_when b m Q s :
  (b = true → wp m Q s) → (b = false → Q (Ok ()) s) → wp (when b m) Q s.
Proof. destruct b; intros Ht Hf; [by apply Ht | by apply Hf]. Qed.

Lemma wp_mono {A} (m : M A) (Q Q' : result A → state → Prop) s :
  wp m Q s → (∀ r s', Q r s' → Q' r s') → wp m Q' s.
Proof. unfold wp. auto. Qed.

Lemma wp_set_sessions f Q s :
  Q (Ok ()) (set_sessions f s).2 → wp (set_sessions f) Q s.
Proof. done. Qed.

Lemma wp_driver_fault w Q s :
  (∀ e, db_fault w (trace s) = Some e → Q (Raise e) s) →
  (db_fault w (trace s) = None → Q (Ok ()) s) →
  wp (driver_fault w) Q s.
Proof.
  unfold wp, driver_fault. destruct (db_fault w (trace s)); simpl; auto.
Qed.

Lemma wp_py_int w text Q s :
  (∀ z, Q (Ok z) s) → (∀ e, Q (Raise e) s) → wp (py_int w text) Q s.
Proof.
  intros Hok Hraise. unfold wp, py_int.
  destruct (Py.plain text); [destruct (Py.int_of_str text)|]; simpl; auto.
  unfold lift. by destruct (int_of_text w text).
Qed.

Lemma wp_sys_argv_0 w Q s :
  (sys_argv w = [] → Q (Raise (Exception "IndexError" "list index out of range")) s) →
  (∀ script rest, sys_argv w = script :: rest → Q (Ok script) s) →
  wp (sys_argv_0 w) Q s.
Proof.
  unfold wp, sys_argv_0. destruct (sys_argv w); simpl; eauto.
Qed.

Lemma wp_server_login database Q s :
  (database_missing database (server s) = true →
     Q (Raise (Exception "pymssql.OperationalError"
                 ("Cannot open database " +:+ default "" database))) s) →
  (database_missing database (server s) = false →
     Q (Ok {| conn_id := next_conn s; conn_database := database |})
       (add_connection s)) →
  wp (server_login database) Q s.
Proof.
  unfold wp, server_login. destruct (database_missing _ _); simpl; auto.
Qed.

Lemma wp_server_exec conn sql params Q s :
  (∀ e, Sql.run (conn_database conn) sql params (server s) = Raise e →
     Q (Raise e) s) →
  (∀ rows srv,
     Sql.run (conn_database conn) sql params (server s) = Ok (rows, srv) →
     Q (Ok rows) (set_server srv s)) →
  wp (server_exec conn sql params) Q s.
Proof.
  unfold wp, server_exec.
  destruct (Sql.run _ _ _ _) as [[rows srv]|e]; simpl; auto.
Qed.

Lemma wp_exec_command w cmd Q s :
  Q (ssh_exec_command w cmd) (record_event (SshExecCommand cmd) s) →
  wp (ssh_client_exec_command w cmd) Q s.
Proof. done. Qed.

Lemma wp_run_ps w script Q s :
  Q (winrm_run_ps w script) (record_event (WinrmRunPs script) s) →
  wp (session_run_ps w script) Q s.
Proof. done. Qed.

(** The fields of the state after an event. *)
Lemma trace_record_event ev s : trace (record_event ev s) = trace s ++ [ev].
Proof. done. Qed.

Lemma server_record_event ev s : server (record_event ev s) = server s.
Proof. done. Qed.

Lemma sessions_record_event ev s : sessions (record_event ev s) = sessions s.
Proof. done. Qed.

Lemma next_conn_record_event ev s : next_conn (record_event ev s) = next_conn s.
Proof. done. Qed.

Lemma trace_set_sessions f s : trace (set_sessions f s).2 = trace s.
Proof. done. Qed.

Lemma server_set_sessions f s : server (set_sessions f s).2 = server s.
Proof. done. Qed.

Lemma sessions_set_sessions f s :
  sessions (set_sessions f s).2 = f (sessions s).
Proof. done. Qed.

Lemma next_conn_set_sessions f s : next_conn (set_sessions f s).2 = next_conn s.
Proof. done. Qed.

Lemma trace_add_connection s : trace (add_connection s) = trace s.
Proof. done. Qed.

Lemma server_add_connection s : server (add_connection s) = server s.
Proof. done. Qed.

Lemma sessions_add_connection s :
  sessions (add_connection s) = sessions s ++ [DbSession (next_conn s)].
Proof. done. Qed.

Lemma next_conn_add_connection s : next_conn (add_connection s) = S (next_conn s).
Proof. done. Qed.

Lemma trace_set_server srv s : trace (set_server srv s) = trace s.
Proof. done. Qed.

Lemma server_set_server srv s : server (set_server srv s) = srv.
Proof. done. Qed.

Lemma sessions_set_server srv s : sessions (set_server srv s) = sessions s.
Proof. done. Qed.

Lemma next_conn_set_server srv s : next_conn (set_server srv s) = next_conn s.
Proof. done. Qed.

Lemma trace_record_events evs s : trace (record_events evs s) = trace s ++ evs.
Proof.
  revert s. induction evs as [|ev evs IH]; intros s; simpl.
  - by rewrite app_nil_r.
  - by rewrite IH, trace_record_event, <-app_assoc.
Qed.

Lemma server_record_events evs s : server (record_events evs s) = server s.
Proof.
  revert s. induction evs as [|ev evs IH]; intros s; simpl; [done|].
  by rewrite IH.
Qed.

Lemma sessions_record_events evs s : sessions (record_events evs s) = sessions s.
Proof.
  revert s. induction evs as [|ev evs IH]; intros s; simpl; [done|].
  by rewrite IH.
Qed.

Lemma next_conn_record_events evs s :
  next_conn (record_events evs s) = next_conn s.
Proof.
  revert s. induction evs as [|ev evs IH]; intros s; simpl; [done|].
  by rewrite IH.
Qed.

Lemma record_events_app evs1 evs2 s :
  record_events (evs1 ++ evs2) s = record_events evs2 (record_events evs1 s).
Proof. apply foldl_app. Qed.

Lemma record_events_nil s : record_events [] s = s.
Proof. done. Qed.

Lemma record_events_cons ev evs s :
  record_events (ev :: evs) s = record_events evs (record_event ev s).
Proof. done. Qed.

(** A loop that only logs. *)
Lemma for_each_logger {A} (xs : list A) lvl (msg : A → string) s :
  for_each xs (λ x, logger lvl (msg x)) s
  = (Ok (), record_events (map (λ x, Log lvl (msg x)) xs) s).
Proof.
  revert s. induction xs as [|x xs IH]; intros s; [done|].
  simpl. unfold mbind, M_bind. simpl. by rewrite IH.
Qed.

Lemma wp_for_each_logger {A} (xs : list A) lvl (msg : A → string) Q s :
  Q (Ok ()) (record_events (map (λ x, Log lvl (msg x)) xs) s) →
  wp (for_each xs (λ x, logger lvl (msg x))) Q s.
Proof. unfold wp. by rewrite for_each_logger. Qed.

#[global] Opaque record_event add_connection set_server record_events.

Create Rewrite HintDb state_fields.
#[global] Hint Rewrite trace_record_event server_record_event
  sessions_record_event next_conn_record_event
  trace_set_sessions server_set_sessions sessions_set_sessions
  next_conn_set_sessions
  trace_add_connection server_add_connection sessions_add_connection
  next_conn_add_connection
  trace_set_server server_set_server sessions_set_server
  next_conn_set_server
  trace_record_events server_record_events sessions_record_events
  next_conn_record_events : state_fields.

(** One step of a [wp] goal, by the head of the program. *)
Ltac wp_step :=
  lazymatch goal with
  | |- wp (mbind _ _) _ _ => apply wp_bind
  | |- wp (mret _) _ _ => apply wp_ret
  | |- wp (raise _) _ _ => apply wp_raise
  | |- wp (lift _) _ _ => apply wp_lift
  | |- wp (emit _) _ _ => apply wp_emit
  | |- wp (logger _ _) _ _ => apply wp_emit
  | |- wp (try_except _ _) _ _ => apply wp_try_except
  | |- wp (set_sessions _) _ _ => apply wp_set_sessions
  | |- wp (ssh_client_exec_command _ _) _ _ => apply wp_exec_command
  | |- wp (session_run_ps _ _) _ _ => apply wp_run_ps
  | |- wp (when true ?m) _ _ => change (when true m) with m
  | |- wp (when false ?m) _ _ => apply wp_ret
  | |- wp (for_each [] _) _ _ => apply wp_ret
  | |- wp (for_each (_ :: _) _) _ _ => apply wp_bind
  end; cbv beta iota.

Ltac wp_steps := repeat wp_step.

(** All the steps of a [wp] goal, with a case for every call that can
    fail. *)
Ltac wp_go :=
  repeat first
    [ wp_step
    | apply wp_driver_fault; [intros ? ?|intros ?]; cbv beta iota
    | apply wp_server_login; intros ?; cbv beta iota
    | apply wp_server_exec; [intros ? ?|intros ? ? ?]; cbv beta iota
    | apply wp_py_int; intros ?; cbv beta iota
    | apply wp_sys_argv_0; [intros ?|intros ? ? ?]; cbv beta iota
    | apply wp_for_each_logger
    | match goal with
      | |- wp (let '(_, _) := ?x in _) _ _ => destruct x as [? ?]
      | |- wp (if ?b then _ else _) _ _ => destruct b eqn:?
      | |- wp (when ?b _) _ _ => destruct b eqn:?
      | |- wp (match ?x with _ => _ end) _ _ => destruct x eqn:?
      | |- match ?x with _ => _ end => destruct x eqn:?
      end; cbv beta iota ].

(** The observations of a trace, event by event. *)
Ltac observe :=
  autorewrite with state_fields;
  unfold remote_calls, winrm_calls, run_ps_calls, exec_command_calls,
    execute_calls, fetched, logged;
  rewrite ?omap_app; cbn [omap list_omap is_remote is_winrm];
  rewrite ?app_nil_r, <-?app_assoc; cbn [app].

(** ** The secret and the credentials *)

Lemma all_keys_present (m : gmap string json) u p :
  m !! "username" = Some u → m !! "password" = Some p →
  py_all_in ["username"; "password"] (JObj m) = Ok true.
Proof.
  intros Hu Hp. unfold py_all_in, py_in.
  by rewrite !bool_decide_eq_true_2 by eauto.
Qed.

Lemma a_key_missing (m : gmap string json) :
  m !! "username" = None ∨ m !! "password" = None →
  py_all_in ["username"; "password"] (JObj m) = Ok false.
Proof.
  intros Hm. unfold py_all_in, py_in.
  destruct (m !! "username") as [u|] eqn:Hu.
  - destruct Hm as [Hm|Hm]; [done|].
    rewrite bool_decide_eq_true_2 by eauto.
    rewrite bool_decide_eq_false_2; [done|]. rewrite Hm. by intros [? ?].
  - rewrite bool_decide_eq_false_2; [done|]. by intros [? ?].
Qed.

(** C3 (as the code has it). A secret that is a record with both a
    username and a password gives exactly those two values as the
    credentials; a record that lacks one of them makes the credentials step
    raise the missing-keys ValueError, and [run] then ends in [sys.exit(1)]
    without a single call on the database, the shell host or the WinRM
    host. *)
Theorem credentials_from_secret_record w s (m : gmap string json) :
  secret_payload w (JObj m) →
  (∀ u p, m !! "username" = Some u → m !! "password" = Some p →
     (mssql_credentials w s).1 = Ok (u, p)) ∧
  (m !! "username" = None ∨ m !! "password" = None →
     (mssql_credentials w s).1
       = Raise (Exception "ValueError"
                  "AWS Secret is missing required keys: username, password") ∧
     (run w s).1 = Raise (SystemExit 1) ∧
     exit_status (run w s).1 = 1 ∧
     remote_calls (trace (run w s).2) = remote_calls (trace s)).
Proof.
  intros (resp & text & Hr & Ht & Hj). split.
  - intros u p Hu Hp.
    change (wp (mssql_credentials w) (λ r _, r = Ok (u, p)) s).
    unfold mssql_credentials, _get_aws_secret.
    wp_steps. rewrite Hr. wp_steps. rewrite Ht. wp_steps. rewrite Hj. wp_steps.
    rewrite (all_keys_present m u p Hu Hp). wp_steps.
    apply wp_when; [done|intros _].
    wp_steps. simpl. rewrite Hu. wp_steps. rewrite Hp. by wp_steps.
  - intros Hm. pose proof (a_key_missing m Hm) as Hall. split.
    + change (wp (mssql_credentials w)
                (λ r _, r = Raise (Exception "ValueError"
                   "AWS Secret is missing required keys: username, password")) s).
      unfold mssql_credentials, _get_aws_secret.
      wp_steps. rewrite Hr. wp_steps. rewrite Ht. wp_steps. rewrite Hj. wp_steps.
      rewrite Hall. wp_steps. apply wp_when; [intros _|done]. by wp_steps.
    + cut (wp (run w) (λ r s', r = Raise (SystemExit 1) ∧
                 remote_calls (trace s') = remote_calls (trace s)) s).
      { unfold wp. intros [-> ?]. done. }
      unfold run, _perform_mssql_operations, mssql_body, mssql_credentials,
        _get_aws_secret.
      wp_steps. rewrite Hr. wp_steps. rewrite Ht. wp_steps. rewrite Hj. wp_steps.
      rewrite Hall. wp_steps. apply wp_when; [intros _|done]. wp_steps.
      split; [done|]. by observe.
Qed.

Lemma credentials_from_secret_record_witness :
  secret_payload Sample.plain (JObj Sample.credentials) ∧
  (mssql_credentials Sample.plain Sample.start).1 = Ok (JStr "sa", JStr "s3cret").
Proof.
  assert (H : secret_payload Sample.plain (JObj Sample.credentials)).
  { eexists _, _. split; [reflexivity|]. split; reflexivity. }
  split; [exact H|].
  apply (credentials_from_secret_record Sample.plain Sample.start
           Sample.credentials H); reflexivity.
Defined.

(** C3 as stated fails: a secret that is the JSON list of the two key
    names has neither field, yet it passes the key test, and Step 1 ends in
    the TypeError of the subscript, not in the missing-keys ValueError. *)
Lemma list_secret_passes_the_key_test :
  let payload := JArr [JStr "username"; JStr "password"] in
  json_loads Sample.world_list_secret "<secret text>" = Ok payload ∧
  py_all_in ["username"; "password"] payload = Ok true ∧
  (mssql_credentials Sample.world_list_secret Sample.start).1
  = Raise (Exception "TypeError"
             "list indices must be integers or slices, not str") ∧
  (mssql_credentials Sample.world_list_secret Sample.start).1
  ≠ Raise (Exception "ValueError"
             "AWS Secret is missing required keys: username, password") ∧
  (run Sample.world_list_secret Sample.start).1 = Raise (SystemExit 1).
Proof. by vm_compute. Qed.

(** X16. A payload that is not a record never gives credentials: the key
    check or the subscript raises. *)
Lemma credentials_need_a_record w s payload :
  secret_payload w payload →
  (∀ m, payload ≠ JObj m) →
  ∃ cls msg, (mssql_credentials w s).1 = Raise (Exception cls msg).
Proof.
  intros (resp & text & Hr & Ht & Hj) Hpayload.
  change (wp (mssql_credentials w)
            (λ r _, ∃ cls msg, r = Raise (Exception cls msg)) s).
  unfold mssql_credentials, _get_aws_secret.
  wp_steps. rewrite Hr. wp_steps. rewrite Ht. wp_steps. rewrite Hj. wp_steps.
  destruct payload as [| | | |text'|l|m]; try (by destruct (Hpayload m));
    cbn [py_all_in py_in]; try (by eauto).
  - destruct (Py.contains "username" text'); [destruct (Py.contains "password" text')|];
      wp_steps; cbn [negb]; wp_steps; cbn [py_getitem]; eauto.
  - destruct (existsb _ l); [destruct (existsb _ l)|];
      wp_steps; cbn [negb]; wp_steps; cbn [py_getitem]; eauto.
Qed.

(** A secret without a password: the run ends with status 1 and no call
    on the database. *)
Example missing_password_aborts :
  let r := run Sample.world_no_password Sample.start in
  exit_status r.1 = 1 ∧ remote_calls (trace r.2) = [] ∧
  logged ERROR (trace r.2)
    = ["Error during MS SQL operations: AWS Secret is missing required keys: username, password";
       "Error during operations: AWS Secret is missing required keys: username, password"].
Proof. by vm_compute. Qed.

(** C10. When the response of the secret store has no 'SecretString',
    [_get_aws_secret] returns None: it raises nothing and logs no error.
    The failure shows only at the check for the two keys, as the TypeError
    of [key in None], and [run] ends in [sys.exit(1)]. *)
Theorem secret_without_SecretString_is_None w s resp :
  get_secret_value w (aws_region (args w)) (aws_secret_name (args w)) = Ok resp →
  resp !! "SecretString" = None →
  let fetch := _get_aws_secret w (aws_secret_name (args w)) (aws_region (args w)) in
  (fetch s).1 = Ok JNull ∧
  logged ERROR (trace (fetch s).2) = logged ERROR (trace s) ∧
  (mssql_credentials w s).1
    = Raise (Exception "TypeError" "argument of type 'NoneType' is not iterable") ∧
  (run w s).1 = Raise (SystemExit 1).
Proof.
  intros Hr Hn fetch. split_and!.
  - change (wp fetch (λ r _, r = Ok JNull) s). unfold fetch, _get_aws_secret.
    wp_steps. rewrite Hr. wp_steps. rewrite Hn. by wp_steps.
  - change (wp fetch (λ _ s', logged ERROR (trace s') = logged ERROR (trace s)) s).
    unfold fetch, _get_aws_secret.
    wp_steps. rewrite Hr. wp_steps. rewrite Hn. wp_steps. by observe.
  - change (wp (mssql_credentials w)
              (λ r _, r = Raise (Exception "TypeError"
                 "argument of type 'NoneType' is not iterable")) s).
    unfold mssql_credentials, _get_aws_secret.
    wp_steps. rewrite Hr. wp_steps. rewrite Hn. by wp_steps.
  - change (wp (run w) (λ r _, r = Raise (SystemExit 1)) s).
    unfold run, _perform_mssql_operations, mssql_body, mssql_credentials,
      _get_aws_secret.
    wp_steps. rewrite Hr. wp_steps. rewrite Hn. by wp_steps.
Qed.

Lemma secret_without_SecretString_is_None_witness :
  (_get_aws_secret Sample.world_binary_secret "mssql/login" "us-east-1"
     Sample.start).1 = Ok JNull.
Proof.
  apply (secret_without_SecretString_is_None Sample.world_binary_secret
           Sample.start {[ "SecretBinary" := "<bytes>" ]}); reflexivity.
Defined.

(** ** Rules for [emits_only] *)

Section Emits.
Context (P : event → Prop).

Lemma emits_silent {A} (m : M A) :
  (∀ s, trace (m s).2 = trace s) → emits_only P m.
Proof. intros H s. exists []. by rewrite app_nil_r. Qed.

Lemma emits_ret {A} (a : A) : emits_only P (mret a).
Proof. by apply emits_silent. Qed.

Lemma emits_raise {A} e : emits_only P (raise e : M A).
Proof. by apply emits_silent. Qed.

Lemma emits_lift {A} (r : result A) : emits_only P (lift r).
Proof. by apply emits_silent. Qed.

Lemma emits_emit ev : P ev → emits_only P (emit ev).
Proof. intros H s. exists [ev]. split; [done|]. by constructor. Qed.

Lemma emits_bind {A B} (m : M A) (f : A → M B) :
  emits_only P m → (∀ a, emits_only P (f a)) → emits_only P (m ≫= f).
Proof.
  intros Hm Hf s. unfold mbind, M_bind.
  destruct (Hm s) as (evs & Htr & Hevs).
  destruct (m s) as [[a|e] s']; simpl in *; [|by eauto].
  destruct (Hf a s') as (evs' & Htr' & Hevs').
  exists (evs ++ evs'). split.
  - by rewrite Htr', Htr, app_assoc.
  - by apply Forall_app.
Qed.

Lemma emits_try_except {A} (body : M A) handler :
  emits_only P body → (∀ e, emits_only P (handler e)) →
  emits_only P (try_except body handler).
Proof.
  intros Hm Hh s. unfold try_except.
  destruct (Hm s) as (evs & Htr & Hevs).
  destruct (body s) as [[a|[cls msg|code]] s']; simpl in *; [by eauto| |by eauto].
  destruct (Hh (Exception cls msg) s') as (evs' & Htr' & Hevs').
  exists (evs ++ evs'). split.
  - by rewrite Htr', Htr, app_assoc.
  - by apply Forall_app.
Qed.

Lemma emits_for_each {A} (xs : list A) body :
  (∀ x, emits_only P (body x)) → emits_only P (for_each xs body).
Proof.
  intros Hb. induction xs as [|x xs IH]; simpl.
  - apply emits_ret.
  - apply emits_bind; auto.
Qed.

Lemma emits_when b m : emits_only P m → emits_only P (when b m).
Proof. destruct b; [done|]. intros _. apply emits_ret. Qed.

Lemma emits_set_sessions f : emits_only P (set_sessions f).
Proof. by apply emits_silent. Qed.

Lemma emits_driver_fault w : emits_only P (driver_fault w).
Proof.
  apply emits_silent. intros s. unfold driver_fault.
  by destruct (db_fault w (trace s)).
Qed.

Lemma emits_server_login database : emits_only P (server_login database).
Proof.
  apply emits_silent. intros s. unfold server_login.
  by destruct (database_missing _ _).
Qed.

Lemma emits_server_exec conn q params : emits_only P (server_exec conn q params).
Proof.
  apply emits_silent. intros s. unfold server_exec.
  by destruct (Sql.run _ _ _ _) as [[rows srv]|e].
Qed.

Lemma emits_py_int w text : emits_only P (py_int w text).
Proof.
  apply emits_silent. intros s. unfold py_int.
  by destruct (Py.plain text); [destruct (Py.int_of_str text)|].
Qed.

Lemma emits_sys_argv_0 w : emits_only P (sys_argv_0 w).
Proof.
  apply emits_silent. intros s. unfold sys_argv_0. by destruct (sys_argv w).
Qed.

End Emits.

(** One step of an [emits_only] goal, by the head of the program. *)
Ltac emits_step :=
  lazymatch goal with
  | |- emits_only _ (mbind _ _) => apply emits_bind; [|intros ?]
  | |- emits_only _ (mret _) => apply emits_ret
  | |- emits_only _ (raise _) => apply emits_raise
  | |- emits_only _ (lift _) => apply emits_lift
  | |- emits_only _ (emit _) => apply emits_emit; done
  | |- emits_only _ (logger _ _) => apply emits_emit; done
  | |- emits_only _ (try_except _ _) => apply emits_try_except; [|intros ?]
  | |- emits_only _ (for_each _ _) => apply emits_for_each; intros ?
  | |- emits_only _ (when _ _) => apply emits_when
  | |- emits_only _ (set_sessions _) => apply emits_set_sessions
  | |- emits_only _ (driver_fault _) => apply emits_driver_fault
  | |- emits_only _ (server_login _) => apply emits_server_login
  | |- emits_only _ (server_exec _ _ _) => apply emits_server_exec
  | |- emits_only _ (py_int _ _) => apply emits_py_int
  | |- emits_only _ (sys_argv_0 _) => apply emits_sys_argv_0
  | |- emits_only _ (match ?x with _ => _ end) => destruct x
  end; cbv beta iota zeta.

Ltac unfold_script :=
  unfold _perform_mssql_operations, mssql_body, mssql_credentials,
    _get_aws_secret, mssql_address, mssql_create_database, mssql_provision,
    mssql_insert, pymssql_connect, conn_cursor, conn_autocommit,
    cursor_execute, conn_commit, cursor_fetchall, conn_close,
    _perform_ssh_operations, ssh_body, ssh_lookup, ssh_system_information,
    ssh_client_connect, ssh_client_exec_command, ssh_client_close,
    _perform_winrm_operations, winrm_init, winrm_probe, winrm_dispatch,
    winrm_Session, session_run_ps.

(** ** The recursion guard *)

Lemma mssql_emits_no_winrm w : emits_only not_winrm (_perform_mssql_operations w).
Proof. unfold_script. repeat emits_step. Qed.

Lemma ssh_emits_no_winrm w : emits_only not_winrm (_perform_ssh_operations w).
Proof. unfold_script. repeat emits_step. Qed.

Lemma winrm_calls_app tr evs :
  Forall not_winrm evs → winrm_calls (tr ++ evs) = winrm_calls tr.
Proof.
  intros H. unfold winrm_calls. rewrite omap_app.
  induction H as [|ev evs Hev _ IH]; simpl.
  - by rewrite app_nil_r.
  - unfold not_winrm in Hev. by rewrite Hev.
Qed.

Lemma run_ps_calls_app tr evs :
  Forall not_winrm evs → run_ps_calls (tr ++ evs) = run_ps_calls tr.
Proof.
  intros H. unfold run_ps_calls. rewrite omap_app.
  induction H as [|ev evs Hev _ IH]; simpl.
  - by rewrite app_nil_r.
  - by destruct ev.
Qed.

Lemma init_emits_no_winrm w : emits_only not_winrm (__init__ w).
Proof. unfold __init__, parse_args. repeat emits_step. Qed.

Lemma guarded_run_emits_no_winrm w :
  prevent_winrm_recursion w = true → emits_only not_winrm (run w).
Proof.
  intros Hguard. unfold run. rewrite Hguard. cbn [negb].
  pose proof (mssql_emits_no_winrm w). pose proof (ssh_emits_no_winrm w).
  repeat first [assumption | emits_step].
Qed.

Lemma unrecognized_flag : unrecognized RECURSION_FLAG = true.
Proof. reflexivity. Qed.

(** A process that gets past [__init__] has no argument equal to the
    flag. *)
Lemma init_refuses_flag w s :
  (__init__ w s).1 = Ok () → RECURSION_FLAG ∉ tail (sys_argv w).
Proof.
  unfold __init__, sys_argv_0, parse_args, mbind, M_bind, raise, mret, M_ret, when.
  destruct (sys_argv w) as [|script rest]; [done|]. cbn [tail].
  destruct (parse_exit w); [done|].
  destruct (existsb unrecognized rest) eqn:Hrest; [done|]. intros _ Hin.
  assert (existsb unrecognized rest = true); [|congruence].
  apply existsb_exists. exists RECURSION_FLAG. split; [|done].
  by apply list_elem_of_In.
Qed.

(** C1 (as the code has it). With the recursion flag in [sys.argv], [run]
    skips the whole WinRM operation: no session is made and [run_ps] is
    never called, so neither the Dispatch script nor the two Probe commands
    are run, in [run] alone and in the process from its start.  The parser
    of [__init__] refuses the flag as an argument, so a process that gets
    as far as [run] with the guard set has the flag as [sys.argv[0]]. *)
Theorem guard_active_skips_winrm w s :
  prevent_winrm_recursion w = true →
  (winrm_calls (trace (run w s).2) = winrm_calls (trace s) ∧
   run_ps_calls (trace (run w s).2) = run_ps_calls (trace s)) ∧
  (winrm_calls (trace (main w s).2) = winrm_calls (trace s) ∧
   run_ps_calls (trace (main w s).2) = run_ps_calls (trace s)) ∧
  ((__init__ w s).1 = Ok () → head (sys_argv w) = Some RECURSION_FLAG).
Proof.
  intros Hguard.
  pose proof (guarded_run_emits_no_winrm w Hguard) as Hrun.
  assert (Hmain : emits_only not_winrm (main w)).
  { unfold main. apply emits_bind; [apply init_emits_no_winrm|by intros _]. }
  split_and!.
  - destruct (Hrun s) as (evs & -> & Hevs). by rewrite winrm_calls_app.
  - destruct (Hrun s) as (evs & -> & Hevs). by rewrite run_ps_calls_app.
  - destruct (Hmain s) as (evs & -> & Hevs). by rewrite winrm_calls_app.
  - destruct (Hmain s) as (evs & -> & Hevs). by rewrite run_ps_calls_app.
  - intros Hinit. apply init_refuses_flag in Hinit.
    apply bool_decide_eq_true in Hguard.
    destruct (sys_argv w) as [|script rest]; [by apply elem_of_nil in Hguard|].
    apply elem_of_cons in Hguard as [->|Hrest]; [done|]. by destruct Hinit.
Qed.

Lemma guard_active_skips_winrm_witness :
  prevent_winrm_recursion Sample.world_guarded = true ∧
  (main Sample.world_guarded Sample.start).1 = Ok () ∧
  winrm_calls (trace (main Sample.world_guarded Sample.start).2) = [].
Proof.
  split; [reflexivity|]. split; [reflexivity|].
  apply (guard_active_skips_winrm Sample.world_guarded Sample.start).
  reflexivity.
Defined.

(** C1 as stated fails: the script file is named as the flag, the parser
    accepts the command line, the guard is set, the process completes, and
    the two Probe commands are not run. *)
Lemma guard_active_runs_no_probe :
  prevent_winrm_recursion Sample.world_guarded = true ∧
  (main Sample.world_guarded Sample.start).1 = Ok () ∧
  run_ps_calls (trace (main Sample.world_guarded Sample.start).2) = [] ∧
  run_ps_calls (trace (main Sample.world_guarded Sample.start).2)
    ≠ [ipconfig_cmd; userdomain_cmd].
Proof. by vm_compute. Qed.

(** ** Occurrences of a text in a string *)

Lemma append_assoc (a b c : string) : (a +:+ b) +:+ c = a +:+ (b +:+ c).
Proof.
  induction a as [|x a IH]; [done|].
  change (String x ((a +:+ b) +:+ c) = String x (a +:+ (b +:+ c))).
  by rewrite IH.
Qed.

Lemma has_char_cons c x n :
  has_char c (String x n) = false → x ≠ c ∧ has_char c n = false.
Proof.
  simpl. intros [H1 H2]%orb_false_elim. split; [|done].
  by apply bool_decide_eq_false in H1.
Qed.

(** A text without [c] that starts in [a] does not reach over a [c]. *)
Lemma startswith_split c n a b :
  has_char c n = false →
  Py.startswith n (a +:+ String c b) = Py.startswith n a.
Proof.
  revert n. induction a as [|x a IH]; intros [|y n] Hc; simpl; try done.
  - apply has_char_cons in Hc as [Hy _]. by rewrite decide_False.
  - apply has_char_cons in Hc as [_ Hn]. destruct (decide (y = x)); auto.
Qed.

Lemma occurrences_split c n a b i :
  has_char c n = false →
  Py.occurrences_from i n (a +:+ String c b)
  = Py.occurrences_from i n a
    ++ Py.occurrences_from (i + S (String.length a)) n b.
Proof.
  intros Hc. revert i. induction a as [|x a IH]; intros i.
  - change ("" +:+ String c b) with (String c b).
    cbn [Py.occurrences_from String.length].
    rewrite <-(startswith_split c n "" b Hc).
    change ("" +:+ String c b) with (String c b).
    rewrite app_nil_r. by replace (i + 1)%nat with (S i) by lia.
  - change (String x a +:+ String c b) with (String x (a +:+ String c b)).
    cbn [Py.occurrences_from String.length].
    rewrite <-(startswith_split c n (String x a) b Hc).
    change (String x a +:+ String c b) with (String x (a +:+ String c b)).
    rewrite IH, <-app_assoc.
    by replace (S i + S (String.length a))%nat
      with (i + S (S (String.length a)))%nat by lia.
Qed.

Lemma occurrences_none n h i :
  Py.contains n h = false → Py.occurrences_from i n h = [].
Proof.
  revert i. induction h as [|x h IH]; intros i; simpl.
  - intros [-> _]%orb_false_elim. done.
  - intros [-> H]%orb_false_elim. by rewrite IH.
Qed.

(** ** The Dispatch command *)

Lemma join_no_flag_text (parts : list string) i :
  Forall no_flag_text parts →
  Py.occurrences_from i RECURSION_FLAG (Py.join " " parts) = [].
Proof.
  intros H. revert i. induction H as [|a parts Ha _ IH]; intros i; [done|].
  destruct parts as [|b parts].
  - by apply occurrences_none.
  - change (Py.join " " (a :: b :: parts))
      with (a +:+ String " "%char (Py.join " " (b :: parts))).
    rewrite occurrences_split by done.
    by rewrite IH, (occurrences_none _ _ _ Ha).
Qed.

Lemma script_args_flag_once argv :
  Forall no_flag_text (tail argv) →
  Py.occurrences RECURSION_FLAG (script_args argv)
  = [S (String.length (Py.join " " (tail argv)))].
Proof.
  intros H. unfold Py.occurrences, script_args.
  change (" " +:+ RECURSION_FLAG) with (String " "%char RECURSION_FLAG).
  rewrite occurrences_split by done.
  by rewrite join_no_flag_text.
Qed.

Lemma ps_script_split x :
  ps_script x = ps_script_head +:+ String " "%char (x +:+ String "034"%char ps_script_tail).
Proof. reflexivity. Qed.

Lemma ps_script_flag_twice argv :
  Forall no_flag_text (tail argv) →
  length (Py.occurrences RECURSION_FLAG (ps_script (script_args argv))) = 2%nat.
Proof.
  intros H. rewrite ps_script_split. unfold Py.occurrences, script_args.
  change (" " +:+ RECURSION_FLAG) with (String " "%char RECURSION_FLAG).
  rewrite append_assoc.
  change (String " "%char RECURSION_FLAG +:+ String "034"%char ps_script_tail)
    with (String " "%char (RECURSION_FLAG +:+ String "034"%char ps_script_tail)).
  rewrite !occurrences_split by done.
  by rewrite join_no_flag_text.
Qed.

(** C2 (as the code has it). A WinRM operation (reached only with the
    guard inactive) whose session, two Probe calls and script-path lookup
    raise nothing makes exactly three [run_ps] calls, the last one being
    the Dispatch script.  Its argument string is the original arguments
    joined by spaces, a space and the flag; when no original argument
    contains the text of the flag, the flag occurs once in the argument
    string and twice in the script sent, which names it again in its
    "Recursion prevention active" line. *)
Theorem dispatch_once_with_flag w s script path r1 r2 :
  prevent_winrm_recursion w = false →
  winrm_session_fault w = None →
  winrm_run_ps w ipconfig_cmd = Ok r1 →
  winrm_run_ps w userdomain_cmd = Ok r2 →
  head (sys_argv w) = Some script →
  os_path_abspath w script = Ok path →
  let argv := sys_argv w in
  (RECURSION_FLAG ∉ argv) ∧
  run_ps_calls (trace (_perform_winrm_operations w s).2)
    = run_ps_calls (trace s)
      ++ [ipconfig_cmd; userdomain_cmd; ps_script (script_args argv)] ∧
  script_args argv = Py.join " " (tail argv) +:+ " " +:+ RECURSION_FLAG ∧
  (Forall no_flag_text (tail argv) →
     length (Py.occurrences RECURSION_FLAG (script_args argv)) = 1%nat ∧
     length (Py.occurrences RECURSION_FLAG (ps_script (script_args argv))) = 2%nat).
Proof.
  intros Hguard Hsession H1 H2 Hscript Hpath argv. split_and!.
  - by apply bool_decide_eq_false in Hguard.
  - change (wp (_perform_winrm_operations w)
              (λ _ s', run_ps_calls (trace s') = run_ps_calls (trace s)
                 ++ [ipconfig_cmd; userdomain_cmd; ps_script (script_args argv)]) s).
    unfold_script. unfold sys_argv_0. subst argv.
    destruct (sys_argv w) as [|script' rest]; [done|].
    injection Hscript as ->.
    wp_steps. rewrite Hsession. wp_steps.
    rewrite H1. wp_steps.
    destruct (decide (status_code r1 = 0)); wp_steps;
      rewrite H2; wp_steps;
      (destruct (decide (status_code r2 = 0)); wp_steps;
       rewrite Hpath; wp_steps;
       destruct (winrm_run_ps w (ps_script _)) as [r3|[cls msg|code]]; wp_steps;
       try (destruct (decide (status_code r3 = 0)); wp_steps);
       by observe).
  - done.
  - intros Hargs. split.
    + by rewrite script_args_flag_once.
    + by apply ps_script_flag_twice.
Qed.

Lemma dispatch_once_with_flag_witness :
  run_ps_calls (trace (_perform_winrm_operations Sample.plain Sample.start).2)
  = [ipconfig_cmd; userdomain_cmd; ps_script (script_args Sample.argv)].
Proof.
  apply (dispatch_once_with_flag Sample.plain Sample.start
           "run.py" "/opt/tool/run.py"
           {| status_code := 0; std_out := "done"; std_err := "" |}
           {| status_code := 0; std_out := "done"; std_err := "" |});
    reflexivity.
Defined.

(** C2 as stated fails: the one Dispatch script of this run contains the
    flag twice. *)
Lemma dispatch_script_names_flag_twice :
  prevent_winrm_recursion Sample.plain = false ∧
  (main Sample.plain Sample.start).1 = Ok () ∧
  run_ps_calls (trace (main Sample.plain Sample.start).2)
    = [ipconfig_cmd; userdomain_cmd; ps_script (script_args Sample.argv)] ∧
  length (Py.occurrences RECURSION_FLAG (ps_script (script_args Sample.argv)))
    = 2%nat ∧
  length (Py.occurrences RECURSION_FLAG (ps_script (script_args Sample.argv)))
    ≠ 1%nat.
Proof. by vm_compute. Qed.

(** ** The SSH inspection *)

(** A lookup whose command returns: the call, then one log line. *)
Lemma wp_ssh_lookup w cmd found missing out err Q s :
  ssh_exec_command w cmd = Ok (out, err) →
  Q (Ok ()) (record_events (lookup_events cmd found missing (out, err)) s) →
  wp (ssh_lookup w cmd found missing) Q s.
Proof.
  intros Hexec HQ. unfold ssh_lookup, lookup_events in *.
  wp_steps. rewrite Hexec. wp_steps. cbn [fst snd] in HQ.
  rewrite !record_events_cons, record_events_nil in HQ.
  destruct (nonempty (Py.strip out)); by wp_steps.
Qed.

(** The loop of Step 5 when no command raises: every command is called,
    and its output logged when there is one. *)
Lemma wp_ssh_system_information w streams commands Q s :
  (∀ cmd, ssh_exec_command w cmd = Ok (streams cmd)) →
  Q (Ok ()) (record_events (system_information_events streams commands) s) →
  wp (ssh_system_information w commands) Q s.
Proof.
  intros Hexec. revert s. induction commands as [|cmd commands IH]; intros s HQ.
  { by apply wp_ret. }
  unfold ssh_system_information in *. cbn [for_each].
  unfold system_information_events in HQ. cbn [flat_map] in HQ.
  rewrite record_events_app in HQ.
  wp_steps. rewrite Hexec.
  destruct (streams cmd) as [out err]. cbn [fst snd] in *. wp_steps.
  destruct (nonempty (Py.strip out)); wp_steps; apply IH;
    by rewrite ?record_events_cons, ?record_events_nil in HQ.
Qed.

Lemma exec_command_calls_app tr1 tr2 :
  exec_command_calls (tr1 ++ tr2) = exec_command_calls tr1 ++ exec_command_calls tr2.
Proof. apply omap_app. Qed.

Lemma logged_app lvl tr1 tr2 :
  logged lvl (tr1 ++ tr2) = logged lvl tr1 ++ logged lvl tr2.
Proof. apply omap_app. Qed.

Lemma system_information_calls streams commands :
  exec_command_calls (system_information_events streams commands) = commands ∧
  logged WARNING (system_information_events streams commands) = [].
Proof.
  induction commands as [|cmd commands [IH1 IH2]]; [done|].
  change (system_information_events streams (cmd :: commands))
    with ((SshExecCommand cmd ::
           if nonempty (Py.strip (streams cmd).1)
           then [Log INFO ("Command '" +:+ cmd +:+ "' output: "
                           +:+ Py.strip (streams cmd).1)]
           else [])
          ++ system_information_events streams commands).
  rewrite exec_command_calls_app, logged_app, IH1, IH2.
  by destruct (nonempty _).
Qed.

(** C5 (as the code has it). When the key file is there, the connection is
    made and no command raises, the inspection runs all five commands in
    order and completes, whatever their outputs, empty or not.  A warning
    is logged for an empty output of [hostname -I] and of [hostname -f]
    only; an empty output of the three system-information commands is
    passed over without a log line: the events of the operation are
    exactly [ssh_events], in which such a command leaves its call and
    nothing else. *)
Theorem empty_output_does_not_abort w s (streams : string → string * string) :
  os_path_isfile w (ssh_key_path (args w)) = true →
  ssh_connect w = None →
  (∀ cmd, ssh_exec_command w cmd = Ok (streams cmd)) →
  let r := _perform_ssh_operations w s in
  r.1 = Ok () ∧
  exec_command_calls (trace r.2) = exec_command_calls (trace s) ++ ssh_battery ∧
  logged WARNING (trace r.2)
    = logged WARNING (trace s)
      ++ lookup_warning "Could not retrieve IP addresses. Error: " (streams "hostname -I")
      ++ lookup_warning "Could not retrieve domain name. Error: " (streams "hostname -f") ∧
  trace r.2 = trace s ++ ssh_events (args w) streams ∧
  (∀ cmd, nonempty (Py.strip (streams cmd).1) = false →
     system_information_events streams [cmd] = [SshExecCommand cmd]).
Proof.
  intros Hkey Hconnect Hexec r.
  cut (wp (_perform_ssh_operations w)
         (λ r s', r = Ok () ∧
            exec_command_calls (trace s') = exec_command_calls (trace s) ++ ssh_battery ∧
            logged WARNING (trace s')
            = logged WARNING (trace s)
              ++ lookup_warning "Could not retrieve IP addresses. Error: "
                   (streams "hostname -I")
              ++ lookup_warning "Could not retrieve domain name. Error: "
                   (streams "hostname -f") ∧
            trace s' = trace s ++ ssh_events (args w) streams) s).
  { intros (? & ? & ? & ?). split_and!; try done.
    intros cmd Hcmd. unfold system_information_events.
    cbn [flat_map]. by rewrite Hcmd. }
  unfold ssh_events.
  pose proof (Hexec "hostname -I") as H1. pose proof (Hexec "hostname -f") as H2.
  destruct (streams "hostname -I") as [out1 err1].
  destruct (streams "hostname -f") as [out2 err2].
  destruct (system_information_calls streams ssh_commands) as [Hcalls Hwarn].
  unfold _perform_ssh_operations, ssh_body, ssh_client_connect, ssh_client_close.
  wp_steps. rewrite Hkey. cbn [negb]. wp_steps. rewrite Hconnect. wp_steps.
  eapply wp_ssh_lookup; [done|]. wp_steps.
  eapply wp_ssh_lookup; [done|]. wp_steps.
  eapply wp_ssh_system_information; [done|]. wp_steps.
  unfold lookup_warning, lookup_events. cbn [fst snd].
  split; [done|]. split; [|split].
  - autorewrite with state_fields.
    rewrite !exec_command_calls_app, Hcalls.
    destruct (nonempty (Py.strip out1)), (nonempty (Py.strip out2));
      cbn [exec_command_calls omap list_omap];
      by rewrite ?app_nil_r, <-?app_assoc.
  - autorewrite with state_fields.
    rewrite !logged_app, Hwarn.
    destruct (nonempty (Py.strip out1)), (nonempty (Py.strip out2));
      cbn -[String.append]; by rewrite ?app_nil_r, <-?app_assoc.
  - autorewrite with state_fields. by rewrite <-!app_assoc.
Qed.

Lemma empty_output_does_not_abort_witness :
  exec_command_calls
    (trace (_perform_ssh_operations Sample.world_silent_host Sample.start).2)
  = ssh_battery.
Proof.
  apply (empty_output_does_not_abort Sample.world_silent_host Sample.start
           (λ _, ("", ""))); reflexivity.
Defined.

(** C5 as stated fails: all five commands print nothing, all five are run,
    and only the two hostname lookups are followed by a warning. *)
Lemma empty_output_of_uname_logs_no_warning :
  let r := _perform_ssh_operations Sample.world_silent_host Sample.start in
  r.1 = Ok () ∧
  exec_command_calls (trace r.2) = ssh_battery ∧
  logged WARNING (trace r.2)
    = ["Could not retrieve IP addresses. Error: ";
       "Could not retrieve domain name. Error: "].
Proof. by vm_compute. Qed.

(** ** Sessions *)

Section Keeps.

Lemma keeps_ret {A} (a : A) : keeps_sessions (mret a).
Proof. done. Qed.

Lemma keeps_raise {A} e : keeps_sessions (raise e : M A).
Proof. done. Qed.

Lemma keeps_lift {A} (r : result A) : keeps_sessions (lift r).
Proof. done. Qed.

Lemma keeps_emit ev : keeps_sessions (emit ev).
Proof. done. Qed.

Lemma keeps_bind {A B} (m : M A) (f : A → M B) :
  keeps_sessions m → (∀ a, keeps_sessions (f a)) → keeps_sessions (m ≫= f).
Proof.
  intros Hm Hf s. unfold mbind, M_bind. specialize (Hm s).
  destruct (m s) as [[a|e] s']; simpl in *; [|done].
  by rewrite Hf.
Qed.

Lemma keeps_try_except {A} (body : M A) handler :
  keeps_sessions body → (∀ e, keeps_sessions (handler e)) →
  keeps_sessions (try_except body handler).
Proof.
  intros Hm Hh s. unfold try_except. specialize (Hm s).
  destruct (body s) as [[a|[cls msg|code]] s']; simpl in *; [done| |done].
  by rewrite Hh.
Qed.

Lemma keeps_for_each {A} (xs : list A) body :
  (∀ x, keeps_sessions (body x)) → keeps_sessions (for_each xs body).
Proof.
  intros Hb. induction xs as [|x xs IH]; simpl.
  - apply keeps_ret.
  - apply keeps_bind; auto.
Qed.

Lemma keeps_when b m : keeps_sessions m → keeps_sessions (when b m).
Proof. destruct b; [done|]. intros _. apply keeps_ret. Qed.

Lemma keeps_driver_fault w : keeps_sessions (driver_fault w).
Proof. intros s. unfold driver_fault. by destruct (db_fault w (trace s)). Qed.

Lemma keeps_server_exec conn q params : keeps_sessions (server_exec conn q params).
Proof.
  intros s. unfold server_exec.
  by destruct (Sql.run _ _ _ _) as [[rows srv]|e].
Qed.

Lemma keeps_py_int w text : keeps_sessions (py_int w text).
Proof.
  intros s. unfold py_int.
  by destruct (Py.plain text); [destruct (Py.int_of_str text)|].
Qed.

End Keeps.

(** One step of a [keeps_sessions] goal, by the head of the program. *)
Ltac keeps_step :=
  lazymatch goal with
  | |- keeps_sessions (mbind _ _) => apply keeps_bind; [|intros ?]
  | |- keeps_sessions (mret _) => apply keeps_ret
  | |- keeps_sessions (raise _) => apply keeps_raise
  | |- keeps_sessions (lift _) => apply keeps_lift
  | |- keeps_sessions (emit _) => apply keeps_emit
  | |- keeps_sessions (logger _ _) => apply keeps_emit
  | |- keeps_sessions (try_except _ _) => apply keeps_try_except; [|intros ?]
  | |- keeps_sessions (for_each _ _) => apply keeps_for_each; intros ?
  | |- keeps_sessions (when _ _) => apply keeps_when
  | |- keeps_sessions (driver_fault _) => apply keeps_driver_fault
  | |- keeps_sessions (server_exec _ _ _) => apply keeps_server_exec
  | |- keeps_sessions (py_int _ _) => apply keeps_py_int
  | |- keeps_sessions (match ?x with _ => _ end) => destruct x
  end; cbv beta iota zeta.

Lemma wp_keeps {A} (m : M A) Q s :
  keeps_sessions m → (∀ r s', sessions s' = sessions s → Q r s') → wp m Q s.
Proof. unfold wp. auto. Qed.

Lemma mssql_credentials_keeps w : keeps_sessions (mssql_credentials w).
Proof. unfold_script. repeat keeps_step. Qed.

Lemma mssql_address_keeps w : keeps_sessions (mssql_address w).
Proof. unfold_script. repeat keeps_step. Qed.

Lemma ssh_lookup_keeps w cmd found missing :
  keeps_sessions (ssh_lookup w cmd found missing).
Proof. unfold_script. repeat keeps_step. Qed.

Lemma ssh_system_information_keeps w commands :
  keeps_sessions (ssh_system_information w commands).
Proof. unfold_script. repeat keeps_step. Qed.

Lemma filter_out_last (x : session) (l : list session) :
  filter (λ y, y ≠ x) (l ++ [x]) = filter (λ y, y ≠ x) l.
Proof.
  rewrite filter_app, filter_cons, decide_False by (by intros ?).
  by rewrite filter_nil, app_nil_r.
Qed.

Lemma driver_calls_app tr1 tr2 :
  driver_calls (tr1 ++ tr2) = driver_calls tr1 ++ driver_calls tr2.
Proof. apply omap_app. Qed.

Lemma driver_calls_log_lines {A} lvl (msg : A → string) (xs : list A) :
  driver_calls (map (λ x, Log lvl (msg x)) xs) = [].
Proof. by induction xs. Qed.

Lemma driver_calls_none evs :
  Forall (λ ev, is_driver_call ev = false) evs → driver_calls evs = [].
Proof.
  induction 1 as [|ev evs Hev _ IH]; [done|].
  unfold driver_calls in *. cbn [omap list_omap]. by rewrite Hev.
Qed.

Lemma left_open_calls evs1 evs2 :
  driver_calls evs2 ≠ [] → left_open (evs1 ++ evs2) = left_open evs2.
Proof.
  intros H. unfold left_open. rewrite driver_calls_app.
  destruct (driver_calls evs2) as [|ev evs] using rev_ind; [done|].
  by rewrite app_assoc, !last_snoc.
Qed.

Lemma left_open_quiet evs1 evs2 :
  Forall (λ ev, is_driver_call ev = false) evs2 →
  left_open (evs1 ++ evs2) = left_open evs1.
Proof.
  intros H. unfold left_open.
  by rewrite driver_calls_app, (driver_calls_none evs2), app_nil_r.
Qed.

(** The events since [s], and what they say of the connection in use. *)
Ltac since_start Hs :=
  eexists; split;
    [ autorewrite with state_fields; rewrite <-?app_assoc; reflexivity
    | autorewrite with state_fields; rewrite ?Hs;
      unfold left_open;
      rewrite ?driver_calls_app, ?driver_calls_log_lines;
      unfold driver_calls;
      cbn [app omap list_omap is_driver_call last mbind option_bind conn_of
           conn_id filter list_filter];
      try done; try (by destruct (decide _) as [Hne|_]; [destruct Hne|]) ].

(** Steps 2 and 3 close the connection they open; when a call raises, the
    connection it was made on stays open. *)
Lemma mssql_create_database_sessions w addr port u p s :
  sessions s = [] →
  wp (mssql_create_database w addr port u p)
    (λ r s', ∃ evs, trace s' = trace s ++ evs ∧
       match r with
       | Ok _ => sessions s' = []
       | Raise _ => driver_calls evs ≠ [] ∧ sessions s' = left_open evs
       end) s.
Proof. intros Hs. unfold_script. wp_go. all: since_start Hs. Qed.

(** Steps 4 to 7 close the connection they open; when a call raises, the
    connection it was made on stays open. *)
Lemma mssql_provision_sessions w addr port u p name s :
  sessions s = [] →
  wp (mssql_provision w addr port u p name)
    (λ r s', ∃ evs, trace s' = trace s ++ evs ∧
       match r with
       | Ok _ => sessions s' = []
       | Raise _ => driver_calls evs ≠ [] ∧ sessions s' = left_open evs
       end) s.
Proof.
  intros Hs. unfold_script. unfold sample_data. wp_go. all: since_start Hs.
Qed.

Lemma since_app s s' evs : trace s' = trace s ++ evs → since s s' = evs.
Proof. unfold since. intros ->. by rewrite drop_app_length. Qed.

Lemma wp_silent_step {A} (m : M A) Q s :
  emits_only (λ ev, is_driver_call ev = false) m →
  keeps_sessions m →
  (∀ r s' evs,
     trace s' = trace s ++ evs →
     Forall (λ ev, is_driver_call ev = false) evs →
     sessions s' = sessions s → Q r s') →
  wp m Q s.
Proof.
  intros He Hk HQ. unfold wp. destruct (He s) as (evs & Htr & Hevs).
  by apply (HQ _ _ evs).
Qed.

Lemma mssql_credentials_no_driver w :
  emits_only (λ ev, is_driver_call ev = false) (mssql_credentials w).
Proof. unfold_script. repeat emits_step. Qed.

Lemma mssql_address_no_driver w :
  emits_only (λ ev, is_driver_call ev = false) (mssql_address w).
Proof. unfold_script. repeat emits_step. Qed.

Lemma left_open_none evs :
  Forall (λ ev, is_driver_call ev = false) evs → left_open evs = [].
Proof. intros H. unfold left_open. by rewrite driver_calls_none. Qed.

(** A list of events without a driver call. *)
Ltac no_driver :=
  repeat first
    [ assumption
    | apply Forall_app; split
    | apply Forall_cons; split; [reflexivity|]
    | apply Forall_nil_2 ].

(** The events since [s], from what is known of the traces on the way. *)
Ltac since_known :=
  erewrite since_app
    by (autorewrite with state_fields;
        repeat match goal with H : trace _ = _ |- _ => rewrite H; clear H end;
        autorewrite with state_fields; rewrite <-?app_assoc; reflexivity).

(** The database operation: no connection is open after it returns; when
    it raises, the connection of its last driver call is. *)
Lemma mssql_sessions_outcome w s :
  sessions s = [] →
  wp (_perform_mssql_operations w)
    (λ r s', match r with
             | Ok _ => sessions s' = []
             | Raise _ => sessions s' = left_open (since s s')
             end) s.
Proof.
  intros Hs. unfold _perform_mssql_operations, mssql_body. wp_steps.
  apply wp_silent_step;
    [apply mssql_credentials_no_driver|apply mssql_credentials_keeps|].
  intros [[u p]|e] s1 evs1 Htr1 Hevs1 Hs1; cbv beta iota.
  2: { destruct e as [cls msg|code]; wp_steps.
       all: autorewrite with state_fields in *; since_known.
       all: rewrite Hs1, Hs, left_open_none; [done|no_driver..]. }
  apply wp_bind, wp_silent_step;
    [apply mssql_address_no_driver|apply mssql_address_keeps|].
  intros [[addr port]|e] s2 evs2 Htr2 Hevs2 Hs2; cbv beta iota.
  2: { destruct e as [cls msg|code]; wp_steps.
       all: autorewrite with state_fields in *; since_known.
       all: rewrite Hs2, Hs1, Hs, left_open_none; [done|no_driver..]. }
  autorewrite with state_fields in Hs1.
  apply wp_bind. eapply wp_mono.
  { apply mssql_create_database_sessions. by rewrite Hs2, Hs1. }
  intros [name|e] s3 (evs3 & Htr3 & H3); cbv beta iota.
  2: { destruct H3 as [Hcalls3 Hopen3].
       destruct e as [cls msg|code]; wp_steps.
       all: autorewrite with state_fields in *; since_known.
       all: rewrite Hopen3, !app_assoc.
       all: rewrite ?left_open_quiet by no_driver.
       all: by rewrite left_open_calls. }
  apply wp_bind. eapply wp_mono.
  { by apply mssql_provision_sessions. }
  intros [rows|e] s4 (evs4 & Htr4 & H4); cbv beta iota.
  2: { destruct H4 as [Hcalls4 Hopen4].
       destruct e as [cls msg|code]; wp_steps.
       all: autorewrite with state_fields in *; since_known.
       all: rewrite Hopen4, !app_assoc.
       all: rewrite ?left_open_quiet by no_driver.
       all: by rewrite left_open_calls. }
  wp_steps. by autorewrite with state_fields.
Qed.

(** The shell operation once the connection is made: the session is
    closed when the operation returns and open when it raises. *)
Lemma ssh_sessions_outcome w s :
  os_path_isfile w (ssh_key_path (args w)) = true →
  ssh_connect w = None →
  let r := _perform_ssh_operations w s in
  let mine := SshSession (ssh_host (args w)) in
  match r.1 with
  | Ok _ => sessions r.2 = filter (λ x, x ≠ mine) (sessions s)
  | Raise _ => sessions r.2 = sessions s ++ [mine]
  end.
Proof.
  intros Hkey Hconnect r mine.
  change (wp (_perform_ssh_operations w)
            (λ r s', match r with
                     | Ok _ => sessions s' = filter (λ x, x ≠ mine) (sessions s)
                     | Raise _ => sessions s' = sessions s ++ [mine]
                     end) s).
  unfold _perform_ssh_operations, ssh_body, ssh_client_connect, ssh_client_close.
  wp_steps. rewrite Hkey. cbn [negb]. wp_steps. rewrite Hconnect. wp_steps.
  apply wp_keeps; [apply ssh_lookup_keeps|].
  intros [[]|[cls msg|code]] s1 Hs1; cbv beta iota; wp_steps;
    [|by autorewrite with state_fields in *..].
  apply wp_keeps; [apply ssh_lookup_keeps|].
  intros [[]|[cls msg|code]] s2 Hs2; cbv beta iota; wp_steps;
    [|autorewrite with state_fields in *; by rewrite Hs2, Hs1..].
  apply wp_keeps; [apply ssh_system_information_keeps|].
  intros [[]|[cls msg|code]] s3 Hs3; cbv beta iota; wp_steps;
    [|autorewrite with state_fields in *; by rewrite Hs3, Hs2, Hs1..].
  autorewrite with state_fields in *. rewrite Hs3, Hs2, Hs1.
  by rewrite filter_out_last.
Qed.

(** C6 (as the code has it). A database or shell operation that starts
    with no session open and completes without an exception has closed
    every session it opened.  When it raises, nothing is closed any more:
    the database connection on which the last driver call was made stays
    open (none is open when that call was [connect] or no call was made),
    and so does the shell session once it was connected. *)
Theorem sessions_closed_on_success w s :
  sessions s = [] →
  let db := _perform_mssql_operations w s in
  let ssh := _perform_ssh_operations w s in
  (db.1 = Ok () → sessions db.2 = []) ∧
  (ssh.1 = Ok () → sessions ssh.2 = []) ∧
  (∀ e, db.1 = Raise e → sessions db.2 = left_open (since s db.2)) ∧
  (os_path_isfile w (ssh_key_path (args w)) = true →
   ssh_connect w = None →
   ∀ e, ssh.1 = Raise e → sessions ssh.2 = [SshSession (ssh_host (args w))]).
Proof.
  intros Hs db ssh.
  pose proof (mssql_sessions_outcome w s Hs) as Hdb. unfold wp in Hdb.
  fold db in Hdb. split_and!.
  - intros Hok. by rewrite Hok in Hdb.
  - change (wp (_perform_ssh_operations w)
              (λ r s', r = Ok () → sessions s' = []) s).
    unfold _perform_ssh_operations, ssh_body, ssh_client_connect,
      ssh_client_close.
    wp_go; try done.
    apply wp_keeps; [apply ssh_lookup_keeps|].
    intros [[]|e] s1 Hs1; cbv beta iota; [|by wp_go].
    wp_go. apply wp_keeps; [apply ssh_lookup_keeps|].
    intros [[]|e] s2 Hs2; cbv beta iota; [|by wp_go].
    wp_go. apply wp_keeps; [apply ssh_system_information_keeps|].
    intros [[]|e] s3 Hs3; cbv beta iota; [|by wp_go].
    wp_go. intros _. autorewrite with state_fields.
    rewrite Hs3. autorewrite with state_fields.
    rewrite Hs2. autorewrite with state_fields.
    rewrite Hs1. autorewrite with state_fields.
    rewrite Hs. by rewrite (filter_out_last _ []).
  - intros e He. by rewrite He in Hdb.
  - intros Hkey Hconnect e He.
    pose proof (ssh_sessions_outcome w s Hkey Hconnect) as Hssh.
    cbv zeta in Hssh. fold ssh in Hssh. rewrite He in Hssh.
    by rewrite Hssh, Hs.
Qed.

Lemma sessions_closed_on_success_witness :
  sessions (_perform_mssql_operations Sample.plain Sample.start).2 = [].
Proof.
  apply (sessions_closed_on_success Sample.plain Sample.start); reflexivity.
Defined.

(** C6 as stated fails: the server refuses CREATE DATABASE, the operation
    raises, and the connection it opened is left open; [close] was never
    called. *)
Lemma connection_left_open_on_failure :
  let r := _perform_mssql_operations Sample.world_denied Sample.start in
  r.1 = Raise (Exception "pymssql.OperationalError"
                 "CREATE DATABASE permission denied") ∧
  sessions r.2 = [DbSession 0] ∧
  omap (λ ev, match ev with DbClose c => Some c | _ => None end) (trace r.2) = [].
Proof. by vm_compute. Qed.

(** ** The database name *)

Lemma str_of_int_inj a b : Py.str_of_int a = Py.str_of_int b → a = b.
Proof.
  unfold Py.str_of_int. intros H. apply DecimalZ.to_int_inj.
  assert (Hnn : ∀ z, Z.to_int z ≠ Decimal.Pos Decimal.Nil
                     ∧ Z.to_int z ≠ Decimal.Neg Decimal.Nil).
  { intros [|p|p]; simpl; split; try done;
      intros [=Hp]; by apply Unsigned.to_uint_nonnil in Hp. }
  pose proof (NilZero.isi _ (proj1 (Hnn a)) (proj2 (Hnn a))) as Ha.
  pose proof (NilZero.isi _ (proj1 (Hnn b)) (proj2 (Hnn b))) as Hb.
  rewrite H in Ha. rewrite Ha in Hb. by injection Hb.
Qed.

(** X18. Two runs get the same database name exactly when their clock
    readings have the same whole seconds. *)
Lemma db_name_at_eq t1 t2 :
  db_name_at t1 = db_name_at t2 ↔ Py.int_of_float t1 = Py.int_of_float t2.
Proof.
  unfold db_name_at. split; [|by intros ->].
  intros H. apply str_of_int_inj. by apply (inj (String.app "ExampleDB_")) in H.
Qed.

(** C7. Two invocations half a second apart generate the same database
    name: the suffix is the clock reading cut to whole seconds. *)
Theorem db_name_collides_within_a_second :
  ¬ (time_time Sample.plain == time_time Sample.world_later)%Q ∧
  db_name_at (time_time Sample.plain) = "ExampleDB_1700000000" ∧
  db_name_at (time_time Sample.world_later) = "ExampleDB_1700000000".
Proof. split; [|split]; by vm_compute. Qed.

(** ** The WinRM session *)

Lemma winrm_transport_selection a :
  (winrm_use_ssl a = true →
     winrm_session_event a
     = WinrmSession (winrm_host a) (winrm_user a) (winrm_password a)
         "ntlm" (Some "ignore")) ∧
  (winrm_use_ssl a = false →
     winrm_session_event a
     = WinrmSession (winrm_host a) (winrm_user a) (winrm_password a)
         "http" None).
Proof. unfold winrm_session_event, winrm_protocol. by split; intros ->. Qed.

(** The session is the one WinRM call of Step 1, made with the host alone. *)
Lemma winrm_init_calls w s :
  winrm_calls (trace (winrm_init w s).2)
  = winrm_calls (trace s) ++ [winrm_session_event (args w)].
Proof.
  change (wp (winrm_init w)
            (λ _ s', winrm_calls (trace s')
                     = winrm_calls (trace s) ++ [winrm_session_event (args w)]) s).
  unfold_script. wp_go; by observe.
Qed.

(** C9. Two command lines that differ in [--winrm-port] only: the endpoint
    that is logged differs, the session that is made does not. *)
Theorem winrm_session_ignores_port :
  let w1 := Sample.world_on_port 5985 in
  let w2 := Sample.world_on_port 6000 in
  winrm_endpoint (args w1) = "http://10.0.0.9:5985/wsman" ∧
  winrm_endpoint (args w2) = "http://10.0.0.9:6000/wsman" ∧
  winrm_calls (trace (winrm_init w1 Sample.start).2)
    = [WinrmSession "10.0.0.9" "admin" "pw" "http" None] ∧
  winrm_calls (trace (winrm_init w2 Sample.start).2)
    = [WinrmSession "10.0.0.9" "admin" "pw" "http" None].
Proof. by vm_compute. Qed.

(** ** The INSERT statements *)

Lemma insert_text_eq : sql_text (Sql.InsertInto table_name) = insert_text.
Proof. reflexivity. Qed.




(** ** The provisioning round trip *)

(** The statements of Steps 4 to 7 on the database in use. *)
Lemma create_schema_step now :
  Sql.exec_in Sql.new_database (Sql.CreateSchemaIfNotExists schema_name) [] now
  = Ok ([], schema_only).
Proof. reflexivity. Qed.

Lemma create_table_step now :
  Sql.exec_in schema_only (Sql.CreateTableIfNotExists table_name) [] now
  = Ok ([], example_database [] 1).
Proof. reflexivity. Qed.

Lemma insert_step rows next name description now :
  (Sql.width name ≤ 100)%nat →
  Sql.exec_in (example_database rows next) (Sql.InsertInto table_name)
    [name; description] now
  = Ok ([], example_database
              (rows ++ [{| Sql.ID := next; Sql.Name := name;
                           Sql.Description := description;
                           Sql.CreatedDate := now |}])
              (next + 1)).
Proof.
  intros Hlen. unfold Sql.exec_in.
  change (Sql.tables (example_database rows next) !! table_name)
    with (Some {| Sql.rows := rows; Sql.next_identity := next |}).
  cbv beta iota. apply Nat.ltb_ge in Hlen. by rewrite Hlen.
Qed.

Lemma select_step rows next now :
  Sql.exec_in (example_database rows next) (Sql.SelectAllFrom table_name) [] now
  = Ok (rows, example_database rows next).
Proof. reflexivity. Qed.

Lemma lookup_set_database name db srv :
  Sql.databases (Sql.set_database name db srv) !! name = Some db.
Proof. apply lookup_insert_eq. Qed.

Lemma getdate_set_database name db srv :
  Sql.getdate (Sql.set_database name db srv) = Sql.getdate srv.
Proof. done. Qed.

(** A statement on a connection whose database is known: the server
    reads the text as [q]. *)
Lemma wp_server_exec_in name db conn q sql params Q s :
  conn_database conn = Some name →
  Sql.databases (server s) !! name = Some db →
  Sql.parse sql = Some q →
  (∀ n, q ≠ Sql.CreateDatabaseIfNotExists n) →
  match Sql.exec_in db q params (Sql.getdate (server s)) with
  | Ok (rows, db') =>
      Q (Ok rows) (set_server (Sql.set_database name db' (server s)) s)
  | Raise e => Q (Raise e) s
  end →
  wp (server_exec conn sql params) Q s.
Proof.
  intros Hconn Hdb Hsql Hq. unfold wp, server_exec, Sql.run. rewrite Hsql.
  destruct q; try (by destruct (Hq db_name));
    unfold Sql.exec; rewrite Hconn; cbn [from_option id]; rewrite Hdb;
    by destruct (Sql.exec_in _ _ _ _) as [[rows db']|e].
Qed.

(** The server reads the CREATE DATABASE text the script formats. *)
Lemma cut_name c name rest :
  has_char c name = false →
  Sql.cut c (name +:+ String c rest) = (name, String c rest).
Proof.
  induction name as [|x name IH]; intros Hname.
  - change ("" +:+ String c rest) with (String c rest).
    cbn [Sql.cut]. by rewrite decide_True.
  - apply has_char_cons in Hname as [Hx Hname].
    change (String x name +:+ String c rest)
      with (String x (name +:+ String c rest)).
    cbn [Sql.cut]. rewrite decide_False by done. by rewrite IH.
Qed.

Lemma parse_create_database name :
  has_char "'" name = false →
  Sql.parse (sql_text (Sql.CreateDatabaseIfNotExists name))
  = Some (Sql.CreateDatabaseIfNotExists name).
Proof.
  intros Hname.
  change (Sql.parse (sql_text (Sql.CreateDatabaseIfNotExists name)))
    with (Sql.name_then "'" (λ n, "') CREATE DATABASE " +:+ n)
            Sql.CreateDatabaseIfNotExists
            (name +:+ String "'" (") CREATE DATABASE " +:+ name))).
  unfold Sql.name_then. rewrite cut_name by done. by rewrite decide_True.
Qed.

Lemma has_char_digits c (u : Decimal.uint) :
  has_char c (NilEmpty.string_of_uint u) = true →
  has_char c "0123456789" = true.
Proof.
  induction u as [|u IH|u IH|u IH|u IH|u IH|u IH|u IH|u IH|u IH|u IH];
    cbn [NilEmpty.string_of_uint has_char]; [done|..];
    intros [Hc|Hc]%orb_true_iff; try (by apply IH);
    apply bool_decide_eq_true in Hc as <-; reflexivity.
Qed.

Lemma has_char_uint c (u : Decimal.uint) :
  has_char c (NilZero.string_of_uint u) = true →
  has_char c "0123456789" = true.
Proof.
  destruct u; try apply has_char_digits.
  cbn [NilZero.string_of_uint has_char]. intros [Hc|Hc]%orb_true_iff; [|done].
  apply bool_decide_eq_true in Hc as <-. reflexivity.
Qed.

Lemma db_name_has_no_quote now : has_char "'" (db_name_at now) = false.
Proof.
  unfold db_name_at.
  change ("ExampleDB_" +:+ ?x) with (String "E" (String "x" (String "a"
    (String "m" (String "p" (String "l" (String "e" (String "D" (String "B"
    (String "_" x)))))))))).
  cbn [has_char bool_decide decide]. 
  destruct (has_char "'" (Py.str_of_int (Py.int_of_float now))) eqn:H; [|done].
  unfold Py.str_of_int, NilZero.string_of_int in H.
  destruct (Z.to_int _) as [u|u]; cbn [has_char] in H.
  - by apply has_char_uint in H.
  - apply orb_true_iff in H as [H|H]; [done|]. by apply has_char_uint in H.
Qed.

(** Steps 2 and 3 on a server without the database: it is created, and
    nothing is fetched. *)
Lemma mssql_create_database_fresh w addr port u p s :
  Sql.databases (server s) !! db_name_at (time_time w) = None →
  wp (mssql_create_database w addr port u p)
    (λ r s', match r with
             | Ok name =>
                 name = db_name_at (time_time w) ∧
                 server s' = Sql.set_database name Sql.new_database (server s) ∧
                 fetched (trace s') = fetched (trace s)
             | Raise _ => True
             end) s.
Proof.
  intros Hfresh. unfold_script. wp_go; try done.
  split; [done|]. split; [|by observe].
  autorewrite with state_fields in *.
  match goal with H : Sql.run _ _ _ _ = Ok _ |- _ => rename H into Hexec end.
  unfold Sql.run in Hexec.
  rewrite parse_create_database in Hexec by apply db_name_has_no_quote.
  unfold Sql.exec in Hexec. rewrite Hfresh in Hexec. by injection Hexec as _ <-.
Qed.

(** A step of Steps 4 to 7 on the example database. *)
Ltac provision_step Hdb :=
  first
    [ wp_step
    | apply wp_driver_fault; [intros ? ?|intros ?]; cbv beta iota
    | apply wp_server_login; intros ?; cbv beta iota
    | apply wp_for_each_logger
    | eapply wp_server_exec_in;
        [ reflexivity
        | autorewrite with state_fields;
          first [exact Hdb | apply lookup_set_database]
        | reflexivity
        | done
        | autorewrite with state_fields;
          rewrite ?getdate_set_database;
          first [ rewrite create_schema_step
                | rewrite create_table_step
                | rewrite insert_step by (vm_compute; lia)
                | rewrite select_step ];
          cbv beta iota ] ].

(** Steps 4 to 7 on the database just created: the three rows are
    inserted into the empty table and read back. *)
Lemma mssql_provision_fresh w addr port u p name s :
  Sql.databases (server s) !! name = Some Sql.new_database →
  wp (mssql_provision w addr port u p name)
    (λ r s', match r with
             | Ok rows =>
                 rows = inserted_rows (Sql.getdate (server s)) sample_data ∧
                 fetched (trace s') = fetched (trace s) ++ [rows]
             | Raise _ => True
             end) s.
Proof.
  intros Hdb. unfold_script. unfold sample_data.
  repeat provision_step Hdb; try done.
  split; [reflexivity|by observe].
Qed.

Lemma fetched_app tr1 tr2 : fetched (tr1 ++ tr2) = fetched tr1 ++ fetched tr2.
Proof. apply omap_app. Qed.

Lemma inserted_rows_sample now :
  let rows := inserted_rows now sample_data in
  (λ r, (Sql.Name r, Sql.Description r)) <$> rows = sample_data ∧
  Sql.ID <$> rows = [1; 2; 3].
Proof. done. Qed.

(** C4 (as the code has it). When the server has no database of the
    generated name before the run and the operation completes, the one
    read-back returns exactly the three sample rows, in insertion order,
    with the identity values 1, 2, 3. *)
Theorem round_trip_on_fresh_database w s :
  Sql.databases (server s) !! db_name_at (time_time w) = None →
  (_perform_mssql_operations w s).1 = Ok () →
  ∃ rows,
    fetched (trace (_perform_mssql_operations w s).2) = fetched (trace s) ++ [rows] ∧
    rows = inserted_rows (Sql.getdate (server s)) sample_data ∧
    (λ r, (Sql.Name r, Sql.Description r)) <$> rows = sample_data ∧
    Sql.ID <$> rows = [1; 2; 3].
Proof.
  intros Hfresh.
  change (wp (_perform_mssql_operations w)
            (λ r s', r = Ok () →
               ∃ rows,
                 fetched (trace s') = fetched (trace s) ++ [rows] ∧
                 rows = inserted_rows (Sql.getdate (server s)) sample_data ∧
                 (λ r, (Sql.Name r, Sql.Description r)) <$> rows = sample_data ∧
                 Sql.ID <$> rows = [1; 2; 3]) s).
  unfold _perform_mssql_operations, mssql_body, mssql_credentials,
    _get_aws_secret, mssql_address.
  wp_go; try done.
  all: eapply wp_mono;
    [apply mssql_create_database_fresh; by autorewrite with state_fields|].
  all: intros [name|e] s1 Hcreate; cbv beta iota; [|by wp_go].
  all: destruct Hcreate as (-> & Hserver & Hfetched).
  all: apply wp_bind; eapply wp_mono;
    [apply mssql_provision_fresh; rewrite Hserver; apply lookup_set_database|].
  all: intros [rows|e] s2 Hprovision; cbv beta iota; [|by wp_go].
  all: destruct Hprovision as (Hrows & Hread).
  all: wp_go; intros _; exists rows.
  all: rewrite Hserver, getdate_set_database in Hrows.
  all: autorewrite with state_fields in *.
  all: split; [|split; [done|rewrite Hrows; apply inserted_rows_sample]].
  all: rewrite !fetched_app, Hread, Hfetched; by observe.
Qed.

Lemma round_trip_on_fresh_database_witness :
  ∃ rows,
    fetched (trace (_perform_mssql_operations Sample.plain Sample.start).2)
    = [rows] ∧
    Sql.ID <$> rows = [1; 2; 3].
Proof.
  destruct (round_trip_on_fresh_database Sample.plain Sample.start)
    as (rows & Hfetched & _ & _ & Hids); [reflexivity..|].
  exists rows. split; [exact Hfetched|exact Hids].
Defined.

(** C4 as stated fails: a second run in the same second finds the database
    and the table of the first, inserts its three rows, and reads back six
    rows. *)
Lemma second_run_reads_back_six_rows :
  let first := _perform_mssql_operations Sample.plain Sample.start in
  let second := _perform_mssql_operations Sample.world_later
                  (initial (server first.2)) in
  first.1 = Ok () ∧ second.1 = Ok () ∧
  map snd (execute_calls (trace second.2))
    = [[]; []; []] ++ map (λ row, [row.1; row.2]) sample_data ++ [[]] ∧
  map (map Sql.ID) (fetched (trace second.2)) = [[1; 2; 3; 4; 5; 6]] ∧
  map (map Sql.Name) (fetched (trace second.2))
    = [["Sample Item 1"; "Sample Item 2"; "Sample Item 3";
        "Sample Item 1"; "Sample Item 2"; "Sample Item 3"]].
Proof. by vm_compute. Qed.


(** ** The stages of a run *)

Lemma database_stage w : emits_only database_event (_perform_mssql_operations w).
Proof. unfold_script. repeat emits_step. Qed.

Lemma ssh_stage w : emits_only ssh_event (_perform_ssh_operations w).
Proof. unfold_script. repeat emits_step. Qed.

Lemma winrm_stage w : emits_only winrm_event (_perform_winrm_operations w).
Proof. unfold_script. unfold winrm_session_event. repeat emits_step. Qed.

(** X1. Each operation talks to its own collaborator only: besides log
    lines, the database operation adds only the secret lookup and driver
    calls to the trace, the shell operation only SSH calls, the WinRM
    operation only WinRM calls, whatever the outcome. *)
Theorem operations_keep_to_their_stage w :
  emits_only database_event (_perform_mssql_operations w) ∧
  emits_only ssh_event (_perform_ssh_operations w) ∧
  emits_only winrm_event (_perform_winrm_operations w).
Proof.
  split; [apply database_stage|]. split; [apply ssh_stage|apply winrm_stage].
Qed.

Lemma calls_of_database_events tr evs :
  Forall database_event evs →
  ssh_calls (tr ++ evs) = ssh_calls tr ∧ winrm_calls (tr ++ evs) = winrm_calls tr.
Proof.
  intros H. unfold ssh_calls, winrm_calls. rewrite !omap_app.
  induction H as [|ev evs Hev _ [IH1 IH2]]; [by rewrite !app_nil_r|].
  by destruct ev.
Qed.

Lemma calls_of_ssh_events tr evs :
  Forall ssh_event evs → winrm_calls (tr ++ evs) = winrm_calls tr.
Proof.
  intros H. unfold winrm_calls. rewrite !omap_app.
  induction H as [|ev evs Hev _ IH]; [by rewrite !app_nil_r|].
  by destruct ev.
Qed.

Lemma calls_of_log tr lvl msg :
  ssh_calls (tr ++ [Log lvl msg]) = ssh_calls tr ∧
  winrm_calls (tr ++ [Log lvl msg]) = winrm_calls tr ∧
  remote_calls (tr ++ [Log lvl msg]) = remote_calls tr.
Proof.
  unfold ssh_calls, winrm_calls, remote_calls. rewrite !omap_app.
  by rewrite !app_nil_r.
Qed.

(** X2. When the database operation raises an exception, [run] logs it and
    ends in [sys.exit(1)]; the shell and WinRM operations are not
    attempted: no SSH call and no WinRM call is made. *)
Theorem database_failure_ends_the_run w s cls msg :
  (_perform_mssql_operations w
     (record_event (Log INFO "Starting operations sequence") s)).1
  = Raise (Exception cls msg) →
  (run w s).1 = Raise (SystemExit 1) ∧
  ssh_calls (trace (run w s).2) = ssh_calls (trace s) ∧
  winrm_calls (trace (run w s).2) = winrm_calls (trace s) ∧
  last (trace (run w s).2) = Some (Log ERROR ("Error during operations: " +:+ msg)).
Proof.
  intros Hfail.
  cut (wp (run w)
         (λ r s', r = Raise (SystemExit 1) ∧
            ssh_calls (trace s') = ssh_calls (trace s) ∧
            winrm_calls (trace s') = winrm_calls (trace s) ∧
            last (trace s') = Some (Log ERROR ("Error during operations: " +:+ msg))) s);
    [done|].
  unfold run. wp_steps. unfold wp at 1.
  destruct (database_stage w (record_event (Log INFO "Starting operations sequence") s))
    as (evs & Htr & Hevs).
  destruct (_perform_mssql_operations w _) as [r s1]. cbn [fst snd] in *. subst r.
  cbv beta iota. wp_steps. autorewrite with state_fields in *. rewrite Htr.
  destruct (calls_of_database_events (trace s ++ [Log INFO "Starting operations sequence"])
              evs Hevs) as [Hssh Hwinrm].
  pose proof calls_of_log as Hlog.
  split; [done|]. split; [|split].
  - rewrite (proj1 (Hlog _ _ _)), Hssh. apply Hlog.
  - rewrite (proj1 (proj2 (Hlog _ _ _))), Hwinrm. apply Hlog.
  - apply last_snoc.
Qed.

Lemma database_failure_ends_the_run_witness :
  (run Sample.world_denied Sample.start).1 = Raise (SystemExit 1).
Proof.
  apply (database_failure_ends_the_run Sample.world_denied Sample.start
           "pymssql.OperationalError" "CREATE DATABASE permission denied").
  reflexivity.
Defined.

(** X3. When the database operation returns and the shell operation raises
    an exception, [run] logs it and ends in [sys.exit(1)] without a WinRM
    call. *)
Theorem ssh_failure_ends_the_run w s cls msg :
  let s1 := (_perform_mssql_operations w
               (record_event (Log INFO "Starting operations sequence") s)) in
  s1.1 = Ok () →
  (_perform_ssh_operations w s1.2).1 = Raise (Exception cls msg) →
  (run w s).1 = Raise (SystemExit 1) ∧
  winrm_calls (trace (run w s).2) = winrm_calls (trace s) ∧
  last (trace (run w s).2) = Some (Log ERROR ("Error during operations: " +:+ msg)).
Proof.
  intros s1 Hok Hfail.
  cut (wp (run w)
         (λ r s', r = Raise (SystemExit 1) ∧
            winrm_calls (trace s') = winrm_calls (trace s) ∧
            last (trace s') = Some (Log ERROR ("Error during operations: " +:+ msg))) s);
    [done|].
  unfold run. wp_steps. unfold wp at 1.
  destruct (database_stage w (record_event (Log INFO "Starting operations sequence") s))
    as (evs & Htr & Hevs).
  fold s1 in Htr |- *. destruct s1 as [r s2]. cbn [fst snd] in *. subst r.
  cbv beta iota. wp_steps. unfold wp at 1.
  destruct (ssh_stage w s2) as (evs' & Htr' & Hevs').
  destruct (_perform_ssh_operations w s2) as [r s3]. cbn [fst snd] in *. subst r.
  cbv beta iota. wp_steps. autorewrite with state_fields in *. rewrite Htr', Htr.
  split; [done|]. split; [|apply last_snoc].
  rewrite (proj1 (proj2 (calls_of_log _ _ _))), (calls_of_ssh_events _ _ Hevs').
  rewrite (proj2 (calls_of_database_events _ _ Hevs)). apply calls_of_log.
Qed.

Lemma ssh_failure_ends_the_run_witness :
  (run Sample.world_no_key Sample.start).1 = Raise (SystemExit 1).
Proof.
  apply (ssh_failure_ends_the_run Sample.world_no_key Sample.start
           "FileNotFoundError" "SSH key file not found: /keys/id_rsa");
    reflexivity.
Defined.

(** X4. No [Exception] leaves [run]: whatever the collaborators do, [run]
    returns or ends in a [SystemExit]. *)
Theorem run_lets_no_Exception_out w s cls msg :
  (run w s).1 ≠ Raise (Exception cls msg).
Proof.
  unfold run, try_except.
  match goal with |- context [match ?body s with _ => _ end] =>
    destruct (body s) as [[[]|[cls' msg'|code]] s'] end; done.
Qed.


(** ** Failures of single steps *)

(** X5. When the key file is not there, the shell operation raises
    FileNotFoundError before it connects: no SSH call is made, no session
    is opened, and the error is logged once by the operation. *)
Theorem missing_key_file_stops_before_connecting w s :
  os_path_isfile w (ssh_key_path (args w)) = false →
  let r := _perform_ssh_operations w s in
  r.1 = Raise (Exception "FileNotFoundError"
                 ("SSH key file not found: " +:+ ssh_key_path (args w))) ∧
  ssh_calls (trace r.2) = ssh_calls (trace s) ∧
  sessions r.2 = sessions s ∧
  logged ERROR (trace r.2)
    = logged ERROR (trace s)
      ++ ["Error during SSH operations: " +:+ "SSH key file not found: "
          +:+ ssh_key_path (args w)].
Proof.
  intros Hkey r.
  cut (wp (_perform_ssh_operations w)
         (λ r s', r = Raise (Exception "FileNotFoundError"
                    ("SSH key file not found: " +:+ ssh_key_path (args w))) ∧
            ssh_calls (trace s') = ssh_calls (trace s) ∧
            sessions s' = sessions s ∧
            logged ERROR (trace s')
            = logged ERROR (trace s)
              ++ ["Error during SSH operations: " +:+ "SSH key file not found: "
                  +:+ ssh_key_path (args w)]) s); [done|].
  unfold _perform_ssh_operations, ssh_body. wp_steps.
  rewrite Hkey. cbn [negb]. wp_steps.
  autorewrite with state_fields. unfold ssh_calls, logged.
  rewrite !omap_app. cbn -[String.append]. by rewrite !app_nil_r.
Qed.

Lemma missing_key_file_stops_before_connecting_witness :
  ssh_calls (trace (_perform_ssh_operations Sample.world_no_key Sample.start).2) = [].
Proof.
  apply (missing_key_file_stops_before_connecting Sample.world_no_key Sample.start).
  reflexivity.
Defined.

(** X6. When the store call or [json.loads] raises an exception,
    [_get_aws_secret] logs "Error retrieving AWS secret" with its message
    and raises the same exception again; [run] then ends in [sys.exit(1)]
    without a call on the database, the shell host or the WinRM host. *)
Theorem secret_failure_is_logged_and_raised_again w s cls msg :
  secret_fails w (Exception cls msg) →
  let fetch := _get_aws_secret w (aws_secret_name (args w)) (aws_region (args w)) in
  (fetch s).1 = Raise (Exception cls msg) ∧
  logged ERROR (trace (fetch s).2)
    = logged ERROR (trace s) ++ ["Error retrieving AWS secret: " +:+ msg] ∧
  (run w s).1 = Raise (SystemExit 1) ∧
  remote_calls (trace (run w s).2) = remote_calls (trace s).
Proof.
  intros Hfail fetch. split_and!.
  - change (wp fetch (λ r _, r = Raise (Exception cls msg)) s).
    unfold fetch, _get_aws_secret. wp_steps.
    destruct Hfail as [Hr|(resp & text & Hr & Ht & Hj)]; rewrite Hr; wp_steps;
      [done|]. rewrite Ht. wp_steps. rewrite Hj. by wp_steps.
  - change (wp fetch (λ _ s', logged ERROR (trace s')
              = logged ERROR (trace s) ++ ["Error retrieving AWS secret: " +:+ msg]) s).
    unfold fetch, _get_aws_secret. wp_steps.
    destruct Hfail as [Hr|(resp & text & Hr & Ht & Hj)]; rewrite Hr; wp_steps;
      [|rewrite Ht; wp_steps; rewrite Hj; wp_steps];
      autorewrite with state_fields; unfold logged; rewrite !omap_app;
      cbn -[String.append]; by rewrite !app_nil_r.
  - change (wp (run w) (λ r _, r = Raise (SystemExit 1)) s).
    unfold run, _perform_mssql_operations, mssql_body, mssql_credentials,
      _get_aws_secret. wp_steps.
    destruct Hfail as [Hr|(resp & text & Hr & Ht & Hj)]; rewrite Hr; wp_steps;
      [done|]. rewrite Ht. wp_steps. rewrite Hj. by wp_steps.
  - change (wp (run w) (λ _ s', remote_calls (trace s') = remote_calls (trace s)) s).
    unfold run, _perform_mssql_operations, mssql_body, mssql_credentials,
      _get_aws_secret. wp_steps.
    destruct Hfail as [Hr|(resp & text & Hr & Ht & Hj)]; rewrite Hr; wp_steps;
      [|rewrite Ht; wp_steps; rewrite Hj; wp_steps]; by observe.
Qed.

Lemma secret_failure_is_logged_and_raised_again_witness :
  (run Sample.world_store_down Sample.start).1 = Raise (SystemExit 1).
Proof.
  apply (secret_failure_is_logged_and_raised_again Sample.world_store_down
           Sample.start "ClientError" "ResourceNotFoundException").
  left. reflexivity.
Defined.


(** ** The WinRM operation step by step *)

(** X7. A Probe call that comes back with a non-zero status is a soft
    failure: both Probe commands are run in order and the step returns;
    the only trace of a non-zero status is one warning for that command. *)
Theorem probe_status_is_a_warning w s r1 r2 :
  winrm_run_ps w ipconfig_cmd = Ok r1 →
  winrm_run_ps w userdomain_cmd = Ok r2 →
  let r := winrm_probe w s in
  r.1 = Ok () ∧
  run_ps_calls (trace r.2) = run_ps_calls (trace s) ++ [ipconfig_cmd; userdomain_cmd] ∧
  logged WARNING (trace r.2)
    = logged WARNING (trace s)
      ++ probe_warning "Could not retrieve IP information" r1
      ++ probe_warning "Could not retrieve domain information" r2 ∧
  logged ERROR (trace r.2) = logged ERROR (trace s).
Proof.
  intros H1 H2 r.
  cut (wp (winrm_probe w)
         (λ r s', r = Ok () ∧
            run_ps_calls (trace s')
            = run_ps_calls (trace s) ++ [ipconfig_cmd; userdomain_cmd] ∧
            logged WARNING (trace s')
            = logged WARNING (trace s)
              ++ probe_warning "Could not retrieve IP information" r1
              ++ probe_warning "Could not retrieve domain information" r2 ∧
            logged ERROR (trace s') = logged ERROR (trace s)) s); [done|].
  unfold winrm_probe, probe_warning. wp_steps. rewrite H1. wp_steps.
  destruct (decide (status_code r1 = 0)); wp_steps; rewrite H2; wp_steps;
    destruct (decide (status_code r2 = 0)); wp_steps;
    autorewrite with state_fields; unfold run_ps_calls, logged;
    rewrite !omap_app; cbn -[String.append];
    by rewrite ?app_nil_r, <-?app_assoc.
Qed.

Lemma probe_status_is_a_warning_witness :
  logged WARNING (trace (winrm_probe Sample.world_probe_refused Sample.start).2)
  = ["Could not retrieve IP information"; "Could not retrieve domain information"].
Proof.
  apply (probe_status_is_a_warning Sample.world_probe_refused Sample.start
           {| status_code := 1; std_out := ""; std_err := "Access is denied" |}
           {| status_code := 1; std_out := ""; std_err := "Access is denied" |});
    reflexivity.
Defined.

(** X8. Once [sys.argv[0]] is there and [os.path.abspath] has returned,
    the status of the Dispatch call decides the step: with status 0 the
    step returns after logging the output; with any other status it logs
    the error text and raises RuntimeError "Remote script execution
    failed", after exactly one [run_ps] call either way. *)
Theorem dispatch_status_is_fatal w s script path r3 :
  head (sys_argv w) = Some script →
  os_path_abspath w script = Ok path →
  winrm_run_ps w (ps_script (script_args (sys_argv w))) = Ok r3 →
  let r := winrm_dispatch w s in
  run_ps_calls (trace r.2)
    = run_ps_calls (trace s) ++ [ps_script (script_args (sys_argv w))] ∧
  (status_code r3 = 0 →
     r.1 = Ok () ∧ logged ERROR (trace r.2) = logged ERROR (trace s)) ∧
  (status_code r3 ≠ 0 →
     r.1 = Raise (Exception "RuntimeError" "Remote script execution failed") ∧
     logged ERROR (trace r.2)
       = logged ERROR (trace s)
         ++ ["Failed to execute script on remote system. Error: "
             +:+ Py.strip (std_err r3)]).
Proof.
  intros Hscript Hpath H3 r.
  cut (wp (winrm_dispatch w)
         (λ r s',
            run_ps_calls (trace s')
            = run_ps_calls (trace s) ++ [ps_script (script_args (sys_argv w))] ∧
            (status_code r3 = 0 →
               r = Ok () ∧ logged ERROR (trace s') = logged ERROR (trace s)) ∧
            (status_code r3 ≠ 0 →
               r = Raise (Exception "RuntimeError" "Remote script execution failed") ∧
               logged ERROR (trace s')
               = logged ERROR (trace s)
                 ++ ["Failed to execute script on remote system. Error: "
                     +:+ Py.strip (std_err r3)])) s); [done|].
  unfold winrm_dispatch, sys_argv_0.
  destruct (sys_argv w) as [|script' rest]; [done|]. injection Hscript as ->.
  wp_steps. rewrite Hpath. wp_steps. rewrite H3. wp_steps.
  destruct (decide (status_code r3 = 0)) as [Hzero|Hnonzero]; wp_steps.
  - split; [by observe|]. split; [intros _|done]. split; [done|].
    autorewrite with state_fields. unfold logged.
    rewrite !omap_app. cbn -[String.append]. by rewrite ?app_nil_r.
  - split; [by observe|]. split; [done|intros _]. split; [done|].
    autorewrite with state_fields. unfold logged.
    rewrite !omap_app. cbn -[String.append].
    by rewrite ?app_nil_r, <-?app_assoc.
Qed.

Lemma dispatch_status_is_fatal_witness :
  (winrm_dispatch Sample.world_probe_refused Sample.start).1
  = Raise (Exception "RuntimeError" "Remote script execution failed").
Proof.
  apply (dispatch_status_is_fatal Sample.world_probe_refused Sample.start
           "run.py" "/opt/tool/run.py"
           {| status_code := 1; std_out := ""; std_err := "Access is denied" |});
    [reflexivity..|done].
Defined.

(** X9. An exception out of the first Probe call is not a soft failure:
    the operation logs it and raises it again, the second Probe command and
    the Dispatch script are never run. *)
Theorem probe_exception_stops_the_operation w s cls msg :
  winrm_session_fault w = None →
  winrm_run_ps w ipconfig_cmd = Raise (Exception cls msg) →
  let r := _perform_winrm_operations w s in
  r.1 = Raise (Exception cls msg) ∧
  run_ps_calls (trace r.2) = run_ps_calls (trace s) ++ [ipconfig_cmd] ∧
  logged ERROR (trace r.2)
    = logged ERROR (trace s) ++ ["Error during WinRM operations: " +:+ msg].
Proof.
  intros Hsession H1 r.
  cut (wp (_perform_winrm_operations w)
         (λ r s', r = Raise (Exception cls msg) ∧
            run_ps_calls (trace s') = run_ps_calls (trace s) ++ [ipconfig_cmd] ∧
            logged ERROR (trace s')
            = logged ERROR (trace s) ++ ["Error during WinRM operations: " +:+ msg]) s);
    [done|].
  unfold _perform_winrm_operations, winrm_init, winrm_Session, winrm_probe.
  wp_steps. rewrite Hsession. wp_steps. rewrite H1. wp_steps.
  split; [done|]. split; [by observe|].
  autorewrite with state_fields. unfold logged.
  rewrite !omap_app. cbn -[String.append]. by rewrite ?app_nil_r, <-?app_assoc.
Qed.

Lemma probe_exception_stops_the_operation_witness :
  run_ps_calls (trace (_perform_winrm_operations Sample.world_winrm_down
                         Sample.start).2)
  = [ipconfig_cmd].
Proof.
  apply (probe_exception_stops_the_operation Sample.world_winrm_down Sample.start
           "WinRMTransportError" "Bad HTTP response"); reflexivity.
Defined.


(** ** The shell session *)

(** X10. Once the connection is made, the shell session is closed exactly
    when the operation returns: whenever a later step raises, the
    operation ends with the session still open. *)
Theorem ssh_session_closed_only_on_return w s :
  os_path_isfile w (ssh_key_path (args w)) = true →
  ssh_connect w = None →
  let r := _perform_ssh_operations w s in
  let mine := SshSession (ssh_host (args w)) in
  match r.1 with
  | Ok _ => sessions r.2 = filter (λ x, x ≠ mine) (sessions s)
  | Raise _ => sessions r.2 = sessions s ++ [mine]
  end.
Proof. apply ssh_sessions_outcome. Qed.

Lemma ssh_session_closed_only_on_return_witness :
  sessions (_perform_ssh_operations Sample.world_ssh_drops Sample.start).2
  = [SshSession "10.0.0.7"].
Proof.
  apply (ssh_session_closed_only_on_return Sample.world_ssh_drops Sample.start);
    reflexivity.
Defined.

(** ** Splitting and replacing text *)

Lemma append_nil_r (a : string) : a +:+ "" = a.
Proof.
  induction a as [|x a IH]; [done|].
  change (String x (a +:+ "") = String x a). by rewrite IH.
Qed.

Lemma rev_app_rev_app (a b c : string) :
  String.rev_app (String.rev_app a b) c = String.rev_app b (a +:+ c).
Proof.
  revert b c. induction a as [|x a IH]; intros b c; [done|].
  change (String.rev_app (String.rev_app a (String x b)) c
          = String.rev_app b (String x (a +:+ c))).
  by rewrite IH.
Qed.

Lemma rev_rev_app (a cur : string) :
  String.rev (String.rev_app a cur) = String.rev cur +:+ a.
Proof.
  unfold String.rev. rewrite rev_app_rev_app.
  revert a. induction cur as [|x cur IH]; intros a.
  - by rewrite append_nil_r.
  - change (String.rev_app cur (String x (a +:+ ""))
            = String.rev_app cur (String x "") +:+ a).
    rewrite append_nil_r.
    assert (H : ∀ b c d, String.rev_app b (c +:+ d) = String.rev_app b c +:+ d).
    { clear. induction b as [|y b IHb]; intros c d; [done|].
      change (String.rev_app b (String y (c +:+ d))
              = String.rev_app b (String y c) +:+ d).
      apply (IHb (String y c) d). }
    apply (H cur (String x "") a).
Qed.

Lemma rev_cons_append x (cur a : string) :
  String.rev (String x cur) +:+ a = String.rev cur +:+ String x a.
Proof.
  change (String.rev (String x cur))
    with (String.rev (String.rev_app (String x "") cur)).
  by rewrite rev_rev_app, append_assoc.
Qed.

(** A piece without the separator comes out whole. *)
Lemma split_go_no_sep sep cur a :
  has_char sep a = false →
  Py.split_go sep cur a = [String.rev cur +:+ a].
Proof.
  revert cur. induction a as [|x a IH]; intros cur Hc.
  - by rewrite append_nil_r.
  - apply has_char_cons in Hc as [Hx Ha]. cbn [Py.split_go].
    rewrite decide_False by done. rewrite IH by done.
    by rewrite rev_cons_append.
Qed.

(** The pieces after a separator do not depend on what came before it. *)
Lemma split_go_sep sep cur a b :
  has_char sep a = false →
  Py.split_go sep cur (a +:+ String sep b)
  = (String.rev cur +:+ a) :: Py.split_go sep "" b.
Proof.
  revert cur. induction a as [|x a IH]; intros cur Hc.
  - change ("" +:+ String sep b) with (String sep b). cbn [Py.split_go].
    rewrite decide_True by done. by rewrite append_nil_r.
  - apply has_char_cons in Hc as [Hx Ha].
    change (String x a +:+ String sep b) with (String x (a +:+ String sep b)).
    cbn [Py.split_go]. rewrite decide_False by done. rewrite IH by done.
    by rewrite rev_cons_append.
Qed.

Lemma split_go_ends sep cur a b :
  ∃ l, Py.split_go sep cur (a +:+ String sep b) = l ++ Py.split_go sep "" b.
Proof.
  revert cur. induction a as [|x a IH]; intros cur.
  - exists [String.rev cur]. change ("" +:+ String sep b) with (String sep b).
    cbn [Py.split_go]. by rewrite decide_True.
  - change (String x a +:+ String sep b) with (String x (a +:+ String sep b)).
    cbn [Py.split_go]. destruct (decide (x = sep)).
    + destruct (IH "") as [l Hl]. exists (String.rev cur :: l). by rewrite Hl.
    + apply IH.
Qed.

Lemma startswith_has_char c n h :
  Py.startswith n h = true → has_char c n = true → has_char c h = true.
Proof.
  revert h. induction n as [|x n IH]; intros [|y h]; try done.
  cbn [Py.startswith has_char]. destruct (decide (x = y)) as [->|]; [|done].
  intros Hn [Hx|Hc]%orb_true_iff; apply orb_true_iff; eauto.
Qed.

Lemma contains_has_char c n h :
  has_char c n = true → has_char c h = false → Py.contains n h = false.
Proof.
  intros Hn. induction h as [|y h IH]; intros Hh.
  - cbn [Py.contains]. destruct (Py.startswith n "") eqn:Hs; [|done].
    by rewrite (startswith_has_char c n "" Hs Hn) in Hh.
  - cbn [Py.contains]. destruct (Py.startswith n (String y h)) eqn:Hs.
    + by rewrite (startswith_has_char c n _ Hs Hn) in Hh.
    + apply has_char_cons in Hh as [_ Hh]. by apply IH.
Qed.

(** Nothing to replace: the string is unchanged. *)
Lemma replace_go_none fuel old new hay :
  Py.contains old hay = false → Py.replace_go fuel old new hay = hay.
Proof.
  revert hay. induction fuel as [|fuel IH]; intros [|c h]; try done.
  cbn [Py.contains Py.replace_go]. intros [-> Hh]%orb_false_elim.
  by rewrite IH.
Qed.

(** The scheme at the front of the URL is removed. *)
Lemma replace_scheme rest :
  Py.contains "sqlserver://" rest = false →
  Py.replace "sqlserver://" "" ("sqlserver://" +:+ rest) = rest.
Proof.
  intros H.
  transitivity (Py.replace_go (11 + String.length rest) "sqlserver://" "" rest);
    [reflexivity|by apply replace_go_none].
Qed.


(** ** The server address *)

(** The address when the text after the scheme is [host:port]: the host
    and [int(port)]. *)
Lemma mssql_address_with_port w s host port :
  has_char ":" host = false →
  has_char ":" port = false →
  Py.contains "sqlserver://" (host +:+ ":" +:+ port) = false →
  mssql_url (args w) = "sqlserver://" +:+ host +:+ ":" +:+ port →
  mssql_address w s = (py_int w port ≫= λ z, mret (host, z)) s.
Proof.
  intros Hhost Hport Hscheme Hurl. unfold mssql_address. rewrite Hurl.
  rewrite replace_scheme by done.
  change (host +:+ ":" +:+ port) with (host +:+ String ":" port).
  unfold Py.split. rewrite split_go_sep, split_go_no_sep by done.
  reflexivity.
Qed.

(** X11. The server address out of [--mssql-url].  For "sqlserver://host"
    with no colon in the host it is the host and port 1433; for
    "sqlserver://host:port" with a plain port text that [int] reads as a
    number (ASCII digits, single underscores between them, a sign, white
    space around) it is the host and that number; for "sqlserver://host:",
    with nothing after the colon, [int] raises ValueError.  The state is
    not touched. *)
Theorem mssql_address_of_url w s host :
  has_char ":" host = false →
  (mssql_url (args w) = "sqlserver://" +:+ host →
     mssql_address w s = (Ok (host, 1433), s)) ∧
  (∀ port z,
     mssql_url (args w) = "sqlserver://" +:+ host +:+ ":" +:+ port →
     has_char ":" port = false →
     Py.contains "sqlserver://" (host +:+ ":" +:+ port) = false →
     Py.plain port = true →
     Py.int_of_str port = Some z →
     mssql_address w s = (Ok (host, z), s)) ∧
  (mssql_url (args w) = "sqlserver://" +:+ host +:+ ":" →
     Py.contains "sqlserver://" (host +:+ ":") = false →
     mssql_address w s
     = (Raise (Exception "ValueError"
                 "invalid literal for int() with base 10: ''"), s)).
Proof.
  intros Hhost. split; [|split].
  - intros Hurl. unfold mssql_address. rewrite Hurl.
    rewrite replace_scheme by (by apply (contains_has_char ":")).
    unfold Py.split. rewrite split_go_no_sep by done. reflexivity.
  - intros port z Hurl Hport Hscheme Hplain Hz.
    rewrite (mssql_address_with_port w s host port) by done.
    unfold py_int. by rewrite Hplain, Hz.
  - intros Hurl Hscheme.
    by rewrite (mssql_address_with_port w s host "").
Qed.

Lemma mssql_address_of_url_witness :
  mssql_address Sample.plain Sample.start = (Ok ("db.local", 1433), Sample.start).
Proof.
  destruct (mssql_address_of_url Sample.plain Sample.start "db.local")
    as (_ & H & _); [reflexivity|].
  apply (H "1433"); reflexivity.
Defined.

(** ** The recursion guard, end to end *)

Lemma flag_in_script_args argv :
  last (Py.split " " (script_args argv)) = Some RECURSION_FLAG.
Proof.
  unfold script_args, Py.split.
  change (" " +:+ RECURSION_FLAG) with (String " "%char RECURSION_FLAG).
  destruct (split_go_ends " " "" (Py.join " " (tail argv)) RECURSION_FLAG)
    as [l ->].
  by rewrite last_app.
Qed.

(** X12. The command line the Dispatch step builds is refused where it
    would be used: in a process whose arguments are that argument string
    split at spaces, [parse_args] exits, with status 2 unless the parser
    has left before, because the flag is no option of the parser.
    [__init__] does not return, [run] is not reached, and nothing is
    logged or called. *)
Theorem self_invocation_is_refused w w' s :
  tail (sys_argv w') = Py.split " " (script_args (sys_argv w)) →
  (main w' s).1 = Raise (SystemExit (default 2 (parse_exit w'))) ∧
  (__init__ w' s).1 = Raise (SystemExit (default 2 (parse_exit w'))) ∧
  (main w' s).2 = s.
Proof.
  intros Hargv.
  assert (Hflag : existsb unrecognized (tail (sys_argv w')) = true).
  { apply existsb_exists. exists RECURSION_FLAG. split; [|done].
    apply list_elem_of_In. rewrite Hargv.
    pose proof (flag_in_script_args (sys_argv w)) as Hlast.
    apply last_Some in Hlast as [l ->]. set_solver. }
  unfold main, __init__, sys_argv_0, parse_args, mbind, M_bind, raise, mret,
    M_ret, when.
  destruct (sys_argv w') as [|script rest]; [done|].
  rewrite Hflag. by destruct (parse_exit w').
Qed.

Lemma self_invocation_is_refused_witness :
  (main Sample.world_far_end Sample.start).1 = Raise (SystemExit 2).
Proof.
  apply (self_invocation_is_refused Sample.plain Sample.world_far_end
           Sample.start).
  reflexivity.
Defined.

(** ** Errors in the log *)

Section Quiet.

Lemma never_raise {A} e : never_returns (raise e : M A).
Proof. done. Qed.

Lemma never_bind {A B} (m : M A) (f : A → M B) :
  (∀ a, never_returns (f a)) → never_returns (m ≫= f).
Proof.
  intros Hf s b. unfold mbind, M_bind.
  destruct (m s) as [[a|e] s']; [apply Hf|done].
Qed.

Lemma quiet_never {A} (m : M A) : never_returns m → no_error_on_return m.
Proof. intros H s a Hok. by destruct (H s a). Qed.

Lemma quiet_silent {A} (m : M A) :
  (∀ s, trace (m s).2 = trace s) → no_error_on_return m.
Proof. intros H s a _. by rewrite H. Qed.

Lemma quiet_ret {A} (a : A) : no_error_on_return (mret a).
Proof. by apply quiet_silent. Qed.

Lemma quiet_raise {A} e : no_error_on_return (raise e : M A).
Proof. by apply quiet_silent. Qed.

Lemma quiet_lift {A} (r : result A) : no_error_on_return (lift r).
Proof. by apply quiet_silent. Qed.

Lemma quiet_emit ev :
  (∀ msg, ev ≠ Log ERROR msg) → no_error_on_return (emit ev).
Proof.
  intros Hev s a _. change (trace (emit ev s).2) with (trace s ++ [ev]).
  unfold logged. rewrite omap_app.
  destruct ev as [[] msg| | | | | | | | | | | | |]; try apply app_nil_r.
  by destruct (Hev msg).
Qed.

Lemma quiet_bind {A B} (m : M A) (f : A → M B) :
  no_error_on_return m → (∀ a, no_error_on_return (f a)) →
  no_error_on_return (m ≫= f).
Proof.
  intros Hm Hf s b. unfold mbind, M_bind. specialize (Hm s).
  destruct (m s) as [[a|e] s']; simpl in *; [|done].
  intros Hok. by rewrite (Hf a s' b Hok), (Hm a).
Qed.

(** A handler that raises again: the [try] returns only when its body
    does. *)
Lemma quiet_try_except {A} (body : M A) handler :
  no_error_on_return body → (∀ e, never_returns (handler e)) →
  no_error_on_return (try_except body handler).
Proof.
  intros Hm Hh s a. unfold try_except. specialize (Hm s).
  destruct (body s) as [[a'|[cls msg|code]] s']; simpl in *; [by apply Hm| |done].
  intros Hok. by destruct (Hh _ _ _ Hok).
Qed.

Lemma quiet_for_each {A} (xs : list A) body :
  (∀ x, no_error_on_return (body x)) → no_error_on_return (for_each xs body).
Proof.
  intros Hb. induction xs as [|x xs IH]; simpl.
  - apply quiet_ret.
  - apply quiet_bind; auto.
Qed.

Lemma quiet_when b m : no_error_on_return m → no_error_on_return (when b m).
Proof. destruct b; [done|]. intros _. apply quiet_ret. Qed.

Lemma quiet_set_sessions f : no_error_on_return (set_sessions f).
Proof. by apply quiet_silent. Qed.

Lemma quiet_driver_fault w : no_error_on_return (driver_fault w).
Proof.
  apply quiet_silent. intros s. unfold driver_fault.
  by destruct (db_fault w (trace s)).
Qed.

Lemma quiet_server_login database : no_error_on_return (server_login database).
Proof.
  apply quiet_silent. intros s. unfold server_login.
  by destruct (database_missing _ _).
Qed.

Lemma quiet_server_exec conn q params :
  no_error_on_return (server_exec conn q params).
Proof.
  apply quiet_silent. intros s. unfold server_exec.
  by destruct (Sql.run _ _ _ _) as [[rows srv]|e].
Qed.

Lemma quiet_py_int w text : no_error_on_return (py_int w text).
Proof.
  apply quiet_silent. intros s. unfold py_int.
  by destruct (Py.plain text); [destruct (Py.int_of_str text)|].
Qed.

Lemma quiet_sys_argv_0 w : no_error_on_return (sys_argv_0 w).
Proof.
  apply quiet_silent. intros s. unfold sys_argv_0. by destruct (sys_argv w).
Qed.

End Quiet.

(** One step of a [no_error_on_return] goal, by the head of the program;
    an error line followed by [raise] never returns. *)
Ltac quiet_step :=
  lazymatch goal with
  | |- no_error_on_return (mbind _ _) =>
      first [ solve [apply quiet_never, never_bind; intros ?; apply never_raise]
            | apply quiet_bind; [|intros ?] ]
  | |- no_error_on_return (mret _) => apply quiet_ret
  | |- no_error_on_return (raise _) => apply quiet_raise
  | |- no_error_on_return (lift _) => apply quiet_lift
  | |- no_error_on_return (emit _) => apply quiet_emit; done
  | |- no_error_on_return (logger _ _) => apply quiet_emit; done
  | |- no_error_on_return (try_except _ _) =>
      apply quiet_try_except;
        [|intros ?; apply never_bind; intros ?; apply never_raise]
  | |- no_error_on_return (for_each _ _) => apply quiet_for_each; intros ?
  | |- no_error_on_return (when _ _) => apply quiet_when
  | |- no_error_on_return (set_sessions _) => apply quiet_set_sessions
  | |- no_error_on_return (driver_fault _) => apply quiet_driver_fault
  | |- no_error_on_return (server_login _) => apply quiet_server_login
  | |- no_error_on_return (server_exec _ _ _) => apply quiet_server_exec
  | |- no_error_on_return (py_int _ _) => apply quiet_py_int
  | |- no_error_on_return (sys_argv_0 _) => apply quiet_sys_argv_0
  | |- no_error_on_return (match ?x with _ => _ end) => destruct x
  end; cbv beta iota zeta.

Lemma run_quiet w : no_error_on_return (run w).
Proof.
  unfold run. unfold_script. unfold winrm_session_event.
  repeat quiet_step.
Qed.

Lemma last_event_bind {A B} (m : M A) (f : A → M B) ev :
  (∀ a s b, (f a s).1 = Ok b → last (trace (f a s).2) = Some ev) →
  ∀ s b, ((m ≫= f) s).1 = Ok b → last (trace ((m ≫= f) s).2) = Some ev.
Proof.
  intros Hf s b. unfold mbind, M_bind.
  destruct (m s) as [[a|e] s']; [apply Hf|done].
Qed.

(** X13. [run] returns only after an error-free run: when it returns, no
    ERROR line was logged since it started, and the last event is the log
    line "All operations completed successfully". *)
Theorem run_returns_without_error w s :
  (run w s).1 = Ok () →
  logged ERROR (trace (run w s).2) = logged ERROR (trace s) ∧
  last (trace (run w s).2)
  = Some (Log INFO "All operations completed successfully").
Proof.
  intros Hok. split; [by apply (run_quiet w s ())|].
  revert Hok. unfold run, try_except.
  match goal with |- context [match ?body s with _ => _ end] =>
    assert (Hlast : (body s).1 = Ok () →
              last (trace (body s).2)
              = Some (Log INFO "All operations completed successfully"));
    [|destruct (body s) as [[[]|[cls msg|code]] s']; [by auto|done..]] end.
  apply last_event_bind. intros _ s1 b.
  apply last_event_bind. intros _ s2 b'.
  apply last_event_bind. intros _ s3 b''.
  apply last_event_bind. intros _ s4 b3 _. apply last_snoc.
Qed.

Lemma run_returns_without_error_witness :
  logged ERROR (trace (run Sample.plain Sample.start).2) = [].
Proof.
  apply (run_returns_without_error Sample.plain Sample.start). reflexivity.
Defined.

(** ** The database operation, whatever the server holds *)

(** The guarded statements on a database that has the schema and the
    table: nothing changes. *)
Lemma create_schema_again rows next now :
  Sql.exec_in (example_database rows next)
    (Sql.CreateSchemaIfNotExists schema_name) [] now
  = Ok ([], example_database rows next).
Proof. reflexivity. Qed.

Lemma create_table_again rows next now :
  Sql.exec_in (example_database rows next)
    (Sql.CreateTableIfNotExists table_name) [] now
  = Ok ([], example_database rows next).
Proof. reflexivity. Qed.

Lemma database_present name db srv :
  Sql.databases srv !! name = Some db →
  database_missing (Some name) srv = false.
Proof.
  intros H. unfold database_missing. apply bool_decide_eq_false. by rewrite H.
Qed.

(** Steps 2 and 3 on any server: they fail only when a driver call does;
    afterwards the server has the database, as it was or new. *)
Lemma mssql_create_database_outcome w addr port u p s :
  wp (mssql_create_database w addr port u p)
    (λ r s', match r with
             | Ok name =>
                 name = db_name_at (time_time w) ∧
                 Sql.databases (server s') !! name
                 = Some (default Sql.new_database
                           (Sql.databases (server s) !! name)) ∧
                 Sql.getdate (server s') = Sql.getdate (server s) ∧
                 fetched (trace s') = fetched (trace s)
             | Raise e => ∃ tr, db_fault w tr = Some e
             end) s.
Proof.
  unfold_script. wp_go; try done; try (by eauto).
  - match goal with H : Sql.run _ _ _ _ = Raise _ |- _ => rename H into Hexec end.
    unfold Sql.run in Hexec.
    rewrite parse_create_database in Hexec by apply db_name_has_no_quote.
    unfold Sql.exec in Hexec. autorewrite with state_fields in Hexec.
    by destruct (Sql.databases (server s) !! _).
  - match goal with H : Sql.run _ _ _ _ = Ok _ |- _ => rename H into Hexec end.
    unfold Sql.run in Hexec.
    rewrite parse_create_database in Hexec by apply db_name_has_no_quote.
    unfold Sql.exec in Hexec. autorewrite with state_fields in *.
    split; [done|].
    destruct (Sql.databases (server s) !! _) as [db|] eqn:Hdb;
      injection Hexec as _ <-.
    + split; [by rewrite Hdb|]. split; [done|by observe].
    + split; [by rewrite lookup_set_database|]. split; [done|by observe].
Qed.

Lemma fetched_log_lines {A} lvl (msg : A → string) (xs : list A) :
  fetched (map (λ x, Log lvl (msg x)) xs) = [].
Proof. by induction xs. Qed.

(** A step of Steps 4 to 7 on a database whose states after the guarded
    statements are known. *)
Ltac outcome_step Hdb Hschema Htable :=
  first
    [ wp_step
    | apply wp_driver_fault; [intros ? ?|intros ?]; cbv beta iota
    | apply wp_server_login;
        [ intros Hmissing; autorewrite with state_fields in Hmissing;
          by rewrite (database_present _ _ _ Hdb) in Hmissing
        | intros _ ]; cbv beta iota
    | apply wp_for_each_logger
    | eapply wp_server_exec_in;
        [ reflexivity
        | autorewrite with state_fields;
          first [exact Hdb | apply lookup_set_database]
        | reflexivity
        | done
        | autorewrite with state_fields;
          rewrite ?getdate_set_database;
          first [ rewrite Hschema
                | rewrite Htable
                | rewrite insert_step by (vm_compute; lia)
                | rewrite select_step ];
          cbv beta iota ] ].

(** Steps 4 to 7 fail only when a driver call does; the read-back is the
    table as it was, followed by the three rows. *)
Lemma mssql_provision_outcome w addr port u p name db db1 rows next s :
  Sql.databases (server s) !! name = Some db →
  (∀ now, Sql.exec_in db (Sql.CreateSchemaIfNotExists schema_name) [] now
          = Ok ([], db1)) →
  (∀ now, Sql.exec_in db1 (Sql.CreateTableIfNotExists table_name) [] now
          = Ok ([], example_database rows next)) →
  wp (mssql_provision w addr port u p name)
    (λ r s', match r with
             | Ok out =>
                 out = rows ++ inserted_rows_from next (Sql.getdate (server s))
                                 sample_data ∧
                 fetched (trace s') = fetched (trace s) ++ [out]
             | Raise e => ∃ tr, db_fault w tr = Some e
             end) s.
Proof.
  intros Hdb Hschema Htable. unfold_script. unfold sample_data.
  repeat outcome_step Hdb Hschema Htable; try (by eauto).
  split.
  - rewrite <-!app_assoc. f_equal. unfold inserted_rows_from.
    cbn [imap app compose fst snd Z.of_nat].
    by rewrite Z.add_0_r, <-(Z.add_assoc next 1 1).
  - autorewrite with state_fields. rewrite !fetched_app, fetched_log_lines.
    unfold fetched. cbn [omap list_omap]. by rewrite ?app_nil_r.
Qed.

(** X14. The read-back of Step 7 returns the whole table, not only what
    this run inserted: when the database of the generated name is already
    there with the table holding [rows], an operation that completes reads
    back [rows] followed by its own three rows, numbered from the table's
    next identity value. *)
Theorem read_back_returns_the_whole_table w s rows next :
  Sql.databases (server s) !! db_name_at (time_time w)
  = Some (example_database rows next) →
  (_perform_mssql_operations w s).1 = Ok () →
  fetched (trace (_perform_mssql_operations w s).2)
  = fetched (trace s)
    ++ [rows ++ inserted_rows_from next (Sql.getdate (server s)) sample_data].
Proof.
  intros Hdb.
  change (wp (_perform_mssql_operations w)
            (λ r s', r = Ok () →
               fetched (trace s')
               = fetched (trace s)
                 ++ [rows ++ inserted_rows_from next (Sql.getdate (server s))
                               sample_data]) s).
  unfold _perform_mssql_operations, mssql_body, mssql_credentials,
    _get_aws_secret, mssql_address.
  wp_go; try done.
  all: eapply wp_mono; [apply mssql_create_database_outcome|].
  all: intros [name|e] s1 Hcreate; cbv beta iota; [|by wp_go].
  all: destruct Hcreate as (-> & Hserver & Hdate & Hfetched).
  all: autorewrite with state_fields in Hserver, Hdate, Hfetched.
  all: rewrite Hdb in Hserver; cbn [from_option id] in Hserver.
  all: apply wp_bind; eapply wp_mono;
    [eapply mssql_provision_outcome;
       [exact Hserver
       |intros; apply create_schema_again
       |intros; apply create_table_again]|].
  all: intros [out|e] s2 Hprovision; cbv beta iota; [|by wp_go].
  all: destruct Hprovision as (-> & Hread).
  all: wp_go; intros _.
  all: autorewrite with state_fields.
  all: rewrite !fetched_app, Hread, Hfetched, Hdate; by observe.
Qed.

Lemma read_back_returns_the_whole_table_witness :
  map (map Sql.ID)
    (fetched (trace (_perform_mssql_operations Sample.world_later
                       Sample.provisioned).2))
  = [[1; 2; 3; 4; 5; 6]].
Proof.
  rewrite (read_back_returns_the_whole_table Sample.world_later
             Sample.provisioned
             (inserted_rows "2024-01-01 00:00:00" sample_data) 4);
    reflexivity.
Defined.

(** ** A run that completes *)

Lemma mssql_address_result w s s' :
  (mssql_address w s).1 = (mssql_address w s').1.
Proof.
  unfold mssql_address, mbind, M_bind, mret, M_ret, py_int, raise, lift.
  destruct (1 <? _)%nat; [|done].
  destruct (Py.plain _); [by destruct (Py.int_of_str _)|].
  by destruct (int_of_text w _).
Qed.

Lemma wp_mssql_address w Q s s0 :
  Q (mssql_address w s0).1 s → wp (mssql_address w) Q s.
Proof.
  unfold wp, mssql_address, mbind, M_bind, mret, M_ret, py_int, raise, lift.
  destruct (1 <? _)%nat; [|done].
  destruct (Py.plain _); [by destruct (Py.int_of_str _)|].
  by destruct (int_of_text w _).
Qed.

(** The database operation completes when the secret is a record with
    both keys, the port is a number, no driver call fails, and the
    database of the generated name is not there or is the example
    database. *)
Lemma mssql_completes w s (m : gmap string json) u p addr port :
  secret_payload w (JObj m) →
  m !! "username" = Some u → m !! "password" = Some p →
  (mssql_address w s).1 = Ok (addr, port) →
  (∀ tr, db_fault w tr = None) →
  (Sql.databases (server s) !! db_name_at (time_time w) = None ∨
   ∃ rows next, Sql.databases (server s) !! db_name_at (time_time w)
                = Some (example_database rows next)) →
  (_perform_mssql_operations w s).1 = Ok ().
Proof.
  intros (resp & text & Hr & Ht & Hj) Hu Hp Haddr Hfault Hdb.
  assert (Hno : ∀ e, ¬ ∃ tr, db_fault w tr = Some e).
  { intros e [tr Htr]. by rewrite Hfault in Htr. }
  change (wp (_perform_mssql_operations w) (λ r _, r = Ok ()) s).
  unfold _perform_mssql_operations, mssql_body, mssql_credentials,
    _get_aws_secret.
  wp_steps. rewrite Hr. wp_steps. rewrite Ht. wp_steps. rewrite Hj. wp_steps.
  rewrite (all_keys_present m u p Hu Hp). wp_steps.
  cbn [negb py_getitem]. wp_steps. rewrite Hu. wp_steps. rewrite Hp. wp_steps.
  apply (wp_mssql_address _ _ _ s). rewrite Haddr. cbv beta iota. wp_steps.
  eapply wp_mono; [apply mssql_create_database_outcome|].
  intros [name|e] s1 Hcreate; cbv beta iota; [|by destruct (Hno e)].
  destruct Hcreate as (-> & Hserver & _).
  autorewrite with state_fields in Hserver.
  apply wp_bind.
  destruct Hdb as [Hdb|(rows & next & Hdb)];
    rewrite Hdb in Hserver; cbn [from_option id] in Hserver.
  - eapply wp_mono;
      [eapply mssql_provision_outcome;
         [exact Hserver
         |intros; apply create_schema_step
         |intros; apply create_table_step]|].
    intros [out|e] s2 Hprovision; cbv beta iota; [|by destruct (Hno e)].
    by wp_steps.
  - eapply wp_mono;
      [eapply mssql_provision_outcome;
         [exact Hserver
         |intros; apply create_schema_again
         |intros; apply create_table_again]|].
    intros [out|e] s2 Hprovision; cbv beta iota; [|by destruct (Hno e)].
    by wp_steps.
Qed.

(** The shell operation completes when the key file is there, the
    connection is made and every command returns. *)
Lemma ssh_completes w s (streams : string → string * string) :
  os_path_isfile w (ssh_key_path (args w)) = true →
  ssh_connect w = None →
  (∀ cmd, ssh_exec_command w cmd = Ok (streams cmd)) →
  (_perform_ssh_operations w s).1 = Ok ().
Proof.
  intros Hkey Hconnect Hexec.
  change (wp (_perform_ssh_operations w) (λ r _, r = Ok ()) s).
  pose proof (Hexec "hostname -I") as H1. pose proof (Hexec "hostname -f") as H2.
  destruct (streams "hostname -I") as [out1 err1].
  destruct (streams "hostname -f") as [out2 err2].
  unfold _perform_ssh_operations, ssh_body, ssh_client_connect, ssh_client_close.
  wp_steps. rewrite Hkey. cbn [negb]. wp_steps. rewrite Hconnect. wp_steps.
  eapply wp_ssh_lookup; [done|]. wp_steps.
  eapply wp_ssh_lookup; [done|]. wp_steps.
  eapply wp_ssh_system_information; [done|]. by wp_steps.
Qed.

(** The WinRM operation completes when the session is made, the path of
    the script is found, the three [run_ps] calls return, and the last one
    has status 0. *)
Lemma winrm_completes w s script path r1 r2 r3 :
  winrm_session_fault w = None →
  winrm_run_ps w ipconfig_cmd = Ok r1 →
  winrm_run_ps w userdomain_cmd = Ok r2 →
  head (sys_argv w) = Some script →
  os_path_abspath w script = Ok path →
  winrm_run_ps w (ps_script (script_args (sys_argv w))) = Ok r3 →
  status_code r3 = 0 →
  (_perform_winrm_operations w s).1 = Ok ().
Proof.
  intros Hsession H1 H2 Hscript Hpath H3 Hstatus.
  change (wp (_perform_winrm_operations w) (λ r _, r = Ok ()) s).
  unfold _perform_winrm_operations, winrm_init, winrm_Session, winrm_probe,
    winrm_dispatch, sys_argv_0.
  destruct (sys_argv w) as [|script' rest]; [done|]. injection Hscript as ->.
  wp_steps. rewrite Hsession. wp_steps. rewrite H1. wp_steps.
  destruct (decide (status_code r1 = 0)); wp_steps; rewrite H2; wp_steps;
    destruct (decide (status_code r2 = 0)); wp_steps;
    rewrite Hpath; wp_steps; rewrite H3; wp_steps;
    rewrite decide_True by done; by wp_steps.
Qed.

(** X15. A run completes when every collaborator answers: the secret is a
    record with both keys, the port of the URL is a number, no driver call
    fails, the database of the generated name is not there or is the
    example database, the key file is there, the SSH connection is made
    and every command returns, and, unless the recursion guard is set, the
    WinRM session is made, [os.path.abspath(sys.argv[0])] returns, the
    three [run_ps] calls return and the last has status 0.  The exit
    status is then 0 and no ERROR line is logged;
    a non-zero status of a Probe call and an empty output of a shell
    command do not stop it. *)
Theorem run_completes w s (m : gmap string json) u p addr port streams :
  secret_payload w (JObj m) →
  m !! "username" = Some u → m !! "password" = Some p →
  (mssql_address w s).1 = Ok (addr, port) →
  (∀ tr, db_fault w tr = None) →
  (Sql.databases (server s) !! db_name_at (time_time w) = None ∨
   ∃ rows next, Sql.databases (server s) !! db_name_at (time_time w)
                = Some (example_database rows next)) →
  os_path_isfile w (ssh_key_path (args w)) = true →
  ssh_connect w = None →
  (∀ cmd, ssh_exec_command w cmd = Ok (streams cmd)) →
  (prevent_winrm_recursion w = false →
     winrm_session_fault w = None ∧
     (∃ r, winrm_run_ps w ipconfig_cmd = Ok r) ∧
     (∃ r, winrm_run_ps w userdomain_cmd = Ok r) ∧
     (∃ script path, head (sys_argv w) = Some script ∧
                     os_path_abspath w script = Ok path) ∧
     (∃ r, winrm_run_ps w (ps_script (script_args (sys_argv w))) = Ok r ∧
           status_code r = 0)) →
  (run w s).1 = Ok () ∧
  exit_status (run w s).1 = 0 ∧
  logged ERROR (trace (run w s).2) = logged ERROR (trace s).
Proof.
  intros Hsecret Hu Hp Haddr Hfault Hdb Hkey Hconnect Hexec Hwinrm.
  assert (Hok : (run w s).1 = Ok ()).
  { change (wp (run w) (λ r _, r = Ok ()) s).
    unfold run. wp_steps. unfold wp at 1.
    rewrite (mssql_completes w _ m u p addr port); try done;
      [|by rewrite (mssql_address_result w _ s)].
    cbv beta iota. wp_steps. unfold wp at 1.
    rewrite (ssh_completes w _ streams) by done.
    cbv beta iota. wp_steps.
    destruct (prevent_winrm_recursion w); cbn [negb]; [by wp_steps|].
    destruct Hwinrm
      as (Hsession & [r1 H1] & [r2 H2] & (script & path & Hscript & Hpath)
          & r3 & H3 & Hstatus); [done|].
    unfold wp at 1. rewrite (winrm_completes w _ script path r1 r2 r3) by done.
    cbv beta iota. by wp_steps. }
  split; [done|]. split; [by rewrite Hok|]. by apply (run_quiet w s ()).
Qed.

Lemma run_completes_witness :
  (run Sample.plain Sample.start).1 = Ok ().
Proof.
  apply (run_completes Sample.plain Sample.start Sample.credentials
           (JStr "sa") (JStr "s3cret") "db.local" 1433
           (λ cmd, (Sample.line_of cmd, "")));
    try reflexivity.
  - eexists _, _. split; [reflexivity|]. split; reflexivity.
  - left. reflexivity.
  - intros _. split; [reflexivity|]. split; [by eexists|]. split; [by eexists|].
    split; [by eexists _, _|]. eexists. split; reflexivity.
Defined.

(** ** A secret that is not a record *)

Lemma credentials_need_a_record_witness :
  ∃ cls msg,
    (mssql_credentials Sample.world_list_secret Sample.start).1
    = Raise (Exception cls msg).
Proof.
  apply (credentials_need_a_record Sample.world_list_secret Sample.start
           (JArr [JStr "username"; JStr "password"])).
  - eexists _, _. split; [reflexivity|]. split; reflexivity.
  - intros m. discriminate.
Defined.

(** ** The driver calls of a completed operation *)

(** The driver calls of a trace, event by event. *)
Ltac observe_driver :=
  autorewrite with state_fields;
  rewrite ?driver_calls_app, ?driver_calls_log_lines;
  unfold driver_calls; cbn [omap list_omap is_driver_call];
  rewrite ?app_nil_r, <-?app_assoc; cbn [app].

Lemma mssql_create_database_calls w addr port u p s :
  wp (mssql_create_database w addr port u p)
    (λ r s', match r with
             | Ok name =>
                 name = db_name_at (time_time w) ∧
                 next_conn s' = S (next_conn s) ∧
                 driver_calls (trace s')
                 = driver_calls (trace s)
                   ++ create_database_calls addr port u p (next_conn s) name
             | Raise _ => True
             end) s.
Proof.
  unfold_script. wp_go; try done.
  split; [done|]. split; [by autorewrite with state_fields|].
  unfold create_database_calls. by observe_driver.
Qed.

Lemma mssql_provision_calls w addr port u p name s :
  wp (mssql_provision w addr port u p name)
    (λ r s', match r with
             | Ok out =>
                 driver_calls (trace s')
                 = driver_calls (trace s)
                   ++ provision_calls addr port u p (next_conn s) name out
             | Raise _ => True
             end) s.
Proof.
  unfold_script. unfold sample_data. wp_go; try done.
  unfold provision_calls, sample_data, insert_text. cbn [map fst snd].
  by observe_driver.
Qed.

(** X17. The driver calls of a database operation that completes, in
    order.  The user and password are the two values of the secret and the
    address is the one of the URL, on both connections; a cursor is taken
    from each connection as soon as it is made; the first connection is
    put in autocommit mode for CREATE DATABASE and closed
    before the second is opened on the new database; there is a commit
    after the schema, after the table and one after the three inserts; the
    read-back is the last statement, and the connection is closed after
    it. *)
Theorem database_calls_in_order w s (m : gmap string json) u p addr port :
  secret_payload w (JObj m) →
  m !! "username" = Some u → m !! "password" = Some p →
  (mssql_address w s).1 = Ok (addr, port) →
  (_perform_mssql_operations w s).1 = Ok () →
  ∃ out,
    driver_calls (trace (_perform_mssql_operations w s).2)
    = driver_calls (trace s)
      ++ create_database_calls addr port u p (next_conn s)
           (db_name_at (time_time w))
      ++ provision_calls addr port u p (S (next_conn s))
           (db_name_at (time_time w)) out.
Proof.
  intros (resp & text & Hr & Ht & Hj) Hu Hp Haddr.
  change (wp (_perform_mssql_operations w)
            (λ r s', r = Ok () →
               ∃ out,
                 driver_calls (trace s')
                 = driver_calls (trace s)
                   ++ create_database_calls addr port u p (next_conn s)
                        (db_name_at (time_time w))
                   ++ provision_calls addr port u p (S (next_conn s))
                        (db_name_at (time_time w)) out) s).
  unfold _perform_mssql_operations, mssql_body, mssql_credentials,
    _get_aws_secret.
  wp_steps. rewrite Hr. wp_steps. rewrite Ht. wp_steps. rewrite Hj. wp_steps.
  rewrite (all_keys_present m u p Hu Hp). wp_steps.
  cbn [negb py_getitem]. wp_steps. rewrite Hu. wp_steps. rewrite Hp. wp_steps.
  apply (wp_mssql_address _ _ _ s). rewrite Haddr. cbv beta iota. wp_steps.
  eapply wp_mono; [apply mssql_create_database_calls|].
  intros [name|e] s1 Hcreate; cbv beta iota; [|by wp_go].
  destruct Hcreate as (-> & Hconn & Hcalls).
  apply wp_bind. eapply wp_mono; [apply mssql_provision_calls|].
  intros [out|e] s2 Hprovision; cbv beta iota; [|by wp_go].
  wp_steps. intros _. exists out.
  autorewrite with state_fields in *.
  rewrite driver_calls_app, Hprovision, Hcalls, Hconn.
  rewrite !driver_calls_app. unfold driver_calls at 2 3 4 5 6.
  cbn [omap list_omap is_driver_call]. by rewrite ?app_nil_r, <-?app_assoc.
Qed.

Lemma database_calls_in_order_witness :
  ∃ out,
    driver_calls (trace (_perform_mssql_operations Sample.plain Sample.start).2)
    = create_database_calls "db.local" 1433 (JStr "sa") (JStr "s3cret") 0
        "ExampleDB_1700000000"
      ++ provision_calls "db.local" 1433 (JStr "sa") (JStr "s3cret") 1
           "ExampleDB_1700000000" out.
Proof.
  apply (database_calls_in_order Sample.plain Sample.start Sample.credentials
           (JStr "sa") (JStr "s3cret") "db.local" 1433); try reflexivity.
  eexists _, _. split; [reflexivity|]. split; reflexivity.
Defined.

(** ** A refused SSH connection *)

(** X19. When [connect] raises, the shell operation logs the error and
    raises it again; no command is run and no session is left open. *)
Theorem refused_connection_runs_no_command w s cls msg :
  os_path_isfile w (ssh_key_path (args w)) = true →
  ssh_connect w = Some (Exception cls msg) →
  let r := _perform_ssh_operations w s in
  r.1 = Raise (Exception cls msg) ∧
  exec_command_calls (trace r.2) = exec_command_calls (trace s) ∧
  sessions r.2 = sessions s ∧
  logged ERROR (trace r.2)
    = logged ERROR (trace s) ++ ["Error during SSH operations: " +:+ msg].
Proof.
  intros Hkey Hconnect r.
  cut (wp (_perform_ssh_operations w)
         (λ r s', r = Raise (Exception cls msg) ∧
            exec_command_calls (trace s') = exec_command_calls (trace s) ∧
            sessions s' = sessions s ∧
            logged ERROR (trace s')
            = logged ERROR (trace s)
              ++ ["Error during SSH operations: " +:+ msg]) s); [done|].
  unfold _perform_ssh_operations, ssh_body, ssh_client_connect. wp_steps.
  rewrite Hkey. cbn [negb]. wp_steps. rewrite Hconnect. wp_steps.
  autorewrite with state_fields. unfold exec_command_calls, logged.
  rewrite !omap_app. cbn -[String.append]. by rewrite !app_nil_r.
Qed.

Lemma refused_connection_runs_no_command_witness :
  exec_command_calls
    (trace (_perform_ssh_operations Sample.world_ssh_refused Sample.start).2)
  = [].
Proof.
  apply (refused_connection_runs_no_command Sample.world_ssh_refused
           Sample.start "AuthenticationException" "Authentication failed.");
    reflexivity.
Defined.
